(** * AuditLoggingService: a shallow embedding and its verified properties

    Source: [src/services/audit-logging.service.ts].

    The service is a thin layer over a relational store ([prisma.auditLog]),
    the host clock ([new Date()]), the host JSON codec ([JSON.stringify],
    [JSON.parse]) and the diagnostic console.  The embedding is organised as:

    - [Completion]: how a JavaScript call ends (returns or throws);
    - [JSDate]: the ECMAScript date algorithms the service relies on
      ([getDate], [setDate], [toISOString]);
    - [JSON]: JSON values, [JSON.stringify] and [JSON.parse];
    - the data model ([AuditLogEntry], [AuditLogFilter], stored rows);
    - [Prisma], [World], [MemoryStore]: the store interface, the state the
      service acts on, and an in-memory reference store;
    - [AuditLoggingService]: the static methods of the class that call
      [create], [findMany] and [deleteMany];
    - [Vocabulary], [Samples]: the notions the properties are stated with,
      and concrete worlds to run the service on;
    - [AuditStats]: [getAuditStats] and the [groupBy] operation it calls;
      [MoreVocabulary]: the notions of the further properties;
    - facts about the codecs, the dates, the store, the export, the
      statistics, the recorders and the query;
    - the properties of the service, and further properties of it.

    Conventions.  A JavaScript string is a [string] whose characters are read
    as code units below 256.  A [Date] is its time value: milliseconds since
    the epoch, an integer.  Optional fields ([undefined] or a database NULL)
    are [option]s.  [async] methods are run sequentially: awaiting a rejected
    promise is a throw. *)

From Stdlib Require Import ZArith NArith Lia Bool List String Ascii.
From Stdlib Require Import Permutation.
From Stdlib Require DecimalPos DecimalFacts.
Import ListNotations.

Local Open Scope Z_scope.
Local Open Scope list_scope.

(* ------------------------------------------------------------------ *)
(** * Completions *)

Module Completion.

(** Errors the modelled code can raise. *)
Inductive JsError : Type :=
| SyntaxError                 (* JSON.parse on malformed text *)
| RangeError                  (* invalid time value *)
| StoreError (msg : string).  (* a failure reported by the store *)

(** How a call ends.  [Unmodelled] marks an input whose JavaScript
    behaviour this embedding does not represent (a number that is not a
    safe integer, a character beyond code unit 255); nothing is concluded
    about the program from it. *)
Inductive outcome (A : Type) : Type :=
| Returned (a : A)
| Thrown (e : JsError)
| Unmodelled.

Arguments Returned {A} a.
Arguments Thrown {A} e.
Arguments Unmodelled {A}.

Definition obind {A B} (o : outcome A) (k : A -> outcome B) : outcome B :=
  match o with
  | Returned a => k a
  | Thrown e => Thrown e
  | Unmodelled => Unmodelled
  end.

(** [Array.prototype.map] with a callback that may throw: the elements are
    visited in order and the first throw ends the whole call. *)
Fixpoint map_outcome {A B} (f : A -> outcome B) (l : list A)
  : outcome (list B) :=
  match l with
  | [] => Returned []
  | x :: l' =>
      obind (f x) (fun y =>
      obind (map_outcome f l') (fun ys => Returned (y :: ys)))
  end.

End Completion.
Import Completion.

(* ------------------------------------------------------------------ *)
(** * Decimal digits *)

Module Digits.

Fixpoint uint_chars (u : Decimal.uint) : list ascii :=
  match u with
  | Decimal.Nil => []
  | Decimal.D0 u => "0"%char :: uint_chars u
  | Decimal.D1 u => "1"%char :: uint_chars u
  | Decimal.D2 u => "2"%char :: uint_chars u
  | Decimal.D3 u => "3"%char :: uint_chars u
  | Decimal.D4 u => "4"%char :: uint_chars u
  | Decimal.D5 u => "5"%char :: uint_chars u
  | Decimal.D6 u => "6"%char :: uint_chars u
  | Decimal.D7 u => "7"%char :: uint_chars u
  | Decimal.D8 u => "8"%char :: uint_chars u
  | Decimal.D9 u => "9"%char :: uint_chars u
  end.

(** The decimal digits of a natural number, most significant first, no
    leading zero ([0] is one digit). *)
Definition decimal (n : N) : list ascii := uint_chars (N.to_uint n).

(** [String(n)] for an integer [n] below 10^21 in magnitude. *)
Definition Z_to_chars (z : Z) : list ascii :=
  if z <? 0 then "-"%char :: decimal (Z.abs_N z) else decimal (Z.abs_N z).

(** [padStart(width, '0')] on the decimal digits. *)
Definition pad (width : nat) (n : Z) : list ascii :=
  let ds := decimal (Z.to_N n) in
  repeat "0"%char (width - List.length ds)%nat ++ ds.

End Digits.

(* ------------------------------------------------------------------ *)
(** * ECMAScript dates (ECMA-262, Date objects) *)

Module JSDate.

Definition msPerDay : Z := 86400000.
Definition msPerHour : Z := 3600000.
Definition msPerMinute : Z := 60000.
Definition msPerSecond : Z := 1000.

Definition Day (t : Z) : Z := t / msPerDay.
Definition TimeWithinDay (t : Z) : Z := t mod msPerDay.

Definition DaysInYear (y : Z) : Z :=
  if negb (y mod 4 =? 0) then 365
  else if negb (y mod 100 =? 0) then 366
  else if negb (y mod 400 =? 0) then 365
  else 366.

Definition DayFromYear (y : Z) : Z :=
  365 * (y - 1970) + (y - 1969) / 4 - (y - 1901) / 100 + (y - 1601) / 400.

Definition TimeFromYear (y : Z) : Z := msPerDay * DayFromYear y.

(** The year whose first day is the latest one not after day [d]: a
    first guess from the mean year length, corrected by at most one. *)
Definition YearFromDay (d : Z) : Z :=
  let y0 := 1970 + (d * 400) / 146097 in
  if d <? DayFromYear y0 then y0 - 1
  else if DayFromYear (y0 + 1) <=? d then y0 + 1
  else y0.

(** "the largest integer y such that TimeFromYear(y) <= t" *)
Definition YearFromTime (t : Z) : Z := YearFromDay (Day t).

Definition InLeapYear (t : Z) : Z :=
  if DaysInYear (YearFromTime t) =? 366 then 1 else 0.

Definition DayWithinYear (t : Z) : Z := Day t - DayFromYear (YearFromTime t).

Definition MonthFromTime (t : Z) : Z :=
  let d := DayWithinYear t in
  let leap := InLeapYear t in
  if d <? 31 then 0
  else if d <? 59 + leap then 1
  else if d <? 90 + leap then 2
  else if d <? 120 + leap then 3
  else if d <? 151 + leap then 4
  else if d <? 181 + leap then 5
  else if d <? 212 + leap then 6
  else if d <? 243 + leap then 7
  else if d <? 273 + leap then 8
  else if d <? 304 + leap then 9
  else if d <? 334 + leap then 10
  else 11.

Definition DateFromTime (t : Z) : Z :=
  let d := DayWithinYear t in
  let leap := InLeapYear t in
  match MonthFromTime t with
  | 0 => d + 1
  | 1 => d - 30
  | 2 => d - 58 - leap
  | 3 => d - 89 - leap
  | 4 => d - 119 - leap
  | 5 => d - 150 - leap
  | 6 => d - 180 - leap
  | 7 => d - 211 - leap
  | 8 => d - 242 - leap
  | 9 => d - 272 - leap
  | 10 => d - 303 - leap
  | _ => d - 333 - leap
  end.

Definition HourFromTime (t : Z) : Z := (t / msPerHour) mod 24.
Definition MinFromTime (t : Z) : Z := (t / msPerMinute) mod 60.
Definition SecFromTime (t : Z) : Z := (t / msPerSecond) mod 60.
Definition msFromTime (t : Z) : Z := t mod msPerSecond.

(** Day number, within its year, of the first day of month [mn]. *)
Definition monthStart (mn leap : Z) : Z :=
  match mn with
  | 0 => 0
  | 1 => 31
  | 2 => 59 + leap
  | 3 => 90 + leap
  | 4 => 120 + leap
  | 5 => 151 + leap
  | 6 => 181 + leap
  | 7 => 212 + leap
  | 8 => 243 + leap
  | 9 => 273 + leap
  | 10 => 304 + leap
  | _ => 334 + leap
  end.

(** [MakeDay(year, month, date)]: the day number of the first day of the
    month, plus [date - 1]. *)
Definition MakeDay (year month date : Z) : Z :=
  let ym := year + month / 12 in
  let mn := month mod 12 in
  let leap := if DaysInYear ym =? 366 then 1 else 0 in
  DayFromYear ym + monthStart mn leap + date - 1.

Definition MakeDate (day time : Z) : Z := day * msPerDay + time.

(** A [Date]'s time value: [None] is NaN (an invalid date). *)
Definition TimeValue : Type := option Z.

Definition maxTime : Z := 8640000000000000.

Definition TimeClip (time : Z) : TimeValue :=
  if Z.abs time >? maxTime then None else Some time.

Section LocalZone.
(** The host's offset of local time from UTC, in milliseconds, at a time
    value; the flag tells whether the time value is a UTC one. *)
Variable LocalTZA : Z -> bool -> Z.

Definition LocalTime (t : Z) : Z := t + LocalTZA t true.
Definition UTC (t : Z) : Z := t - LocalTZA t false.

(** [Date.prototype.getDate]: NaN for an invalid date. *)
Definition getDate (tv : TimeValue) : option Z :=
  match tv with
  | None => None
  | Some t => Some (DateFromTime (LocalTime t))
  end.

(** [Date.prototype.setDate(date)]: the new time value. *)
Definition setDate (tv : TimeValue) (date : option Z) : TimeValue :=
  match tv, date with
  | Some t0, Some dt =>
      let t := LocalTime t0 in
      let newDate :=
        MakeDate (MakeDay (YearFromTime t) (MonthFromTime t) dt)
                 (TimeWithinDay t) in
      TimeClip (UTC newDate)
  | _, _ => None
  end.
End LocalZone.

(** [Date.prototype.toISOString] on a valid time value:
    [YYYY-MM-DDTHH:mm:ss.sssZ], with a signed six-digit year outside
    0..9999. *)
Definition isoYear (y : Z) : list ascii :=
  if (0 <=? y) && (y <=? 9999) then Digits.pad 4 y
  else (if y <? 0 then "-"%char else "+"%char) :: Digits.pad 6 (Z.abs y).

Definition toISOString (t : Z) : string :=
  string_of_list_ascii
    (isoYear (YearFromTime t) ++ "-"%char ::
     Digits.pad 2 (MonthFromTime t + 1) ++ "-"%char ::
     Digits.pad 2 (DateFromTime t) ++ "T"%char ::
     Digits.pad 2 (HourFromTime t) ++ ":"%char ::
     Digits.pad 2 (MinFromTime t) ++ ":"%char ::
     Digits.pad 2 (SecFromTime t) ++ "."%char ::
     Digits.pad 3 (msFromTime t) ++ ["Z"%char]).

End JSDate.

(* ------------------------------------------------------------------ *)
(** * JSON values, JSON.stringify and JSON.parse (ECMA-262, the JSON object) *)

Module JSON.

(** Plain JSON data.  A number is an integer; the ones JavaScript holds
    exactly are the safe integers.  [JObj] lists the own properties of an
    object in the order they are enumerated, each key once; deep equality
    of objects does not depend on that order, and the place JavaScript
    gives to keys that are array indices is not modelled. *)
#[local] Unset Elimination Schemes.
Inductive json : Type :=
| JNull
| JBool (b : bool)
| JNum (n : Z)
| JStr (s : string)
| JArr (items : list json)
| JObj (props : list (string * json)).
#[local] Set Elimination Schemes.

(** [Record<string, any>]: an object given by its properties. *)
Definition JSRecord : Type := list (string * json).

Definition maxSafeInteger : Z := 9007199254740991.

Definition dquote : ascii := "034"%char.
Definition backslash : ascii := "\"%char.

Fixpoint nodup_keys (ks : list string) : bool :=
  match ks with
  | [] => true
  | k :: ks' =>
      negb (existsb (String.eqb k) ks') && nodup_keys ks'
  end.

(** The values that are JSON data of JavaScript in this model: every
    number is a safe integer and no object repeats a key. *)
Fixpoint representable (v : json) : bool :=
  match v with
  | JNull | JBool _ | JStr _ => true
  | JNum n => Z.abs n <=? maxSafeInteger
  | JArr items => forallb representable items
  | JObj props =>
      nodup_keys (map fst props)
      && forallb (fun kv => representable (snd kv)) props
  end.

(** ** JSON.stringify (no replacer, no indentation) *)

Definition hex_digit (n : N) : ascii :=
  if (n <? 10)%N then ascii_of_N (48 + n) else ascii_of_N (87 + n).

(** One code unit of a string inside [QuoteJSONString]. *)
Definition quote_char (c : ascii) : list ascii :=
  match N_of_ascii c with
  | 8%N => [backslash; "b"%char]
  | 9%N => [backslash; "t"%char]
  | 10%N => [backslash; "n"%char]
  | 12%N => [backslash; "f"%char]
  | 13%N => [backslash; "r"%char]
  | 34%N => [backslash; dquote]
  | 92%N => [backslash; backslash]
  | n =>
      if (n <? 32)%N
      then [backslash; "u"%char; "0"%char; "0"%char;
            hex_digit (n / 16); hex_digit (n mod 16)]
      else [c]
  end.

Definition QuoteJSONString (s : string) : list ascii :=
  dquote :: flat_map quote_char (list_ascii_of_string s) ++ [dquote].

Definition chars (s : string) : list ascii := list_ascii_of_string s.

(** The items of an array, separated by commas. *)
Definition print_elements (pr : json -> list ascii)
  : list json -> list ascii :=
  fix elements (l : list json) : list ascii :=
    match l with
    | [] => []
    | x :: l' =>
        pr x ++ match l' with [] => [] | _ => ","%char :: elements l' end
    end.

(** The properties of an object: quoted key, colon, value. *)
Definition print_members (pr : json -> list ascii)
  : list (string * json) -> list ascii :=
  fix members (l : list (string * json)) : list ascii :=
    match l with
    | [] => []
    | kv :: l' =>
        QuoteJSONString (fst kv) ++ ":"%char :: pr (snd kv) ++
        match l' with [] => [] | _ => ","%char :: members l' end
    end.

Fixpoint print (v : json) : list ascii :=
  match v with
  | JNull => chars "null"
  | JBool true => chars "true"
  | JBool false => chars "false"
  | JNum n => Digits.Z_to_chars n
  | JStr s => QuoteJSONString s
  | JArr items => "["%char :: print_elements print items ++ ["]"%char]
  | JObj props => "{"%char :: print_members print props ++ ["}"%char]
  end.

Definition JSON_stringify (v : json) : string :=
  string_of_list_ascii (print v).

(** ** JSON.parse (no reviver) *)

Definition is_ws (c : ascii) : bool :=
  match N_of_ascii c with
  | 32%N | 9%N | 10%N | 13%N => true
  | _ => false
  end.

Fixpoint skip_ws (cs : list ascii) : list ascii :=
  match cs with
  | c :: cs' => if is_ws c then skip_ws cs' else cs
  | [] => []
  end.

Fixpoint strip_prefix (lit cs : list ascii) : option (list ascii) :=
  match lit, cs with
  | [], _ => Some cs
  | a :: lit', c :: cs' =>
      if Ascii.eqb a c then strip_prefix lit' cs' else None
  | _ :: _, [] => None
  end.

Definition hex_val (c : ascii) : option N :=
  let n := N_of_ascii c in
  if ((48 <=? n) && (n <=? 57))%N then Some (n - 48)%N
  else if ((97 <=? n) && (n <=? 102))%N then Some (n - 87)%N
  else if ((65 <=? n) && (n <=? 70))%N then Some (n - 55)%N
  else None.

(** The character a two-character escape stands for. *)
Definition simple_escape (e : ascii) : option ascii :=
  match N_of_ascii e with
  | 34%N => Some dquote
  | 92%N => Some backslash
  | 47%N => Some "/"%char
  | 98%N => Some "008"%char
  | 102%N => Some "012"%char
  | 110%N => Some "010"%char
  | 114%N => Some "013"%char
  | 116%N => Some "009"%char
  | _ => None
  end.

Definition cons_char (c : ascii) (r : string * list ascii)
  : outcome (string * list ascii) :=
  Returned (String c (fst r), snd r).

(** The characters of a string literal after its opening quote, up to and
    including the closing quote. *)
Fixpoint parse_chars (cs : list ascii) : outcome (string * list ascii) :=
  match cs with
  | [] => Thrown SyntaxError
  | c :: cs' =>
      if Ascii.eqb c dquote then Returned (EmptyString, cs')
      else if Ascii.eqb c backslash then
        match cs' with
        | [] => Thrown SyntaxError
        | e :: cs'' =>
            if Ascii.eqb e "u"%char then
              match cs'' with
              | h1 :: h2 :: h3 :: h4 :: r =>
                  match hex_val h1, hex_val h2, hex_val h3, hex_val h4 with
                  | Some a, Some b, Some c3, Some d =>
                      if ((a =? 0) && (b =? 0))%N
                      then obind (parse_chars r)
                                 (cons_char (ascii_of_N (16 * c3 + d)))
                      else Unmodelled
                  | _, _, _, _ => Thrown SyntaxError
                  end
              | _ => Thrown SyntaxError
              end
            else
              match simple_escape e with
              | Some x => obind (parse_chars cs'') (cons_char x)
              | None => Thrown SyntaxError
              end
        end
      else if (N_of_ascii c <? 32)%N then Thrown SyntaxError
      else obind (parse_chars cs') (cons_char c)
  end.

Definition digit_cons (c : ascii) : option (Decimal.uint -> Decimal.uint) :=
  match N_of_ascii c with
  | 48%N => Some Decimal.D0
  | 49%N => Some Decimal.D1
  | 50%N => Some Decimal.D2
  | 51%N => Some Decimal.D3
  | 52%N => Some Decimal.D4
  | 53%N => Some Decimal.D5
  | 54%N => Some Decimal.D6
  | 55%N => Some Decimal.D7
  | 56%N => Some Decimal.D8
  | 57%N => Some Decimal.D9
  | _ => None
  end.

Fixpoint scan_digits (cs : list ascii) : Decimal.uint * list ascii :=
  match cs with
  | [] => (Decimal.Nil, [])
  | c :: cs' =>
      match digit_cons c with
      | Some d => let (u, r) := scan_digits cs' in (d u, r)
      | None => (Decimal.Nil, cs)
      end
  end.

(** Does a fraction or an exponent follow the integer part? *)
Definition continues_number (r : list ascii) : bool :=
  match r with
  | c :: _ =>
      match N_of_ascii c with
      | 46%N | 101%N | 69%N => true
      | _ => false
      end
  | [] => false
  end.

(** The value of an integer literal; a fraction, an exponent, negative zero
    and integers that are not safe are left out of the model. *)
Definition finish_number (neg : bool) (n : N) (r : list ascii)
  : outcome (json * list ascii) :=
  if continues_number r then Unmodelled
  else if neg && (n =? 0)%N then Unmodelled
  else if (Z.of_N n >? maxSafeInteger) then Unmodelled
  else Returned (JNum (if neg then - Z.of_N n else Z.of_N n), r).

Definition parse_number (cs : list ascii) : outcome (json * list ascii) :=
  let (neg, cs1) :=
    match cs with
    | c :: r => if Ascii.eqb c "-"%char then (true, r) else (false, cs)
    | [] => (false, cs)
    end in
  match cs1 with
  | [] => Thrown SyntaxError
  | c :: r =>
      if Ascii.eqb c "0"%char then finish_number neg 0%N r
      else
        match digit_cons c with
        | Some _ =>
            let (u, r') := scan_digits cs1 in
            finish_number neg (N.of_uint u) r'
        | None => Thrown SyntaxError
        end
  end.

(** [CreateDataProperty] while an object literal is read: a repeated key
    overwrites the value it had. *)
Fixpoint set_prop (k : string) (v : json) (o : JSRecord) : JSRecord :=
  match o with
  | [] => [(k, v)]
  | (k', v') :: o' =>
      if String.eqb k k' then (k', v) :: o' else (k', v') :: set_prop k v o'
  end.

Definition object_of_members (ms : list (string * json)) : JSRecord :=
  fold_left (fun o kv => set_prop (fst kv) (snd kv) o) ms [].

(** Recursive descent; [fuel] bounds the nesting and the number of items,
    and running out of it is [Unmodelled]. *)
Fixpoint parse_value (fuel : nat) (cs : list ascii) {struct fuel}
  : outcome (json * list ascii) :=
  match fuel with
  | O => Unmodelled
  | S fuel' =>
      match skip_ws cs with
      | [] => Thrown SyntaxError
      | c :: r =>
          match N_of_ascii c with
          | 110%N =>
              match strip_prefix (chars "ull") r with
              | Some r' => Returned (JNull, r')
              | None => Thrown SyntaxError
              end
          | 116%N =>
              match strip_prefix (chars "rue") r with
              | Some r' => Returned (JBool true, r')
              | None => Thrown SyntaxError
              end
          | 102%N =>
              match strip_prefix (chars "alse") r with
              | Some r' => Returned (JBool false, r')
              | None => Thrown SyntaxError
              end
          | 34%N =>
              obind (parse_chars r) (fun sr => Returned (JStr (fst sr), snd sr))
          | 91%N =>
              match skip_ws r with
              | c2 :: r2 =>
                  if Ascii.eqb c2 "]"%char then Returned (JArr [], r2)
                  else obind (parse_elements fuel' r)
                             (fun lr => Returned (JArr (fst lr), snd lr))
              | [] => Thrown SyntaxError
              end
          | 123%N =>
              match skip_ws r with
              | c2 :: r2 =>
                  if Ascii.eqb c2 "}"%char then Returned (JObj [], r2)
                  else obind (parse_members fuel' r)
                             (fun lr =>
                                Returned (JObj (object_of_members (fst lr)),
                                          snd lr))
              | [] => Thrown SyntaxError
              end
          | _ =>
              if Ascii.eqb c "-"%char
                 || match digit_cons c with Some _ => true | None => false end
              then parse_number (c :: r)
              else Thrown SyntaxError
          end
      end
  end

with parse_elements (fuel : nat) (cs : list ascii) {struct fuel}
  : outcome (list json * list ascii) :=
  match fuel with
  | O => Unmodelled
  | S fuel' =>
      obind (parse_value fuel' cs) (fun vr =>
        match skip_ws (snd vr) with
        | c :: r =>
            if Ascii.eqb c ","%char then
              obind (parse_elements fuel' r)
                    (fun lr => Returned (fst vr :: fst lr, snd lr))
            else if Ascii.eqb c "]"%char then Returned ([fst vr], r)
            else Thrown SyntaxError
        | [] => Thrown SyntaxError
        end)
  end

with parse_members (fuel : nat) (cs : list ascii) {struct fuel}
  : outcome (list (string * json) * list ascii) :=
  match fuel with
  | O => Unmodelled
  | S fuel' =>
      match skip_ws cs with
      | c :: r =>
          if Ascii.eqb c dquote then
            obind (parse_chars r) (fun kr =>
              match skip_ws (snd kr) with
              | c2 :: r2 =>
                  if Ascii.eqb c2 ":"%char then
                    obind (parse_value fuel' r2) (fun vr =>
                      match skip_ws (snd vr) with
                      | c3 :: r3 =>
                          if Ascii.eqb c3 ","%char then
                            obind (parse_members fuel' r3)
                                  (fun lr =>
                                     Returned ((fst kr, fst vr) :: fst lr,
                                               snd lr))
                          else if Ascii.eqb c3 "}"%char
                          then Returned ([(fst kr, fst vr)], r3)
                          else Thrown SyntaxError
                      | [] => Thrown SyntaxError
                      end)
                  else Thrown SyntaxError
              | [] => Thrown SyntaxError
              end)
          else Thrown SyntaxError
      | [] => Thrown SyntaxError
      end
  end.

(** The whole text is one value, white space allowed around it. *)
Definition JSON_parse (s : string) : outcome json :=
  let cs := list_ascii_of_string s in
  obind (parse_value (S (2 * List.length cs)) cs) (fun vr =>
    match skip_ws (snd vr) with
    | [] => Returned (fst vr)
    | _ :: _ => Thrown SyntaxError
    end).

End JSON.
Import JSON.

(* ------------------------------------------------------------------ *)
(** * The data model *)

(** [enum AuditActionType]: every member's value is its own name. *)
Inductive AuditActionType : Set :=
| USER_CREATED | USER_UPDATED | USER_DELETED | USER_ACTIVATED
| USER_DEACTIVATED
| PERMISSION_GRANTED | PERMISSION_REVOKED | ROLE_CHANGED | ROLE_CREATED
| ROLE_UPDATED | ROLE_DELETED
| BULK_OPERATION_STARTED | BULK_OPERATION_COMPLETED | BULK_OPERATION_FAILED
| SETTING_CHANGED | SETTINGS_EXPORTED | SETTINGS_IMPORTED
| LOGIN | LOGOUT | FAILED_LOGIN | PASSWORD_CHANGED | MFA_ENABLED
| MFA_DISABLED.

(** [enum AuditSeverity] *)
Inductive AuditSeverity : Set := INFO | WARNING | CRITICAL.

Scheme Equality for AuditActionType.
Scheme Equality for AuditSeverity.

Definition AuditActionType_value (a : AuditActionType) : string :=
  match a with
  | USER_CREATED => "USER_CREATED"
  | USER_UPDATED => "USER_UPDATED"
  | USER_DELETED => "USER_DELETED"
  | USER_ACTIVATED => "USER_ACTIVATED"
  | USER_DEACTIVATED => "USER_DEACTIVATED"
  | PERMISSION_GRANTED => "PERMISSION_GRANTED"
  | PERMISSION_REVOKED => "PERMISSION_REVOKED"
  | ROLE_CHANGED => "ROLE_CHANGED"
  | ROLE_CREATED => "ROLE_CREATED"
  | ROLE_UPDATED => "ROLE_UPDATED"
  | ROLE_DELETED => "ROLE_DELETED"
  | BULK_OPERATION_STARTED => "BULK_OPERATION_STARTED"
  | BULK_OPERATION_COMPLETED => "BULK_OPERATION_COMPLETED"
  | BULK_OPERATION_FAILED => "BULK_OPERATION_FAILED"
  | SETTING_CHANGED => "SETTING_CHANGED"
  | SETTINGS_EXPORTED => "SETTINGS_EXPORTED"
  | SETTINGS_IMPORTED => "SETTINGS_IMPORTED"
  | LOGIN => "LOGIN"
  | LOGOUT => "LOGOUT"
  | FAILED_LOGIN => "FAILED_LOGIN"
  | PASSWORD_CHANGED => "PASSWORD_CHANGED"
  | MFA_ENABLED => "MFA_ENABLED"
  | MFA_DISABLED => "MFA_DISABLED"
  end.

Definition AuditSeverity_value (s : AuditSeverity) : string :=
  match s with
  | INFO => "INFO"
  | WARNING => "WARNING"
  | CRITICAL => "CRITICAL"
  end.

(** [interface AuditLogEntry]: what a caller hands to the recorder. *)
Module Entry.
Record t : Type := mk {
  actionType : AuditActionType;
  severity : AuditSeverity;
  userId : string;
  tenantId : string;
  targetUserId : option string;
  targetResourceId : option string;
  targetResourceType : option string;
  description : string;
  changes : option JSRecord;
  metadata : option JSRecord;
  ipAddress : option string;
  userAgent : option string
}.
End Entry.
Definition AuditLogEntry : Type := Entry.t.

(** A row of the [auditLog] table, with the columns [logAuditEvent] writes:
    [changes] and [metadata] hold text or NULL, [timestamp] a time value. *)
Module Row.
Record t : Type := mk {
  actionType : AuditActionType;
  severity : AuditSeverity;
  userId : string;
  tenantId : string;
  targetUserId : option string;
  targetResourceId : option string;
  targetResourceType : option string;
  description : string;
  changes : option string;
  metadata : option string;
  ipAddress : option string;
  userAgent : option string;
  timestamp : Z
}.
End Row.

(** What [queryAuditLogs] returns for a row: the row with [changes] and
    [metadata] replaced by the parsed values ([JNull] for [null]). *)
Module Log.
Record t : Type := mk {
  actionType : AuditActionType;
  severity : AuditSeverity;
  userId : string;
  tenantId : string;
  targetUserId : option string;
  targetResourceId : option string;
  targetResourceType : option string;
  description : string;
  changes : json;
  metadata : json;
  ipAddress : option string;
  userAgent : option string;
  timestamp : Z
}.
End Log.

(** [A | A[]] *)
Inductive OneOrMany (A : Type) : Type :=
| One (a : A)
| Many (l : list A).
Arguments One {A} a.
Arguments Many {A} l.

(** [interface AuditLogFilter].  [limit] and [offset] are counts.  A [Date]
    is its time value, [None] for an invalid date. *)
Module Filter.
Record DateRange : Type := mkRange {
  startDate : JSDate.TimeValue;
  endDate : JSDate.TimeValue
}.

Record t : Type := mk {
  userId : option string;
  tenantId : string;
  actionType : option (OneOrMany AuditActionType);
  targetUserId : option string;
  severity : option (OneOrMany AuditSeverity);
  dateRange : option DateRange;
  limit : option N;
  offset : option N
}.
End Filter.
Definition AuditLogFilter : Type := Filter.t.

(** Truthiness of an optional string and of an optional count: [undefined],
    the empty string and [0] are falsy. *)
Definition truthy_string (o : option string) : bool :=
  match o with
  | Some s => negb (String.eqb s "")
  | None => false
  end.

Definition or_default (o : option N) (d : N) : N :=
  match o with
  | Some n => if (n =? 0)%N then d else n
  | None => d
  end.

(* ------------------------------------------------------------------ *)
(** * The store interface ([prisma.auditLog]) *)

Module Prisma.

(** A field condition: equality, or membership ([{ in: [...] }]). *)
Inductive EnumFilter (A : Type) : Type :=
| Equals (a : A)
| In_ (l : list A).
Arguments Equals {A} a.
Arguments In_ {A} l.

(** [{ gte, lte, lt }] on a [DateTime] column. *)
Record DateTimeFilter : Type := mkDateTimeFilter {
  gte : option JSDate.TimeValue;
  lte : option JSDate.TimeValue;
  lt : option JSDate.TimeValue
}.

(** [AuditLogWhereInput], restricted to the fields the service sets; an
    absent field does not constrain the rows. *)
Module Where.
Record t : Type := mk {
  tenantId : option string;
  userId : option string;
  actionType : option (EnumFilter AuditActionType);
  targetUserId : option string;
  severity : option (EnumFilter AuditSeverity);
  timestamp : option DateTimeFilter
}.
End Where.

Inductive SortOrder : Set := asc | desc.

Record FindManyArgs : Type := mkFindManyArgs {
  where_ : Where.t;
  orderBy_timestamp : SortOrder;
  take : N;
  skip : N
}.

(** ** The meaning of a [where] object on a row *)

Definition holds {A} (o : option A) (p : A -> bool) : bool :=
  match o with
  | Some a => p a
  | None => true
  end.

Definition enum_matches {A} (eqb : A -> A -> bool) (x : A)
           (f : EnumFilter A) : bool :=
  match f with
  | Equals a => eqb x a
  | In_ l => existsb (eqb x) l
  end.

Definition string_field_is (field : option string) (v : string) : bool :=
  match field with
  | Some x => String.eqb x v
  | None => false
  end.

(** A bound that is an invalid date is rejected before the query runs
    (see [dates_valid]); here it leaves the row out. *)
Definition bound (cmp : Z -> Z -> bool) (ts : Z) (b : JSDate.TimeValue)
  : bool :=
  match b with
  | Some d => cmp ts d
  | None => false
  end.

Definition date_matches (ts : Z) (f : DateTimeFilter) : bool :=
  holds (gte f) (bound Z.geb ts)
  && holds (lte f) (bound Z.leb ts)
  && holds (lt f) (bound Z.ltb ts).

(** Modelled from the spec: the store behind [prisma.auditLog] comes from
    [@/lib/prisma], which is not among the sources.  It filters on an
    equality predicate per field, a set-membership predicate and a range
    predicate on the timestamp column; the conditions of a [where] object
    hold together. *)
Definition matches (w : Where.t) (r : Row.t) : bool :=
  holds (Where.tenantId w) (String.eqb (Row.tenantId r))
  && holds (Where.userId w) (String.eqb (Row.userId r))
  && holds (Where.actionType w)
           (enum_matches AuditActionType_beq (Row.actionType r))
  && holds (Where.targetUserId w) (string_field_is (Row.targetUserId r))
  && holds (Where.severity w)
           (enum_matches AuditSeverity_beq (Row.severity r))
  && holds (Where.timestamp w) (date_matches (Row.timestamp r)).

Definition is_valid_date (b : JSDate.TimeValue) : bool :=
  match b with Some _ => true | None => false end.

(** Modelled from the spec: the store takes dates as range bounds; an
    invalid [Date] is no date, and the client refuses a query that holds
    one. *)
Definition dates_valid (w : Where.t) : bool :=
  holds (Where.timestamp w) (fun f =>
    holds (gte f) is_valid_date
    && holds (lte f) is_valid_date
    && holds (lt f) is_valid_date).

(** ** Ordering and pagination *)

(** Does a row with timestamp [x] go before one with timestamp [y]?  On
    equal timestamps it does, whatever the order. *)
Definition precedes (o : SortOrder) (x y : Z) : bool :=
  match o with
  | desc => y <=? x
  | asc => x <=? y
  end.

Fixpoint insert_by (o : SortOrder) (x : Row.t) (l : list Row.t)
  : list Row.t :=
  match l with
  | [] => [x]
  | y :: l' =>
      if precedes o (Row.timestamp x) (Row.timestamp y) then x :: l
      else y :: insert_by o x l'
  end.

(** A stable sort on [timestamp].  The store does not fix the order of
    rows with equal timestamps; here they keep their table order. *)
Definition sort_by (o : SortOrder) (l : list Row.t) : list Row.t :=
  fold_right (insert_by o) [] l.

Definition paginate (take skip : N) (l : list Row.t) : list Row.t :=
  firstn (N.to_nat take) (skipn (N.to_nat skip) l).

End Prisma.
Import Prisma.

(* ------------------------------------------------------------------ *)
(** * The world the service runs in *)

(** The table, the diagnostic console and the clock. *)
Record World : Type := mkWorld {
  db : list Row.t;
  console : list (string * JsError);
  clock : Z
}.

(** A computation: from a world to how it ends and the world it leaves. *)
Definition M (A : Type) : Type := World -> outcome A * World.

Definition ret {A} (a : A) : M A := fun w => (Returned a, w).

Definition bind {A B} (m : M A) (k : A -> M B) : M B :=
  fun w =>
    match m w with
    | (Returned a, w') => k a w'
    | (Thrown e, w') => (Thrown e, w')
    | (Unmodelled, w') => (Unmodelled, w')
    end.

Definition throw {A} (e : JsError) : M A := fun w => (Thrown e, w).

(** [try { m } catch (error) { handler error }] *)
Definition try_catch {A} (m : M A) (handler : JsError -> M A) : M A :=
  fun w =>
    match m w with
    | (Thrown e, w') => handler e w'
    | r => r
    end.

(** A pure step that may throw. *)
Definition lift {A} (o : outcome A) : M A := fun w => (o, w).

Declare Scope m_scope.
Delimit Scope m_scope with M.
Notation "x <- m ;; k" := (bind m (fun x => k))
  (at level 61, m at next level, right associativity) : m_scope.

(** [new Date()] *)
Definition new_Date : M Z := fun w => (Returned (clock w), w).

(** [console.error(message, error)] *)
Definition console_error (message : string) (error : JsError) : M unit :=
  fun w =>
    (Returned tt,
     mkWorld (db w) (console w ++ [(message, error)]) (clock w)).

(** The operations of [prisma.auditLog] the service calls. *)
Record AuditLogDelegate : Type := mkDelegate {
  create : Row.t -> M Row.t;
  findMany : FindManyArgs -> M (list Row.t);
  deleteMany : Where.t -> M N     (* the [count] of the result *)
}.

(** ** The reference store

    The store itself is an external collaborator of the service.  The
    reference store keeps the table as a list of rows in insertion order
    and never fails on well-formed arguments. *)

Module MemoryStore.

Definition invalid_date : JsError :=
  StoreError "Provided Date object is invalid".

(** Modelled from the spec: [create] appends one new record to the store
    and hands it back. *)
Definition create (data : Row.t) : M Row.t :=
  fun w =>
    (Returned data, mkWorld (db w ++ [data]) (console w) (clock w)).

(** Modelled from the spec: [findMany] is filter, then order, then
    pagination. *)
Definition findMany (args : FindManyArgs) : M (list Row.t) :=
  fun w =>
    if dates_valid (where_ args) then
      (Returned
         (paginate (take args) (skip args)
            (sort_by (orderBy_timestamp args)
               (filter (matches (where_ args)) (db w)))),
       w)
    else (Thrown invalid_date, w).

(** Modelled from the spec: [deleteMany] removes the records the filter
    selects and reports their number. *)
Definition deleteMany (w_ : Where.t) : M N :=
  fun w =>
    if dates_valid w_ then
      (Returned (N.of_nat (List.length (filter (matches w_) (db w)))),
       mkWorld (filter (fun r => negb (matches w_ r)) (db w))
               (console w) (clock w))
    else (Thrown invalid_date, w).

Definition prisma : AuditLogDelegate :=
  mkDelegate create findMany deleteMany.

End MemoryStore.

(* ------------------------------------------------------------------ *)
(** * The service: [class AuditLoggingService] *)

Module AuditLoggingService.

Local Open Scope m_scope.
Local Open Scope string_scope.

(** [['STARTED' | 'COMPLETED' | 'FAILED']] *)
Inductive BulkStatus : Set := STARTED | COMPLETED | FAILED.

Definition BulkStatus_value (s : BulkStatus) : string :=
  match s with
  | STARTED => "STARTED"
  | COMPLETED => "COMPLETED"
  | FAILED => "FAILED"
  end.

(** [String(n)] for a count. *)
Definition count_to_string (n : nat) : string :=
  string_of_list_ascii (Digits.decimal (N.of_nat n)).

Definition number_to_string (z : Z) : string :=
  string_of_list_ascii (Digits.Z_to_chars z).

(** [x ? JSON.stringify(x) : null] for an optional record: an object is
    truthy, [undefined] is not. *)
Definition stringify_or_null (x : option JSRecord) : option string :=
  match x with
  | Some r => Some (JSON_stringify (JObj r))
  | None => None
  end.

(** [s ? JSON.parse(s) : null] for a nullable text column. *)
Definition parse_or_null (s : option string) : outcome json :=
  match s with
  | Some text => if String.eqb text "" then Returned JNull else JSON_parse text
  | None => Returned JNull
  end.

(** [x || ''] *)
Definition or_empty (x : option string) : string :=
  match x with
  | Some s => s
  | None => ""
  end.

(** [String.prototype.replace] with the global pattern of one double-quote
    character and the replacement of two: every double quote of the cell
    is doubled. *)
Fixpoint double_quotes (s : string) : string :=
  match s with
  | EmptyString => EmptyString
  | String c s' =>
      if Ascii.eqb c dquote
      then String dquote (String dquote (double_quotes s'))
      else String c (double_quotes s')
  end.

(** The cell template of the export: a double quote, the cell with its
    quotes doubled, a double quote. *)
Definition csv_cell (cell : string) : string :=
  String dquote (double_quotes cell ++ String dquote EmptyString).

(** [Array.prototype.join] *)
Fixpoint join (sep : string) (l : list string) : string :=
  match l with
  | [] => ""
  | [x] => x
  | x :: l' => x ++ sep ++ join sep l'
  end.

Definition newline : string := String "010"%char EmptyString.

Definition headers : list string :=
  ["Timestamp"; "Action Type"; "Severity"; "User ID"; "Target User ID";
   "Resource Type"; "Description"; "IP Address"].

(** The cells of one exported entry, in column order. *)
Definition export_row (log : Log.t) : list string :=
  [JSDate.toISOString (Log.timestamp log);
   AuditActionType_value (Log.actionType log);
   AuditSeverity_value (Log.severity log);
   Log.userId log;
   or_empty (Log.targetUserId log);
   or_empty (Log.targetResourceType log);
   Log.description log;
   or_empty (Log.ipAddress log)].

Definition csv_line (row : list string) : string :=
  join "," (map csv_cell row).

Definition csv_of_rows (rows : list (list string)) : string :=
  join newline (join "," headers :: map csv_line rows).

(** The [data] object [logAuditEvent] hands to [create]. *)
Definition audit_data (entry : AuditLogEntry) (timestamp : Z) : Row.t :=
  Row.mk (Entry.actionType entry) (Entry.severity entry)
         (Entry.userId entry) (Entry.tenantId entry)
         (Entry.targetUserId entry) (Entry.targetResourceId entry)
         (Entry.targetResourceType entry) (Entry.description entry)
         (stringify_or_null (Entry.changes entry))
         (stringify_or_null (Entry.metadata entry))
         (Entry.ipAddress entry) (Entry.userAgent entry) timestamp.

(** The [where] object of [queryAuditLogs]. *)
Definition enum_condition {A} (f : OneOrMany A) : EnumFilter A :=
  match f with
  | One a => Equals a
  | Many l => In_ l
  end.

Definition query_where (filter : AuditLogFilter) : Where.t :=
  Where.mk
    (Some (Filter.tenantId filter))
    (if truthy_string (Filter.userId filter)
     then Filter.userId filter else None)
    (option_map enum_condition (Filter.actionType filter))
    (if truthy_string (Filter.targetUserId filter)
     then Filter.targetUserId filter else None)
    (option_map enum_condition (Filter.severity filter))
    (match Filter.dateRange filter with
     | Some range =>
         Some (mkDateTimeFilter (Some (Filter.startDate range))
                                (Some (Filter.endDate range)) None)
     | None => None
     end).

Definition query_args (filter : AuditLogFilter) : FindManyArgs :=
  mkFindManyArgs (query_where filter) desc
                 (or_default (Filter.limit filter) 100)
                 (or_default (Filter.offset filter) 0).

(** The callback of [logs.map] in [queryAuditLogs]. *)
Definition deserialize (log : Row.t) : outcome Log.t :=
  obind (parse_or_null (Row.changes log)) (fun changes =>
  obind (parse_or_null (Row.metadata log)) (fun metadata =>
  Returned
    (Log.mk (Row.actionType log) (Row.severity log) (Row.userId log)
            (Row.tenantId log) (Row.targetUserId log)
            (Row.targetResourceId log) (Row.targetResourceType log)
            (Row.description log) changes metadata
            (Row.ipAddress log) (Row.userAgent log) (Row.timestamp log)))).

(** The [where] object of [deleteOldLogs]. *)
Definition retention_where (tenantId : string)
           (cutoffDate : JSDate.TimeValue) : Where.t :=
  Where.mk (Some tenantId) None None None None
           (Some (mkDateTimeFilter None None (Some cutoffDate))).

(** [{ ...filter, tenantId, limit: 10000 }] *)
Definition export_filter (tenantId : string) (filter : option AuditLogFilter)
  : AuditLogFilter :=
  match filter with
  | Some f =>
      Filter.mk (Filter.userId f) tenantId (Filter.actionType f)
                (Filter.targetUserId f) (Filter.severity f)
                (Filter.dateRange f) (Some 10000%N) (Filter.offset f)
  | None =>
      Filter.mk None tenantId None None None None (Some 10000%N) None
  end.

Section Service.
(** The store handle the module imports. *)
Variable prisma : AuditLogDelegate.
(** The host's time zone. *)
Variable LocalTZA : Z -> bool -> Z.

Definition logAuditEvent (entry : AuditLogEntry) : M unit :=
  try_catch
    (timestamp <- new_Date ;;
     _ <- create prisma (audit_data entry timestamp) ;;
     ret tt)
    (fun error => console_error "Failed to log audit event:" error).

Definition logPermissionChange
           (userId tenantId targetUserId : string)
           (permissionsAdded permissionsRemoved : list string)
           (metadata : option JSRecord) : M unit :=
  let hasChanges :=
    (0 <? List.length permissionsAdded)%nat
    || (0 <? List.length permissionsRemoved)%nat in
  if negb hasChanges then ret tt
  else
    logAuditEvent
      (Entry.mk
         (if (0 <? List.length permissionsAdded)%nat
          then PERMISSION_GRANTED else PERMISSION_REVOKED)
         INFO userId tenantId (Some targetUserId) None
         (Some "USER_PERMISSIONS")
         ((if (0 <? List.length permissionsAdded)%nat
           then "Granted" else "Revoked")
          ++ " "
          ++ count_to_string (List.length permissionsAdded
                              + List.length permissionsRemoved)
          ++ " permission(s) for " ++ targetUserId)
         (Some [("added", JArr (map JStr permissionsAdded));
                ("removed", JArr (map JStr permissionsRemoved))])
         metadata None None).

Definition logRoleChange
           (userId tenantId targetUserId fromRole toRole : string)
           (reason : option string) : M unit :=
  let severity :=
    if existsb (String.eqb toRole) ["SUPER_ADMIN"; "ADMIN"]
    then CRITICAL else INFO in
  logAuditEvent
    (Entry.mk ROLE_CHANGED severity userId tenantId (Some targetUserId)
       None (Some "USER_ROLE")
       ("Changed role for " ++ targetUserId ++ " from " ++ fromRole
        ++ " to " ++ toRole
        ++ (if truthy_string reason
            then " (" ++ or_empty reason ++ ")" else ""))
       (Some [("fromRole", JStr fromRole); ("toRole", JStr toRole)])
       (if truthy_string reason
        then Some [("reason", JStr (or_empty reason))] else None)
       None None).

Definition logSettingsChange
           (userId tenantId section : string) (changes : JSRecord)
  : M unit :=
  logAuditEvent
    (Entry.mk SETTING_CHANGED INFO userId tenantId None (Some section)
       (Some "SETTINGS") ("Updated " ++ section ++ " settings")
       (Some changes) None None None).

Definition logBulkOperation
           (userId tenantId operationType : string)
           (affectedUserCount : Z) (status : BulkStatus)
           (metadata : option JSRecord) : M unit :=
  let actionType :=
    match status with
    | STARTED => BULK_OPERATION_STARTED
    | COMPLETED => BULK_OPERATION_COMPLETED
    | FAILED => BULK_OPERATION_FAILED
    end in
  let severity :=
    match status with
    | FAILED => WARNING
    | _ => INFO
    end in
  logAuditEvent
    (Entry.mk actionType severity userId tenantId None None
       (Some "BULK_OPERATION")
       (BulkStatus_value status ++ " bulk operation: " ++ operationType
        ++ " affecting " ++ number_to_string affectedUserCount
        ++ " user(s)")
       None
       (Some (fold_left (fun o kv => set_prop (fst kv) (snd kv) o)
                        (match metadata with Some m => m | None => [] end)
                        [("operationType", JStr operationType);
                         ("affectedUserCount", JNum affectedUserCount)]))
       None None).

Definition queryAuditLogs (filter : AuditLogFilter) : M (list Log.t) :=
  logs <- findMany prisma (query_args filter) ;;
  lift (map_outcome deserialize logs).

(** [retentionDays] defaults to 90 when omitted. *)
Definition deleteOldLogs (tenantId : string) (retentionDays : option Z)
  : M N :=
  let days := match retentionDays with Some n => n | None => 90 end in
  now <- new_Date ;;
  let cutoffDate :=
    JSDate.setDate LocalTZA (Some now)
      (option_map (fun d => d - days)
                  (JSDate.getDate LocalTZA (Some now))) in
  count <- deleteMany prisma (retention_where tenantId cutoffDate) ;;
  ret count.

(** The first half of [exportAuditLogs]: the query and the [rows]
    array. *)
Definition exportRows (tenantId : string) (filter : option AuditLogFilter)
  : M (list (list string)) :=
  logs <- queryAuditLogs (export_filter tenantId filter) ;;
  ret (map export_row logs).

Definition exportAuditLogs (tenantId : string)
           (filter : option AuditLogFilter) : M string :=
  rows <- exportRows tenantId filter ;;
  ret (csv_of_rows rows).

End Service.
End AuditLoggingService.
Import AuditLoggingService.

(* ------------------------------------------------------------------ *)
(** * Vocabulary of the properties *)

Module Vocabulary.
Local Open Scope string_scope.
Local Open Scope Z_scope.

(** The rows a query selects: filtered, ordered, one page. *)
Definition selected (args : FindManyArgs) (table : list Row.t)
  : list Row.t :=
  paginate (take args) (skip args)
    (sort_by (orderBy_timestamp args) (filter (matches (where_ args)) table)).

(** The number of rows of the table that a filter's conditions select. *)
Definition matching (f : AuditLogFilter) (w : World) : nat :=
  List.length (filter (matches (query_where f)) (db w)).

Definition with_limit (f : AuditLogFilter) (limit : option N)
  : AuditLogFilter :=
  Filter.mk (Filter.userId f) (Filter.tenantId f) (Filter.actionType f)
            (Filter.targetUserId f) (Filter.severity f) (Filter.dateRange f)
            limit (Filter.offset f).

Definition with_offset (f : AuditLogFilter) (offset : option N)
  : AuditLogFilter :=
  Filter.mk (Filter.userId f) (Filter.tenantId f) (Filter.actionType f)
            (Filter.targetUserId f) (Filter.severity f) (Filter.dateRange f)
            (Filter.limit f) offset.

(** A stored text that [JSON.parse] rejects. *)
Definition malformed (r : Row.t) : Prop :=
  exists text,
    text <> ""
    /\ (Row.changes r = Some text \/ Row.metadata r = Some text)
    /\ JSON_parse text = Thrown SyntaxError.

(** A record that is JSON data; an absent record needs nothing. *)
Definition record_representable (x : option JSRecord) : bool :=
  match x with
  | Some r => representable (JObj r)
  | None => true
  end.

(** What a query returns for a record handed to the recorder. *)
Definition json_or_null (x : option JSRecord) : json :=
  match x with
  | Some r => JObj r
  | None => JNull
  end.

(** The entry as [queryAuditLogs] is to return it. *)
Definition returned_entry (entry : AuditLogEntry) (timestamp : Z) : Log.t :=
  Log.mk (Entry.actionType entry) (Entry.severity entry)
         (Entry.userId entry) (Entry.tenantId entry)
         (Entry.targetUserId entry) (Entry.targetResourceId entry)
         (Entry.targetResourceType entry) (Entry.description entry)
         (json_or_null (Entry.changes entry))
         (json_or_null (Entry.metadata entry))
         (Entry.ipAddress entry) (Entry.userAgent entry) timestamp.

(** Every row of the table can be deserialised. *)
Definition readable (table : list Row.t) : Prop :=
  Forall (fun r => exists log, deserialize r = Returned log) table.

(** The cutoff of [deleteOldLogs]: the local clock moved back by
    [retentionDays] days, read as a time value again. *)
Definition cutoff_of (LocalTZA : Z -> bool -> Z) (now days : Z) : Z :=
  JSDate.UTC LocalTZA (JSDate.LocalTime LocalTZA now - days * JSDate.msPerDay).

(** The rows a retention sweep is to delete. *)
Definition expired (tenantId : string) (cutoff : Z) (r : Row.t) : bool :=
  String.eqb (Row.tenantId r) tenantId && (Row.timestamp r <? cutoff).

(** ** Reading a quoted CSV line back (RFC 4180) *)

(** The content of a quoted field after its opening quote, and what follows
    its closing quote: a doubled quote stands for one quote. *)
Fixpoint read_quoted (s : string) : option (string * string) :=
  match s with
  | EmptyString => None
  | String c s' =>
      if Ascii.eqb c dquote then
        match s' with
        | String c2 s'' =>
            if Ascii.eqb c2 dquote
            then option_map (fun p => (String dquote (fst p), snd p))
                            (read_quoted s'')
            else Some (EmptyString, s')
        | EmptyString => Some (EmptyString, EmptyString)
        end
      else option_map (fun p => (String c (fst p), snd p)) (read_quoted s')
  end.

Definition read_cell (s : string) : option (string * string) :=
  match s with
  | String c s' => if Ascii.eqb c dquote then read_quoted s' else None
  | EmptyString => None
  end.

(** The fields of one line, separated by commas. *)
Fixpoint read_cells (fuel : nat) (s : string) : option (list string) :=
  match fuel with
  | O => None
  | S fuel' =>
      match read_cell s with
      | Some (cell, EmptyString) => Some [cell]
      | Some (cell, String c rest) =>
          if Ascii.eqb c ","%char
          then option_map (cons cell) (read_cells fuel' rest)
          else None
      | None => None
      end
  end.

(** What may follow a field on its line: nothing, or a comma. *)
Definition after_cell (rest : string) : Prop :=
  rest = EmptyString \/ exists rest', rest = String ","%char rest'.

End Vocabulary.
Import Vocabulary.

(* ------------------------------------------------------------------ *)
(** * Sample data *)

Module Samples.
Local Open Scope string_scope.
Local Open Scope Z_scope.

Definition sample_row (tenant : string) (ts : Z) : Row.t :=
  Row.mk LOGIN INFO "alice" tenant None None None "signed in" None None
         None None ts.

Definition utc_zone (t : Z) (isUTC : bool) : Z := 0.

Definition two_tenants : World :=
  mkWorld [sample_row "acme" 1000; sample_row "globex" 2000;
           sample_row "acme" 3000] [] 1700000000000.

Definition by_tenant (tenant : string) : AuditLogFilter :=
  Filter.mk None tenant None None None None None None.

(** A store whose [create] always fails. *)
Definition failing_store : AuditLogDelegate :=
  mkDelegate (fun _ => throw (StoreError "connection refused"))
             MemoryStore.findMany MemoryStore.deleteMany.

Definition sample_entry : AuditLogEntry :=
  Entry.mk LOGIN WARNING "alice" "acme" (Some "bob") None (Some "SESSION")
           "signed in"
           (Some [("before", JNull); ("after", JObj [("n", JNum 3)])])
           (Some [("tags", JArr [JStr "a"; JBool true])])
           (Some "10.0.0.1") None.

Definition malformed_row : Row.t :=
  Row.mk USER_UPDATED INFO "alice" "acme" (Some "bob") None None
         "edited bob" (Some "{") None None None 5000.

Definition malformed_world : World :=
  mkWorld [sample_row "acme" 1000; malformed_row] [] 1700000000000.

Definition around_now : AuditLogFilter :=
  Filter.mk None "acme" None None None
            (Some (Filter.mkRange (Some 1699999999000) (Some 1700000001000)))
            None None.

Definition retention_world : World :=
  mkWorld [sample_row "acme" 1000;
           sample_row "globex" 2000;
           sample_row "acme" (1700000000000 - 90 * 86400000 - 1);
           sample_row "acme" (1700000000000 - 90 * 86400000);
           sample_row "acme" 1699999999000] [] 1700000000000.



End Samples.
Import Samples.

(* ------------------------------------------------------------------ *)
(** * Statistics: [getAuditStats] *)

Module AuditStats.
Local Open Scope m_scope.
Local Open Scope string_scope.
Local Open Scope Z_scope.

(** One element of the array [groupBy] resolves to, for
    [by: ['actionType']] and [_count: true]. *)
Record ActionTypeCount : Type := mkActionTypeCount {
  actionType : AuditActionType;
  _count : N
}.

(** [prisma.auditLog.groupBy] as [getAuditStats] calls it: the [by] field
    and the counting are fixed, the [where] object varies. *)
Definition GroupBy : Type := Where.t -> M (list ActionTypeCount).

(** The [where] object of [getAuditStats]. *)
Definition stats_where (tenantId : string)
           (dateRange : option Filter.DateRange) : Where.t :=
  Where.mk (Some tenantId) None None None None
           (match dateRange with
            | Some range =>
                Some (mkDateTimeFilter (Some (Filter.startDate range))
                                       (Some (Filter.endDate range)) None)
            | None => None
            end).

(** The [forEach] that fills [stats]: one assignment per group, in order. *)
Definition collect_stats (actionTypeCounts : list ActionTypeCount)
  : JSRecord :=
  fold_left
    (fun stats group =>
       set_prop (AuditActionType_value (actionType group))
                (JNum (Z.of_N (_count group))) stats)
    actionTypeCounts [].

Section Stats.
Variable groupBy : GroupBy.

Definition getAuditStats (tenantId : string)
           (dateRange : option Filter.DateRange) : M JSRecord :=
  actionTypeCounts <- groupBy (stats_where tenantId dateRange) ;;
  ret (collect_stats actionTypeCounts).

End Stats.

(** Every member of the enum. *)
Definition AuditActionType_all : list AuditActionType :=
  [USER_CREATED; USER_UPDATED; USER_DELETED; USER_ACTIVATED; USER_DEACTIVATED;
   PERMISSION_GRANTED; PERMISSION_REVOKED; ROLE_CHANGED; ROLE_CREATED;
   ROLE_UPDATED; ROLE_DELETED;
   BULK_OPERATION_STARTED; BULK_OPERATION_COMPLETED; BULK_OPERATION_FAILED;
   SETTING_CHANGED; SETTINGS_EXPORTED; SETTINGS_IMPORTED;
   LOGIN; LOGOUT; FAILED_LOGIN; PASSWORD_CHANGED; MFA_ENABLED; MFA_DISABLED].

(** The number of rows with a given action type. *)
Definition count_of (a : AuditActionType) (rows : list Row.t) : N :=
  N.of_nat
    (List.length
       (filter (fun r => AuditActionType_beq (Row.actionType r) a) rows)).

(** Modelled from the spec: [groupBy] is a filter and a count grouped by
    field.  A group exists for each action type that some selected record
    has; the store does not fix the order of the groups, here it is the
    order of the enum. *)
Definition group_rows (rows : list Row.t) : list ActionTypeCount :=
  map (fun a => mkActionTypeCount a (count_of a rows))
      (filter (fun a => negb (count_of a rows =? 0)%N) AuditActionType_all).

(** Modelled from the spec: the reference store's [groupBy], on the table
    of the world. *)
Definition memory_groupBy : GroupBy :=
  fun w_ w =>
    if dates_valid w_ then
      (Returned (group_rows (filter (matches w_) (db w))), w)
    else (Thrown MemoryStore.invalid_date, w).

End AuditStats.
Import AuditStats.


(* ------------------------------------------------------------------ *)
(** * More vocabulary *)

Module MoreVocabulary.
Local Open Scope string_scope.
Local Open Scope Z_scope.

(** [o[key]] on an object: the value of the property, if there is one. *)
Fixpoint get_prop (key : string) (o : JSRecord) : option json :=
  match o with
  | [] => None
  | (k, v) :: o' => if String.eqb key k then Some v else get_prop key o'
  end.

(** The count an action type has in a [stats] object, 0 when absent. *)
Definition stat (stats : JSRecord) (a : AuditActionType) : Z :=
  match get_prop (AuditActionType_value a) stats with
  | Some (JNum n) => n
  | _ => 0
  end.

(** The rows in the scope of [getAuditStats]. *)
Definition in_scope (tenantId : string) (dateRange : option Filter.DateRange)
           (w : World) : list Row.t :=
  filter (matches (stats_where tenantId dateRange)) (db w).

(** The number of entries of a query result with a given action type. *)
Definition logs_of_type (a : AuditActionType) (logs : list Log.t) : N :=
  N.of_nat
    (List.length
       (filter (fun log => AuditActionType_beq (Log.actionType log) a) logs)).

(** The sum of the counts of a [stats] object over all action types. *)
Definition stats_total (stats : JSRecord) : Z :=
  fold_right (fun a acc => stat stats a + acc) 0 AuditActionType_all.

(** The filter of a query for everything [getAuditStats] counts. *)
Definition scope_filter (tenantId : string)
           (dateRange : option Filter.DateRange) (limit : N)
  : AuditLogFilter :=
  Filter.mk None tenantId None None None dateRange (Some limit) None.

(** A recorder's result that adds exactly one row, for the given actor and
    tenant, stamped with the clock, and changes nothing else. *)
Definition records_one (userId tenantId : string) (w : World)
           (result : outcome unit * World) : Prop :=
  exists row,
    result = (Returned tt,
              mkWorld (db w ++ [row])%list (console w) (clock w))
    /\ Row.userId row = userId
    /\ Row.tenantId row = tenantId
    /\ Row.timestamp row = clock w.


(** Newest first: no entry is older than one that comes after it. *)
Fixpoint newest_first (timestamps : list Z) : Prop :=
  match timestamps with
  | [] => True
  | t :: later => Forall (fun t' => t' <= t) later /\ newest_first later
  end.

(** The conditions of a filter, on the fields of a row or of an entry.  An
    empty [userId] or [targetUserId] asks for nothing; the date range
    includes both of its bounds. *)
Definition meets (f : AuditLogFilter)
           (tenantId userId : string) (actionType : AuditActionType)
           (targetUserId : option string) (severity : AuditSeverity)
           (timestamp : Z) : Prop :=
  tenantId = Filter.tenantId f
  /\ (forall u, Filter.userId f = Some u -> u <> "" -> userId = u)
  /\ (forall a, Filter.actionType f = Some (One a) -> actionType = a)
  /\ (forall l, Filter.actionType f = Some (Many l) -> In actionType l)
  /\ (forall u, Filter.targetUserId f = Some u -> u <> "" ->
                targetUserId = Some u)
  /\ (forall s, Filter.severity f = Some (One s) -> severity = s)
  /\ (forall l, Filter.severity f = Some (Many l) -> In severity l)
  /\ (forall range, Filter.dateRange f = Some range ->
        exists startDate endDate,
          Filter.startDate range = Some startDate
          /\ Filter.endDate range = Some endDate
          /\ startDate <= timestamp <= endDate).

Definition row_meets (f : AuditLogFilter) (r : Row.t) : Prop :=
  meets f (Row.tenantId r) (Row.userId r) (Row.actionType r)
        (Row.targetUserId r) (Row.severity r) (Row.timestamp r).

Definition log_meets (f : AuditLogFilter) (log : Log.t) : Prop :=
  meets f (Log.tenantId log) (Log.userId log) (Log.actionType log)
        (Log.targetUserId log) (Log.severity log) (Log.timestamp log).

Definition with_userId (f : AuditLogFilter) (userId : option string)
  : AuditLogFilter :=
  Filter.mk userId (Filter.tenantId f) (Filter.actionType f)
            (Filter.targetUserId f) (Filter.severity f) (Filter.dateRange f)
            (Filter.limit f) (Filter.offset f).

Definition with_targetUserId (f : AuditLogFilter)
           (targetUserId : option string) : AuditLogFilter :=
  Filter.mk (Filter.userId f) (Filter.tenantId f) (Filter.actionType f)
            targetUserId (Filter.severity f) (Filter.dateRange f)
            (Filter.limit f) (Filter.offset f).

Definition with_tenantId (f : AuditLogFilter) (tenantId : string)
  : AuditLogFilter :=
  Filter.mk (Filter.userId f) tenantId (Filter.actionType f)
            (Filter.targetUserId f) (Filter.severity f) (Filter.dateRange f)
            (Filter.limit f) (Filter.offset f).


(** The count of the last group of an action type, if there is one. *)
Fixpoint last_count (a : AuditActionType) (groups : list ActionTypeCount)
  : option N :=
  match groups with
  | [] => None
  | group :: rest =>
      match last_count a rest with
      | Some n => Some n
      | None =>
          if AuditActionType_beq a (actionType group)
          then Some (_count group) else None
      end
  end.

(** The first line of every export. *)
Definition header_line : string :=
  "Timestamp,Action Type,Severity,User ID,Target User ID,Resource Type,Description,IP Address".

(** The lines of the exported entries, each after a line break. *)
Fixpoint lines_after (rows : list (list string)) : string :=
  match rows with
  | [] => ""
  | row :: rest => newline ++ csv_line row ++ lines_after rest
  end.

(** One more for the scope and action type of a recorded entry. *)
Definition counted (entry : AuditLogEntry) (tenantId : string)
           (a : AuditActionType) : Z :=
  if String.eqb (Entry.tenantId entry) tenantId
     && AuditActionType_beq (Entry.actionType entry) a
  then 1 else 0.

(** A store whose every operation fails. *)
Definition unreachable_store : AuditLogDelegate :=
  mkDelegate (fun _ => throw (StoreError "connection refused"))
             (fun _ => throw (StoreError "connection refused"))
             (fun _ => throw (StoreError "connection refused")).

(** A [groupBy] that reports one action type twice. *)
Definition repeating_groupBy : GroupBy :=
  fun _ => ret [mkActionTypeCount LOGIN 1; mkActionTypeCount LOGOUT 5;
                mkActionTypeCount LOGIN 4].





(** Two rows of one tenant and one timestamp, and a third. *)
Definition tied_world : World :=
  mkWorld [Row.mk LOGIN INFO "alice" "acme" None None None "first" None None
                  None None 1000;
           Row.mk LOGOUT INFO "alice" "acme" None None None "second" None
                  None None None 1000;
           Row.mk LOGIN INFO "bob" "acme" None None None "third" None None
                  None None 3000]
          [] 1700000000000.



(** ** Reading the records of an export back (RFC 4180) *)

(** What may follow a record: nothing, or a line break. *)
Definition after_record (rest : string) : Prop :=
  rest = EmptyString \/ exists rest', rest = String "010"%char rest'.

(** One record: quoted fields separated by commas, up to the end of the
    text or to a line break outside quotes. *)
Fixpoint read_record (fuel : nat) (s : string)
  : option (list string * string) :=
  match fuel with
  | O => None
  | S fuel' =>
      match read_cell s with
      | Some (cell, EmptyString) => Some ([cell], EmptyString)
      | Some (cell, String c rest) =>
          if Ascii.eqb c ","%char
          then option_map (fun p => (cell :: fst p, snd p))
                          (read_record fuel' rest)
          else if Ascii.eqb c "010"%char then Some ([cell], String c rest)
          else None
      | None => None
      end
  end.

(** The records after the header line: each starts with a line break. *)
Fixpoint read_records (fuel : nat) (s : string)
  : option (list (list string)) :=
  match s with
  | EmptyString => Some []
  | String c rest =>
      match fuel with
      | O => None
      | S fuel' =>
          if Ascii.eqb c "010"%char then
            match read_record (String.length rest) rest with
            | Some (row, rest') =>
                option_map (cons row) (read_records fuel' rest')
            | None => None
            end
          else None
      end
  end.

Definition read_body (s : string) : option (list (list string)) :=
  read_records (String.length s) s.

(** One double quote, as a text. *)
Definition q : string := String dquote EmptyString.

(** A table with fields that hold quotes, a comma and a line break. *)
Definition quoting_world : World :=
  mkWorld [Row.mk USER_UPDATED INFO "alice" "acme" (Some "bob") None
                  (Some "USER") ("Say " ++ q ++ "hi" ++ q) None None
                  (Some "10.0.0.1") None 1000;
           Row.mk LOGIN WARNING "a,b" "acme" None None None
                  ("line one" ++ newline ++ "line two") None None None None
                  2000]
          [] 1700000000000.

End MoreVocabulary.
Import MoreVocabulary.

(* ------------------------------------------------------------------ *)
(** * The codecs on examples *)

Example toISOString_epoch :
  JSDate.toISOString 0 = "1970-01-01T00:00:00.000Z"%string.
Proof. reflexivity. Qed.

(* 2024-02-29T12:34:56.789Z *)
Example toISOString_leap_day :
  JSDate.toISOString 1709210096789 = "2024-02-29T12:34:56.789Z"%string.
Proof. reflexivity. Qed.

(* one millisecond before the epoch *)
Example toISOString_before_epoch :
  JSDate.toISOString (-1) = "1969-12-31T23:59:59.999Z"%string.
Proof. reflexivity. Qed.

Module JSONExamples.
Definition sample : json :=
  JObj [("added"%string,
         JArr [JStr "users.read"; JStr (String "009"%char "x")]);
        ("n"%string, JNum (-42)); ("ok"%string, JBool true);
        ("none"%string, JNull); ("o"%string, JObj [])].

Example stringify_sample :
  JSON_stringify (JObj [("a"%string, JArr [JNum 1; JNum 20]);
                        ("b"%string, JNull)])
  = string_of_list_ascii
      (chars "{" ++ dquote :: chars "a" ++ dquote :: chars ":[1,20],"
       ++ dquote :: chars "b" ++ dquote :: chars ":null}").
Proof. reflexivity. Qed.

Example parse_stringify_sample :
  JSON_parse (JSON_stringify sample) = Returned sample.
Proof. vm_compute. reflexivity. Qed.

Example parse_spaces : JSON_parse " [ 1 , [ ] , { } ] "
                       = Returned (JArr [JNum 1; JArr []; JObj []]).
Proof. vm_compute. reflexivity. Qed.

Example parse_truncated : JSON_parse "{" = Thrown SyntaxError.
Proof. reflexivity. Qed.

Example parse_words : JSON_parse "not json" = Thrown SyntaxError.
Proof. reflexivity. Qed.

Example parse_leading_zero : JSON_parse "01" = Thrown SyntaxError.
Proof. reflexivity. Qed.

Example parse_trailing_comma : JSON_parse "[1,]" = Thrown SyntaxError.
Proof. reflexivity. Qed.

Example parse_fraction : JSON_parse "1.5" = Unmodelled.
Proof. reflexivity. Qed.
End JSONExamples.

(* ------------------------------------------------------------------ *)
(** * Facts about the JSON codec *)

Module JSONFacts.

(** Induction on JSON values, with the hypothesis on every item of an
    array and on every property value of an object. *)
Section json_induction.
Variable P : json -> Prop.
Hypothesis Hnull : P JNull.
Hypothesis Hbool : forall b, P (JBool b).
Hypothesis Hnum : forall n, P (JNum n).
Hypothesis Hstr : forall s, P (JStr s).
Hypothesis Harr : forall items, Forall P items -> P (JArr items).
Hypothesis Hobj :
  forall props, Forall (fun kv => P (snd kv)) props -> P (JObj props).

Fixpoint json_ind (v : json) : P v :=
  match v with
  | JNull => Hnull
  | JBool b => Hbool b
  | JNum n => Hnum n
  | JStr s => Hstr s
  | JArr items =>
      Harr items
        ((fix all (l : list json) : Forall P l :=
            match l with
            | [] => Forall_nil P
            | x :: l' => Forall_cons x (json_ind x) (all l')
            end) items)
  | JObj props =>
      Hobj props
        ((fix all (l : list (string * json))
            : Forall (fun kv => P (snd kv)) l :=
            match l with
            | [] => Forall_nil _
            | kv :: l' => Forall_cons kv (json_ind (snd kv)) (all l')
            end) props)
  end.
End json_induction.

(** ** Strings *)

Lemma parse_chars_quote_char c tl :
  parse_chars (quote_char c ++ tl) = obind (parse_chars tl) (cons_char c).
Proof.
  destruct c as [[] [] [] [] [] [] [] []]; reflexivity.
Qed.

Lemma parse_chars_quoted s rest :
  parse_chars (flat_map quote_char (chars s) ++ dquote :: rest)
  = Returned (s, rest).
Proof.
  induction s as [|c s IH]; [reflexivity|].
  unfold chars in *. cbn [list_ascii_of_string flat_map].
  rewrite <- app_assoc, parse_chars_quote_char, IH. reflexivity.
Qed.

(** ** Numbers *)

(** What may follow a value in printed JSON: the end of the text, or one
    of [,], []] and [}]. *)
Definition delimited (rest : list ascii) : Prop :=
  match rest with
  | [] => True
  | c :: _ => c = ","%char \/ c = "]"%char \/ c = "}"%char
  end.

Lemma delimited_skip_ws rest : delimited rest -> skip_ws rest = rest.
Proof.
  destruct rest as [|c r]; [reflexivity|].
  intros [-> | [-> | ->]]; reflexivity.
Qed.

Lemma delimited_continues rest :
  delimited rest -> continues_number rest = false.
Proof.
  destruct rest as [|c r]; [reflexivity|].
  intros [-> | [-> | ->]]; reflexivity.
Qed.

Lemma delimited_scan rest :
  delimited rest -> scan_digits rest = (Decimal.Nil, rest).
Proof.
  destruct rest as [|c r]; [reflexivity|].
  intros [-> | [-> | ->]]; reflexivity.
Qed.

Lemma scan_digits_uint_chars u rest :
  delimited rest -> scan_digits (Digits.uint_chars u ++ rest) = (u, rest).
Proof.
  intros Hd. induction u; cbn [Digits.uint_chars app];
    [apply delimited_scan; exact Hd | ..];
    cbn [scan_digits]; cbv [digit_cons N_of_ascii N_of_digits];
    cbn [N.add N.mul]; rewrite IHu; reflexivity.
Qed.

Lemma Pos_to_uint_head p :
  match Pos.to_uint p with
  | Decimal.Nil | Decimal.D0 _ => False
  | _ => True
  end.
Proof.
  pose proof (DecimalPos.Unsigned.to_uint_nonnil p) as Hnil.
  pose proof (DecimalPos.Unsigned.to_uint_nonzero p) as Hz.
  pose proof (DecimalPos.Unsigned.to_of (Pos.to_uint p)) as Hn.
  rewrite DecimalPos.Unsigned.of_to in Hn. cbn [N.to_uint] in Hn.
  destruct (Pos.to_uint p) as [|u| | | | | | | | |] eqn:E; try exact I.
  - congruence.
  - unfold Decimal.unorm in Hn.
    pose proof (DecimalFacts.nzhead_nonzero (Decimal.D0 u)) as Hh.
    destruct (Decimal.nzhead (Decimal.D0 u)) eqn:En.
    + apply Hz. exact Hn.
    + apply (Hh u0). reflexivity.
    + discriminate Hn. + discriminate Hn. + discriminate Hn.
    + discriminate Hn. + discriminate Hn. + discriminate Hn.
    + discriminate Hn. + discriminate Hn. + discriminate Hn.
Qed.

(** The text of a positive integer is read back as that integer. *)
Lemma scan_positive p rest :
  delimited rest ->
  exists c tl,
    Digits.decimal (Npos p) = c :: tl
    /\ Ascii.eqb c "-"%char = false
    /\ Ascii.eqb c "0"%char = false
    /\ (exists d, digit_cons c = Some d)
    /\ is_ws c = false
    /\ scan_digits (c :: tl ++ rest) = (Pos.to_uint p, rest).
Proof.
  intros Hd.
  pose proof (Pos_to_uint_head p) as Hh.
  pose proof (scan_digits_uint_chars (Pos.to_uint p) rest Hd) as Hs.
  unfold Digits.decimal. cbn [N.to_uint].
  destruct (Pos.to_uint p) eqn:E; try contradiction;
    cbn [Digits.uint_chars] in *;
    eexists; eexists; (split; [reflexivity|]);
    repeat split; try reflexivity; try exact Hs; eexists; reflexivity.
Qed.

Lemma parse_number_printed n rest :
  Z.abs n <= maxSafeInteger -> delimited rest ->
  parse_number (Digits.Z_to_chars n ++ rest) = Returned (JNum n, rest).
Proof.
  intros Hn Hd. unfold Digits.Z_to_chars.
  destruct n as [|p|p].
  - cbn. unfold finish_number. rewrite (delimited_continues _ Hd).
    reflexivity.
  - cbn [Z.ltb Z.compare Z.abs_N].
    destruct (scan_positive p rest Hd)
      as (c & tl & -> & Hm & Hz & [d Hdc] & _ & Hs).
    cbn [app]. unfold parse_number. rewrite Hm, Hz, Hdc, Hs.
    unfold finish_number. rewrite (delimited_continues _ Hd).
    unfold N.of_uint. rewrite DecimalPos.Unsigned.of_to.
    cbn [andb]. cbn [Z.of_N].
    destruct (Z.gtb_spec (Z.pos p) maxSafeInteger); [|reflexivity].
    cbn [Z.abs] in Hn. lia.
  - cbn [Z.ltb Z.compare Z.abs_N].
    destruct (scan_positive p rest Hd)
      as (c & tl & -> & Hm & Hz & [d Hdc] & _ & Hs).
    cbn [app]. unfold parse_number.
    replace (Ascii.eqb "-"%char "-"%char) with true by reflexivity.
    rewrite Hz, Hdc, Hs.
    unfold finish_number. rewrite (delimited_continues _ Hd).
    unfold N.of_uint. rewrite DecimalPos.Unsigned.of_to.
    cbn [andb N.eqb]. cbn [Z.of_N].
    destruct (Z.gtb_spec (Z.pos p) maxSafeInteger); [|reflexivity].
    cbn [Z.abs] in Hn. lia.
Qed.

Definition number_start (c : ascii) : bool :=
  Ascii.eqb c "-"%char
  || match digit_cons c with Some _ => true | None => false end.

Lemma parse_value_number fuel c r :
  number_start c = true ->
  parse_value (S fuel) (c :: r) = parse_number (c :: r).
Proof.
  destruct c as [[] [] [] [] [] [] [] []]; intros H;
    try discriminate H; reflexivity.
Qed.

Lemma Z_to_chars_start n :
  exists c tl, Digits.Z_to_chars n = c :: tl /\ number_start c = true.
Proof.
  unfold Digits.Z_to_chars. destruct n as [|p|p].
  - eexists; eexists; split; reflexivity.
  - cbn [Z.ltb Z.compare Z.abs_N].
    destruct (scan_positive p [] I) as (c & tl & -> & _ & _ & [d Hd] & _).
    exists c, tl. split; [reflexivity|].
    unfold number_start. rewrite Hd. apply orb_true_r.
  - eexists; eexists; split; reflexivity.
Qed.

(** ** Values *)

(** Fuel that is enough to read a printed value back. *)
Definition weight_list {A} (w : A -> nat) : list A -> nat :=
  fix go (l : list A) : nat :=
    match l with
    | [] => O
    | x :: l' => S (w x + go l')
    end.

Fixpoint weight (v : json) : nat :=
  match v with
  | JArr items => S (weight_list weight items)
  | JObj props => S (weight_list (fun kv => weight (snd kv)) props)
  | _ => 1
  end.

Lemma number_start_plain c :
  number_start c = true ->
  is_ws c = false /\ Ascii.eqb c "]"%char = false
  /\ Ascii.eqb c "}"%char = false.
Proof.
  destruct c as [[] [] [] [] [] [] [] []]; intros H;
    try discriminate H; repeat split.
Qed.

Lemma print_head v :
  exists c tl,
    print v = c :: tl /\ is_ws c = false
    /\ Ascii.eqb c "]"%char = false /\ Ascii.eqb c "}"%char = false.
Proof.
  destruct v as [|[]|n|s|items|props];
    try (eexists; eexists; repeat split; reflexivity).
  destruct (Z_to_chars_start n) as (c & tl & E & Hs).
  exists c, tl. split; [exact E|]. apply number_start_plain, Hs.
Qed.

Lemma skip_ws_print v rest : skip_ws (print v ++ rest) = print v ++ rest.
Proof.
  destruct (print_head v) as (c & tl & -> & Hw & _).
  cbn [app skip_ws]. rewrite Hw. reflexivity.
Qed.

Definition reads_back (x : json) : Prop :=
  representable x = true ->
  forall fuel rest, (weight x < fuel)%nat -> delimited rest ->
    parse_value fuel (print x ++ rest) = Returned (x, rest).

Lemma separator_nonempty {A B} (l : list A) (a : list B) :
  l <> [] -> match l with [] => [] | _ :: _ => a end = a.
Proof. destruct l; [congruence | reflexivity]. Qed.

Lemma parse_elements_printed items :
  Forall reads_back items ->
  forallb representable items = true -> items <> [] ->
  forall fuel rest, (weight_list weight items < fuel)%nat ->
    parse_elements fuel (print_elements print items ++ "]"%char :: rest)
    = Returned (items, rest).
Proof.
  induction 1 as [|x l Hx Hl IH]; [congruence|].
  intros Hrep _ fuel rest Hf.
  cbn [forallb] in Hrep. apply andb_true_iff in Hrep as [Hrx Hrl].
  cbn [weight_list] in Hf.
  destruct fuel as [|fuel]; [lia|].
  cbn [print_elements]. rewrite <- app_assoc.
  cbn [parse_elements].
  assert (Hcase : l = [] \/ l <> [])
    by (destruct l; [left; reflexivity | right; discriminate]).
  destruct Hcase as [-> | Hne].
  - cbn [app]. rewrite (Hx Hrx fuel ("]"%char :: rest)); [|lia|cbn; auto].
    reflexivity.
  - rewrite (separator_nonempty l _ Hne). cbn [app].
    rewrite (Hx Hrx fuel (","%char :: print_elements print l
                            ++ "]"%char :: rest)); [|lia|cbn; auto].
    cbn [obind snd fst skip_ws]. 
    replace (is_ws ","%char) with false by reflexivity.
    replace (Ascii.eqb ","%char ","%char) with true by reflexivity.
    rewrite (IH Hrl Hne fuel rest); [reflexivity | lia].
Qed.

Lemma set_prop_fresh k v o :
  existsb (String.eqb k) (map fst o) = false ->
  set_prop k v o = o ++ [(k, v)].
Proof.
  induction o as [|[k' v'] o IH]; [reflexivity|].
  cbn [map fst existsb set_prop app]. intros H.
  apply orb_false_iff in H as [H1 H2].
  rewrite H1, (IH H2). reflexivity.
Qed.

Lemma object_of_members_acc ms : forall acc,
  nodup_keys (map fst (acc ++ ms)) = true ->
  fold_left (fun o kv => set_prop (fst kv) (snd kv) o) ms acc = acc ++ ms.
Proof.
  induction ms as [|[k v] ms IH]; intros acc H.
  - rewrite app_nil_r. reflexivity.
  - cbn [fold_left fst snd].
    assert (Hfresh : existsb (String.eqb k) (map fst acc) = false).
    { clear IH. induction acc as [|[k' v'] acc IHacc]; [reflexivity|].
      cbn [app map fst nodup_keys existsb] in *.
      apply andb_true_iff in H as [H1 H2].
      rewrite (IHacc H2), orb_false_r.
      apply negb_true_iff in H1.
      rewrite map_app, existsb_app in H1.
      apply orb_false_iff in H1 as [_ H1].
      cbn [map fst existsb] in H1.
      apply orb_false_iff in H1 as [H1 _].
      rewrite String.eqb_sym. exact H1. }
    rewrite (set_prop_fresh _ _ _ Hfresh).
    rewrite IH; rewrite <- app_assoc; [reflexivity | exact H].
Qed.

Lemma object_of_members_nodup ms :
  nodup_keys (map fst ms) = true -> object_of_members ms = ms.
Proof. intros H. apply (object_of_members_acc ms []). exact H. Qed.

Definition prop_reads_back (kv : string * json) : Prop :=
  reads_back (snd kv).

Lemma parse_members_printed props :
  Forall prop_reads_back props ->
  forallb (fun kv => representable (snd kv)) props = true -> props <> [] ->
  forall fuel rest,
    (weight_list (fun kv => weight (snd kv)) props < fuel)%nat ->
    parse_members fuel (print_members print props ++ "}"%char :: rest)
    = Returned (props, rest).
Proof.
  induction 1 as [|[k x] l Hx Hl IH]; [congruence|].
  intros Hrep _ fuel rest Hf.
  cbn [forallb snd] in Hrep. apply andb_true_iff in Hrep as [Hrx Hrl].
  cbn [weight_list snd] in Hf. unfold prop_reads_back in Hx. cbn [snd] in Hx.
  destruct fuel as [|fuel]; [lia|].
  cbn [print_members fst snd]. unfold QuoteJSONString.
  cbn [app]. repeat rewrite <- app_assoc. cbn [app].
  cbn [parse_members skip_ws].
  replace (is_ws dquote) with false by reflexivity.
  replace (Ascii.eqb dquote dquote) with true by reflexivity.
  rewrite parse_chars_quoted.
  cbn [obind fst snd skip_ws].
  replace (is_ws ":"%char) with false by reflexivity.
  replace (Ascii.eqb ":"%char ":"%char) with true by reflexivity.
  assert (Hcase : l = [] \/ l <> [])
    by (destruct l; [left; reflexivity | right; discriminate]).
  destruct Hcase as [-> | Hne].
  - rewrite <- ?app_assoc. cbn [app].
    rewrite (Hx Hrx fuel ("}"%char :: rest)); [|lia|cbn; auto].
    reflexivity.
  - rewrite (separator_nonempty l _ Hne). rewrite <- ?app_assoc. cbn [app].
    rewrite (Hx Hrx fuel (","%char :: print_members print l
                            ++ "}"%char :: rest)); [|lia|cbn; auto].
    cbn [obind snd fst skip_ws].
    replace (is_ws ","%char) with false by reflexivity.
    replace (Ascii.eqb ","%char ","%char) with true by reflexivity.
    rewrite (IH Hrl Hne fuel rest); [reflexivity | lia].
Qed.

Lemma parse_value_printed v : reads_back v.
Proof.
  induction v as [| b | n | s | items IH | props IH] using json_ind;
    intros Hrep fuel rest Hf Hd; (destruct fuel as [|fuel]; [cbn in Hf; lia|]).
  - reflexivity.
  - destruct b; reflexivity.
  - cbn [print]. cbn [representable] in Hrep. apply Z.leb_le in Hrep.
    destruct (Z_to_chars_start n) as (c & tl & E & Hs).
    pose proof (parse_number_printed n rest Hrep Hd) as Hp.
    rewrite E in *. cbn [app] in *.
    rewrite (parse_value_number fuel c _ Hs). exact Hp.
  - cbn [print]. unfold QuoteJSONString. cbn [app]. rewrite <- app_assoc.
    cbn [app parse_value skip_ws].
    replace (is_ws dquote) with false by reflexivity.
    replace (N_of_ascii dquote) with 34%N by reflexivity.
    cbv iota. rewrite parse_chars_quoted. reflexivity.
  - cbn [print app]. rewrite <- app_assoc. cbn [app].
    cbn [parse_value skip_ws].
    replace (is_ws "["%char) with false by reflexivity.
    replace (N_of_ascii "["%char) with 91%N by reflexivity.
    cbv iota.
    cbn [representable] in Hrep. cbn [weight] in Hf.
    destruct items as [|x l]; [reflexivity|].
    rewrite (parse_elements_printed (x :: l) IH Hrep); [|discriminate|lia].
    cbn [print_elements]. rewrite <- app_assoc.
    destruct (print_head x) as (c & tl & -> & Hw & Hb & _).
    cbn [app skip_ws]. rewrite Hw, Hb. reflexivity.
  - cbn [print app]. rewrite <- app_assoc. cbn [app].
    cbn [parse_value skip_ws].
    replace (is_ws "{"%char) with false by reflexivity.
    replace (N_of_ascii "{"%char) with 123%N by reflexivity.
    cbv iota.
    cbn [representable] in Hrep. apply andb_true_iff in Hrep as [Hk Hrep].
    cbn [weight] in Hf.
    destruct props as [|kx l]; [reflexivity|].
    rewrite (parse_members_printed (kx :: l) IH Hrep); [|discriminate|lia].
    cbn [print_members]. unfold QuoteJSONString. cbn [app skip_ws].
    replace (is_ws dquote) with false by reflexivity.
    replace (Ascii.eqb dquote "}"%char) with false by reflexivity.
    cbn [obind fst snd]. rewrite (object_of_members_nodup _ Hk).
    reflexivity.
Qed.

Lemma weight_elements items :
  Forall (fun x => (weight x <= 2 * List.length (print x))%nat) items ->
  (weight_list weight items
   <= 2 * List.length (print_elements print items) + 1)%nat.
Proof.
  induction 1 as [|x l Hx Hl IH]; [cbn; lia|].
  cbn [weight_list print_elements]. rewrite length_app.
  destruct l as [|y l']; [cbn; lia|].
  cbn [List.length]. lia.
Qed.

Lemma weight_members props :
  Forall (fun kv => (weight (snd kv) <= 2 * List.length (print (snd kv)))%nat)
         props ->
  (weight_list (fun kv => weight (snd kv)) props
   <= 2 * List.length (print_members print props) + 1)%nat.
Proof.
  induction 1 as [|x l Hx Hl IH]; [cbn; lia|].
  cbn [weight_list print_members]. rewrite length_app.
  cbn [List.length]. rewrite length_app.
  destruct l as [|y l']; [cbn; lia|].
  cbn [List.length]. lia.
Qed.

Lemma weight_bound v : (weight v <= 2 * List.length (print v))%nat.
Proof.
  induction v as [| b | n | s | items IH | props IH] using json_ind.
  - cbn. lia.
  - destruct b; cbn; lia.
  - destruct (print_head (JNum n)) as (c & tl & -> & _). cbn. lia.
  - cbn. lia.
  - pose proof (weight_elements items IH).
    cbn [weight print List.length]. rewrite length_app. cbn [List.length].
    lia.
  - pose proof (weight_members props IH).
    cbn [weight print List.length]. rewrite length_app. cbn [List.length].
    lia.
Qed.

(** Serialising a representable value and parsing the text gives the value
    back. *)
Lemma parse_stringify v :
  representable v = true -> JSON_parse (JSON_stringify v) = Returned v.
Proof.
  intros Hrep. unfold JSON_parse, JSON_stringify.
  rewrite list_ascii_of_string_of_list_ascii.
  pose proof (weight_bound v) as Hw.
  pose proof (parse_value_printed v Hrep (S (2 * List.length (print v))) [])
    as Hp.
  rewrite app_nil_r in Hp. rewrite Hp; [reflexivity | lia | exact I].
Qed.

(** ** The parser throws nothing but [SyntaxError] *)

Ltac split_match :=
  match goal with
  | H : context [match ?x with _ => _ end] |- _ =>
      lazymatch x with
      | context [match _ with _ => _ end] => fail
      | _ => destruct x eqn:?
      end
  | H : context [if ?x then _ else _] |- _ =>
      lazymatch x with
      | context [if _ then _ else _] => fail
      | _ => destruct x eqn:?
      end
  end.

Lemma obind_thrown {A B} (o : outcome A) (k : A -> outcome B) e :
  obind o k = Thrown e ->
  o = Thrown e \/ exists a, o = Returned a /\ k a = Thrown e.
Proof.
  destruct o; cbn; intros H; [right; eauto | left; congruence | discriminate].
Qed.

Lemma parse_chars_throws n : forall cs e,
  (List.length cs <= n)%nat -> parse_chars cs = Thrown e -> e = SyntaxError.
Proof.
  induction n as [|n IH]; intros cs e Hlen H.
  - destruct cs; [cbn in H; congruence | cbn in Hlen; lia].
  - destruct cs as [|c cs]; [cbn in H; congruence|].
    cbn [parse_chars] in H. cbn [List.length] in Hlen.
    repeat split_match; try congruence;
      apply obind_thrown in H as [H | (? & _ & H)];
      try (unfold cons_char in H; discriminate);
      (eapply IH; [|exact H]); cbn [List.length] in *; lia.
Qed.

Lemma finish_number_throws neg n r e :
  finish_number neg n r = Thrown e -> e = SyntaxError.
Proof. unfold finish_number. intros H. repeat split_match; congruence. Qed.

Lemma parse_number_throws cs e :
  parse_number cs = Thrown e -> e = SyntaxError.
Proof.
  unfold parse_number. intros H.
  repeat split_match; try congruence;
    eapply finish_number_throws; exact H.
Qed.

Lemma parse_value_throws fuel :
  (forall cs e, parse_value fuel cs = Thrown e -> e = SyntaxError)
  /\ (forall cs e, parse_elements fuel cs = Thrown e -> e = SyntaxError)
  /\ (forall cs e, parse_members fuel cs = Thrown e -> e = SyntaxError).
Proof.
  induction fuel as [|fuel (IHv & IHe & IHm)].
  - repeat split; intros cs e H; discriminate H.
  - repeat split; intros cs e H.
    + cbn [parse_value] in H.
      destruct (skip_ws cs) as [|c r]; [congruence|].
      repeat split_match; try congruence;
        try (eapply parse_number_throws; exact H);
        apply obind_thrown in H as [H | (? & _ & H)]; try discriminate;
        eauto using parse_chars_throws.
    + cbn [parse_elements] in H.
      apply obind_thrown in H as [H | (? & _ & H)]; [eauto|].
      repeat split_match; try congruence.
      apply obind_thrown in H as [H | (? & _ & H)]; [eauto | discriminate].
    + cbn [parse_members] in H.
      repeat split_match; try congruence.
      apply obind_thrown in H as [H | (? & _ & H)];
        [eauto using parse_chars_throws|].
      repeat split_match; try congruence.
      apply obind_thrown in H as [H | (? & _ & H)]; [eauto|].
      repeat split_match; try congruence.
      apply obind_thrown in H as [H | (? & _ & H)]; [eauto | discriminate].
Qed.

Lemma JSON_parse_throws text e :
  JSON_parse text = Thrown e -> e = SyntaxError.
Proof.
  unfold JSON_parse. intros H.
  apply obind_thrown in H as [H | (vr & _ & H)].
  - eapply (proj1 (parse_value_throws _)); exact H.
  - destruct (skip_ws (snd vr)); congruence.
Qed.

End JSONFacts.
Import JSONFacts.

(* ------------------------------------------------------------------ *)
(** * Facts about dates *)

Module JSDateFacts.
Import JSDate.

(** [YearFromDay] meets its specification. *)
Lemma YearFromDay_spec d :
  DayFromYear (YearFromDay d) <= d < DayFromYear (YearFromDay d + 1).
Proof.
  unfold YearFromDay.
  set (y0 := 1970 + d * 400 / 146097).
  destruct (Z.ltb_spec d (DayFromYear y0)).
  - replace (y0 - 1 + 1) with y0 by lia. split; [|lia].
    unfold DayFromYear in *. subst y0.
    Z.to_euclidean_division_equations; lia.
  - destruct (Z.leb_spec (DayFromYear (y0 + 1)) d).
    + split; [lia|].
      unfold DayFromYear in *. subst y0.
      Z.to_euclidean_division_equations; lia.
    + lia.
Qed.

Lemma DayFromYear_mono y1 y2 : y1 <= y2 -> DayFromYear y1 <= DayFromYear y2.
Proof.
  intros H. unfold DayFromYear.
  Z.to_euclidean_division_equations; lia.
Qed.

(** ... and is the largest such year. *)
Lemma YearFromTime_largest t y :
  TimeFromYear y <= t -> y <= YearFromTime t.
Proof.
  intros H. unfold YearFromTime, TimeFromYear in *.
  pose proof (YearFromDay_spec (Day t)) as [_ Hlt].
  assert (Hd : DayFromYear y <= Day t).
  { unfold Day, msPerDay in *. Z.to_euclidean_division_equations; lia. }
  destruct (Z.le_gt_cases y (YearFromDay (Day t))) as [|Hgt]; [assumption|].
  pose proof (DayFromYear_mono (YearFromDay (Day t) + 1) y ltac:(lia)).
  lia.
Qed.

Lemma YearFromTime_start t : TimeFromYear (YearFromTime t) <= t.
Proof.
  unfold YearFromTime, TimeFromYear.
  pose proof (YearFromDay_spec (Day t)) as [Hle _].
  unfold Day, msPerDay in *. Z.to_euclidean_division_equations; lia.
Qed.

Lemma MonthFromTime_range t : 0 <= MonthFromTime t <= 11.
Proof.
  unfold MonthFromTime.
  repeat match goal with
         | |- context [if ?b then _ else _] => destruct b
         end; lia.
Qed.

(** The day of the month counts from the first day of the month. *)
Lemma DateFromTime_monthStart t :
  monthStart (MonthFromTime t) (InLeapYear t) + DateFromTime t - 1
  = DayWithinYear t.
Proof.
  unfold DateFromTime, MonthFromTime.
  repeat match goal with
         | |- context [if ?b then _ else _] => destruct b
         end; cbn [monthStart]; lia.
Qed.

Lemma MakeDay_same_month t date :
  MakeDay (YearFromTime t) (MonthFromTime t) date
  = Day t + (date - DateFromTime t).
Proof.
  pose proof (MonthFromTime_range t) as Hm.
  pose proof (DateFromTime_monthStart t) as Hd.
  unfold MakeDay.
  replace (MonthFromTime t / 12) with 0
    by (Z.to_euclidean_division_equations; lia).
  replace (MonthFromTime t mod 12) with (MonthFromTime t)
    by (Z.to_euclidean_division_equations; lia).
  rewrite Z.add_0_r.
  change (if DaysInYear (YearFromTime t) =? 366 then 1 else 0)
    with (InLeapYear t).
  unfold DayWithinYear in Hd. lia.
Qed.

Lemma DayFromYear_next y : DayFromYear (y + 1) = DayFromYear y + DaysInYear y.
Proof.
  unfold DayFromYear, DaysInYear.
  destruct (Z.eqb_spec (y mod 4) 0); cbn [negb];
    destruct (Z.eqb_spec (y mod 100) 0); cbn [negb];
    destruct (Z.eqb_spec (y mod 400) 0); cbn [negb];
    Z.to_euclidean_division_equations; lia.
Qed.

(** The day within the year is a day of that year, so the month table of
    [MonthFromTime] covers it. *)
Lemma DayWithinYear_range t :
  0 <= DayWithinYear t < DaysInYear (YearFromTime t).
Proof.
  unfold DayWithinYear, YearFromTime.
  pose proof (YearFromDay_spec (Day t)) as H.
  rewrite DayFromYear_next in H. lia.
Qed.

(** The first day of a month, as [MakeDay] computes it, is a day of that
    year, of that month, with date 1. *)
Lemma MakeDay_first_of_month y m :
  0 <= m <= 11 ->
  let t := MakeDate (MakeDay y m 1) 0 in
  YearFromTime t = y /\ MonthFromTime t = m /\ DateFromTime t = 1.
Proof.
  intros Hm t.
  assert (Hday : Day t = MakeDay y m 1).
  { unfold t, MakeDate, Day, msPerDay. Z.to_euclidean_division_equations; lia. }
  assert (Hmd : MakeDay y m 1
                = DayFromYear y
                  + monthStart m (if DaysInYear y =? 366 then 1 else 0)).
  { unfold MakeDay.
    replace (m / 12) with 0 by (Z.to_euclidean_division_equations; lia).
    replace (m mod 12) with m by (Z.to_euclidean_division_equations; lia).
    rewrite Z.add_0_r. lia. }
  assert (Hdiy : DaysInYear y = 365 \/ DaysInYear y = 366).
  { unfold DaysInYear.
    repeat match goal with |- context [if ?b then _ else _] => destruct b end;
      auto. }
  assert (Hy : YearFromTime t = y).
  { unfold YearFromTime. rewrite Hday, Hmd.
    pose proof (YearFromDay_spec
                  (DayFromYear y
                   + monthStart m (if DaysInYear y =? 366 then 1 else 0)))
      as Hs.
    set (y' := YearFromDay _) in *.
    pose proof (DayFromYear_next y) as Hn.
    assert (Hrange : 0 <= monthStart m (if DaysInYear y =? 366 then 1 else 0)
                     < DaysInYear y).
    { destruct Hdiy as [E|E]; rewrite E; cbn [Z.eqb Pos.eqb];
        assert (Hcases : m = 0 \/ m = 1 \/ m = 2 \/ m = 3 \/ m = 4 \/ m = 5
                         \/ m = 6 \/ m = 7 \/ m = 8 \/ m = 9 \/ m = 10
                         \/ m = 11) by lia;
        repeat (destruct Hcases as [-> | Hcases]; [cbn; lia|]);
        subst m; cbn; lia. }
    destruct (Z.lt_trichotomy y' y) as [Hlt | [Heq | Hgt]]; [|exact Heq|].
    - pose proof (DayFromYear_mono (y' + 1) y ltac:(lia)). lia.
    - pose proof (DayFromYear_mono (y + 1) y' ltac:(lia)). lia. }
  split; [exact Hy|].
  assert (Hdwy : DayWithinYear t
                 = monthStart m (if DaysInYear y =? 366 then 1 else 0)).
  { unfold DayWithinYear. rewrite Hy, Hday, Hmd. lia. }
  assert (Hleap : InLeapYear t = if DaysInYear y =? 366 then 1 else 0).
  { unfold InLeapYear. rewrite Hy. reflexivity. }
  assert (Hmonth : MonthFromTime t = m).
  { unfold MonthFromTime. rewrite Hdwy, Hleap.
    assert (Hcases : m = 0 \/ m = 1 \/ m = 2 \/ m = 3 \/ m = 4 \/ m = 5
                     \/ m = 6 \/ m = 7 \/ m = 8 \/ m = 9 \/ m = 10
                     \/ m = 11) by lia.
    destruct (DaysInYear y =? 366);
      repeat (destruct Hcases as [-> | Hcases]; [reflexivity|]);
      subst m; reflexivity. }
  split; [exact Hmonth|].
  pose proof (DateFromTime_monthStart t) as Hd.
  rewrite Hmonth, Hleap, Hdwy in Hd. lia.
Qed.

Section Zone.
Variable LocalTZA : Z -> bool -> Z.

(** Moving the day of the month back by [n] moves the local time back by
    [n] whole days and keeps the time within the day. *)
Lemma setDate_days_back now n :
  setDate LocalTZA (Some now)
          (option_map (fun d => d - n) (getDate LocalTZA (Some now)))
  = TimeClip (UTC LocalTZA (LocalTime LocalTZA now - n * msPerDay)).
Proof.
  cbn [getDate option_map setDate]. f_equal. f_equal.
  rewrite MakeDay_same_month. unfold MakeDate, Day, TimeWithinDay.
  pose proof (Z.div_mod (LocalTime LocalTZA now) msPerDay
                        ltac:(unfold msPerDay; lia)).
  lia.
Qed.
End Zone.
End JSDateFacts.

(* ------------------------------------------------------------------ *)
(** * Facts about the reference store *)

Module StoreFacts.

Lemma insert_by_perm o x l : Permutation (insert_by o x l) (x :: l).
Proof.
  induction l as [|y l IH]; cbn [insert_by]; [reflexivity|].
  destruct (precedes o (Row.timestamp x) (Row.timestamp y)); [reflexivity|].
  rewrite IH. apply perm_swap.
Qed.

Lemma sort_by_perm o l : Permutation (sort_by o l) l.
Proof.
  induction l as [|x l IH]; cbn; [reflexivity|].
  fold (sort_by o l). rewrite insert_by_perm. constructor. exact IH.
Qed.

Lemma sort_by_length o l : List.length (sort_by o l) = List.length l.
Proof. apply Permutation_length, sort_by_perm. Qed.

Lemma paginate_incl take skip l : incl (paginate take skip l) l.
Proof.
  unfold paginate. intros x Hx.
  rewrite <- (firstn_skipn (N.to_nat skip) l). apply in_or_app. right.
  rewrite <- (firstn_skipn (N.to_nat take) (skipn (N.to_nat skip) l)).
  apply in_or_app. left. exact Hx.
Qed.

Lemma paginate_length take skip l :
  List.length (paginate take skip l)
  = Nat.min (N.to_nat take) (List.length l - N.to_nat skip).
Proof. unfold paginate. rewrite length_firstn, length_skipn. reflexivity. Qed.

Lemma selected_matches args table r :
  In r (selected args table) ->
  In r table /\ matches (where_ args) r = true.
Proof.
  intros H. apply paginate_incl in H.
  apply (Permutation_in _ (sort_by_perm _ _)) in H.
  apply filter_In in H. exact H.
Qed.

Lemma selected_length args table :
  List.length (selected args table)
  = Nat.min (N.to_nat (take args))
      (List.length (filter (matches (where_ args)) table)
       - N.to_nat (skip args)).
Proof.
  unfold selected. rewrite paginate_length, sort_by_length. reflexivity.
Qed.

Lemma matches_tenant w r t :
  Where.tenantId w = Some t -> matches w r = true -> Row.tenantId r = t.
Proof.
  unfold matches. intros -> H. cbn [holds] in H.
  repeat (apply andb_true_iff in H as [H _]).
  apply String.eqb_eq. exact H.
Qed.

(** ** [Array.prototype.map] with a throwing callback *)

Lemma map_outcome_returned {A B} (f : A -> outcome B) l ys :
  map_outcome f l = Returned ys ->
  Forall2 (fun x y => f x = Returned y) l ys.
Proof.
  revert ys. induction l as [|x l IH]; cbn [map_outcome]; intros ys H.
  - injection H as <-. constructor.
  - destruct (f x) as [y| |] eqn:Ey; try discriminate.
    cbn [obind] in H.
    destruct (map_outcome f l) as [ys'| |] eqn:El; try discriminate.
    cbn [obind] in H. injection H as <-.
    constructor; [exact Ey | apply IH; reflexivity].
Qed.


Lemma map_outcome_thrown {A B} (f : A -> outcome B) l e0 :
  Exists (fun x => f x = Thrown e0) l ->
  Forall (fun x => f x <> Unmodelled
                   /\ forall e, f x = Thrown e -> e = e0) l ->
  map_outcome f l = Thrown e0.
Proof.
  induction l as [|x l IH]; intros Hex Hall.
  - inversion Hex.
  - cbn [map_outcome].
    apply Forall_cons_iff in Hall as [[Hx He] Hall].
    destruct (f x) as [y|e|] eqn:Ey.
    + cbn [obind].
      apply Exists_cons in Hex as [Hthrow|Hex]; [congruence|].
      rewrite (IH Hex Hall). reflexivity.
    + rewrite (He e eq_refl). reflexivity.
    + congruence.
Qed.

Lemma map_outcome_from {A B} (f : A -> outcome B) l ys :
  map_outcome f l = Returned ys ->
  forall y, In y ys -> exists x, In x l /\ f x = Returned y.
Proof.
  intros H. apply map_outcome_returned in H.
  induction H as [|x y l ys Hxy _ IH]; intros z Hz; [inversion Hz|].
  destruct Hz as [<- | Hz].
  - exists x. split; [left; reflexivity | exact Hxy].
  - destruct (IH z Hz) as (x' & Hin & Hx'). exists x'.
    split; [right|]; assumption.
Qed.

Lemma map_outcome_to {A B} (f : A -> outcome B) l ys :
  map_outcome f l = Returned ys ->
  forall x, In x l -> exists y, In y ys /\ f x = Returned y.
Proof.
  intros H. apply map_outcome_returned in H.
  induction H as [|x y l ys Hxy _ IH]; intros z Hz; [inversion Hz|].
  destruct Hz as [<- | Hz].
  - exists y. split; [left; reflexivity | exact Hxy].
  - destruct (IH z Hz) as (y' & Hin & Hy'). exists y'.
    split; [right|]; assumption.
Qed.

Lemma map_outcome_length {A B} (f : A -> outcome B) l ys :
  map_outcome f l = Returned ys -> List.length ys = List.length l.
Proof.
  intros H. apply map_outcome_returned in H.
  induction H; cbn [List.length]; congruence.
Qed.



Lemma filter_ext_eq {A} (p q : A -> bool) l :
  (forall x, p x = q x) -> filter p l = filter q l.
Proof. intros H. apply filter_ext. exact H. Qed.



End StoreFacts.
Import StoreFacts.

(* ------------------------------------------------------------------ *)
(** * Facts about the service on the reference store *)

Module ServiceFacts.
Local Open Scope string_scope.
Local Open Scope Z_scope.

(** ** Running the service on the reference store *)

Lemma queryAuditLogs_memory filter w :
  queryAuditLogs MemoryStore.prisma filter w
  = if dates_valid (query_where filter)
    then (map_outcome deserialize (selected (query_args filter) (db w)), w)
    else (Thrown MemoryStore.invalid_date, w).
Proof.
  unfold queryAuditLogs, bind, lift. cbn [findMany MemoryStore.prisma].
  unfold MemoryStore.findMany. cbn [where_ query_args].
  destruct (dates_valid (query_where filter)); reflexivity.
Qed.

Lemma logAuditEvent_memory entry w :
  logAuditEvent MemoryStore.prisma entry w
  = (Returned tt,
     mkWorld (db w ++ [audit_data entry (clock w)]) (console w) (clock w)).
Proof. reflexivity. Qed.

Lemma deserialize_tenant r log :
  deserialize r = Returned log -> Log.tenantId log = Row.tenantId r.
Proof.
  unfold deserialize. intros H.
  destruct (parse_or_null (Row.changes r)); try discriminate.
  destruct (parse_or_null (Row.metadata r)); try discriminate.
  cbn [obind] in H. injection H as <-. reflexivity.
Qed.

(** The condition [deleteOldLogs] hands to the store, read on a row. *)
Lemma matches_retention tenantId cutoff r :
  matches (retention_where tenantId (Some cutoff)) r
  = String.eqb (Row.tenantId r) tenantId && (Row.timestamp r <? cutoff).
Proof.
  unfold matches, retention_where, date_matches. cbn.
  rewrite !andb_true_r. reflexivity.
Qed.

Lemma deleteOldLogs_memory LocalTZA tenantId retentionDays w :
  let days := match retentionDays with Some n => n | None => 90 end in
  deleteOldLogs MemoryStore.prisma LocalTZA tenantId retentionDays w
  = match JSDate.TimeClip
            (JSDate.UTC LocalTZA
               (JSDate.LocalTime LocalTZA (clock w) - days * JSDate.msPerDay))
    with
    | Some cutoff =>
        let w_ := retention_where tenantId (Some cutoff) in
        (Returned (N.of_nat (List.length (filter (matches w_) (db w)))),
         mkWorld (filter (fun r => negb (matches w_ r)) (db w))
                 (console w) (clock w))
    | None => (Thrown MemoryStore.invalid_date, w)
    end.
Proof.
  intros days. unfold deleteOldLogs, bind, new_Date.
  rewrite JSDateFacts.setDate_days_back. fold days.
  cbn [deleteMany MemoryStore.prisma]. unfold MemoryStore.deleteMany.
  destruct (JSDate.TimeClip _) as [cutoff|]; reflexivity.
Qed.

Lemma queryAuditLogs_length f w logs w' :
  queryAuditLogs MemoryStore.prisma f w = (Returned logs, w') ->
  List.length logs
  = Nat.min (N.to_nat (or_default (Filter.limit f) 100))
            (matching f w - N.to_nat (or_default (Filter.offset f) 0)).
Proof.
  intros H. rewrite queryAuditLogs_memory in H.
  destruct (dates_valid (query_where f)); [|discriminate].
  injection H as H _. apply map_outcome_length in H.
  rewrite H, selected_length. reflexivity.
Qed.


Lemma parse_or_null_text text :
  text <> "" -> parse_or_null (Some text) = JSON_parse text.
Proof.
  intros H. cbn [parse_or_null].
  destruct (String.eqb_spec text ""); [contradiction | reflexivity].
Qed.

Lemma deserialize_changes r log :
  deserialize r = Returned log ->
  parse_or_null (Row.changes r) = Returned (Log.changes log)
  /\ parse_or_null (Row.metadata r) = Returned (Log.metadata log).
Proof.
  unfold deserialize. intros H.
  destruct (parse_or_null (Row.changes r)); try discriminate.
  destruct (parse_or_null (Row.metadata r)); try discriminate.
  cbn [obind] in H. injection H as <-. split; reflexivity.
Qed.

Lemma deserialize_throws r e :
  deserialize r = Thrown e -> e = SyntaxError.
Proof.
  unfold deserialize, parse_or_null. intros H.
  apply obind_thrown in H as [H | (? & _ & H)].
  - repeat split_match; try congruence. eapply JSON_parse_throws; exact H.
  - apply obind_thrown in H as [H | (? & _ & H)]; [|discriminate].
    repeat split_match; try congruence. eapply JSON_parse_throws; exact H.
Qed.

Lemma deserialize_malformed r :
  malformed r -> deserialize r <> Unmodelled ->
  deserialize r = Thrown SyntaxError.
Proof.
  intros (text & Hne & Hfield & Hparse) Hmod.
  destruct (deserialize r) as [log|e|] eqn:E; [|
    rewrite (deserialize_throws _ _ E); reflexivity | congruence].
  exfalso. apply deserialize_changes in E as [Hc Hm].
  destruct Hfield as [H | H]; rewrite H, (parse_or_null_text _ Hne) in *;
    congruence.
Qed.

Lemma parse_stringified_record x :
  record_representable x = true ->
  parse_or_null (stringify_or_null x) = Returned (json_or_null x).
Proof.
  destruct x as [r|]; [|reflexivity]. cbn [record_representable].
  intros Hrep. cbn [stringify_or_null json_or_null parse_or_null].
  rewrite (parse_stringify _ Hrep).
  unfold JSON_stringify. cbn [print string_of_list_ascii String.eqb].
  reflexivity.
Qed.

Lemma deserialize_audit_data entry timestamp :
  record_representable (Entry.changes entry) = true ->
  record_representable (Entry.metadata entry) = true ->
  deserialize (audit_data entry timestamp)
  = Returned (returned_entry entry timestamp).
Proof.
  intros Hc Hm. unfold deserialize, audit_data.
  cbn [Row.changes Row.metadata].
  rewrite (parse_stringified_record _ Hc), (parse_stringified_record _ Hm).
  reflexivity.
Qed.



End ServiceFacts.
Import ServiceFacts.

(* ------------------------------------------------------------------ *)
(** * Facts about the CSV export *)

Module CsvFacts.
Local Open Scope string_scope.
Local Open Scope Z_scope.

Lemma append_assoc' a b c :
  ((a ++ b) ++ c)%string = (a ++ (b ++ c))%string.
Proof.
  induction a as [|x a IH]; cbn; [reflexivity | rewrite IH; reflexivity].
Qed.

Lemma double_quotes_app a b :
  double_quotes (a ++ b) = (double_quotes a ++ double_quotes b)%string.
Proof.
  induction a as [|c a IH]; [reflexivity|].
  cbn [String.append double_quotes].
  destruct (Ascii.eqb c dquote); cbn [String.append]; rewrite IH; reflexivity.
Qed.

Lemma double_quotes_plain c s :
  c <> dquote -> double_quotes (String c s) = String c (double_quotes s).
Proof.
  intros H. cbn [double_quotes].
  destruct (Ascii.eqb_spec c dquote); [contradiction | reflexivity].
Qed.

Lemma read_quoted_doubled cell rest :
  after_cell rest ->
  read_quoted (double_quotes cell ++ String dquote rest) = Some (cell, rest).
Proof.
  intros Hrest. induction cell as [|c cell IH].
  - cbn. destruct Hrest as [-> | [rest' ->]]; reflexivity.
  - cbn [double_quotes]. destruct (Ascii.eqb_spec c dquote) as [-> | Hc].
    + cbn [String.append read_quoted].
      replace (Ascii.eqb dquote dquote) with true by reflexivity.
      rewrite IH. reflexivity.
    + cbn [String.append read_quoted].
      destruct (Ascii.eqb_spec c dquote); [contradiction|].
      rewrite IH. reflexivity.
Qed.

Lemma read_cell_csv_cell cell rest :
  after_cell rest -> read_cell (csv_cell cell ++ rest) = Some (cell, rest).
Proof.
  intros H. unfold csv_cell. cbn [String.append read_cell].
  replace (Ascii.eqb dquote dquote) with true by reflexivity.
  rewrite append_assoc'. cbn [String.append].
  apply read_quoted_doubled, H.
Qed.

Lemma append_nil_r' a : (a ++ "")%string = a.
Proof.
  induction a as [|x a IH]; cbn; [reflexivity | rewrite IH; reflexivity].
Qed.

Lemma read_cells_csv_line row :
  row <> [] ->
  forall fuel, (List.length row <= fuel)%nat ->
    read_cells fuel (csv_line row) = Some row.
Proof.
  unfold csv_line. induction row as [|cell row IH]; [congruence|].
  intros _ fuel Hfuel. destruct fuel as [|fuel]; [cbn in Hfuel; lia|].
  destruct row as [|cell2 row].
  - cbn [map join read_cells].
    rewrite <- (append_nil_r' (csv_cell cell)).
    rewrite read_cell_csv_cell by (left; reflexivity). reflexivity.
  - remember (cell2 :: row) as tail eqn:Etail.
    assert (Hjoin : join "," (map csv_cell (cell :: tail))
                    = (csv_cell cell
                     ++ String ","%char
                          (join "," (map csv_cell tail)))%string).
    { subst tail. reflexivity. }
    rewrite Hjoin. cbn [read_cells].
    rewrite read_cell_csv_cell by (right; eexists; reflexivity).
    replace (Ascii.eqb ","%char ","%char) with true by reflexivity.
    rewrite IH; [reflexivity | subst tail; discriminate |].
    cbn [List.length] in Hfuel. lia.
Qed.

End CsvFacts.
Import CsvFacts.

(* ------------------------------------------------------------------ *)
(** * Facts about the statistics, the recorders and the query *)

Module StatsFacts.
Local Open Scope string_scope.
Local Open Scope Z_scope.

Lemma AuditActionType_value_inj a b :
  AuditActionType_value a = AuditActionType_value b -> a = b.
Proof. destruct a, b; intros H; try reflexivity; discriminate H. Qed.

Lemma AuditActionType_beq_eq a b :
  AuditActionType_beq a b = true <-> a = b.
Proof.
  split; [apply internal_AuditActionType_dec_bl
         | apply internal_AuditActionType_dec_lb].
Qed.

Lemma value_eqb a b :
  String.eqb (AuditActionType_value a) (AuditActionType_value b)
  = AuditActionType_beq a b.
Proof.
  destruct (AuditActionType_beq a b) eqn:E.
  - apply AuditActionType_beq_eq in E. subst. apply String.eqb_refl.
  - apply String.eqb_neq. intros H. apply AuditActionType_value_inj in H.
    apply AuditActionType_beq_eq in H. congruence.
Qed.

Lemma AuditActionType_all_complete a : In a AuditActionType_all.
Proof. destruct a; cbn; tauto. Qed.

Lemma AuditActionType_all_NoDup : NoDup AuditActionType_all.
Proof.
  unfold AuditActionType_all.
  repeat (constructor; [cbn; intros H; repeat destruct H as [H | H];
                          try discriminate H; exact H|]).
  constructor.
Qed.

Lemma existsb_eqb_In k ks : existsb (String.eqb k) ks = true <-> In k ks.
Proof.
  rewrite existsb_exists. split.
  - intros (x & Hin & E). apply String.eqb_eq in E. subst. exact Hin.
  - intros Hin. exists k. split; [exact Hin | apply String.eqb_refl].
Qed.

Lemma nodup_keys_NoDup ks : nodup_keys ks = true <-> NoDup ks.
Proof.
  induction ks as [|k ks IH]; cbn [nodup_keys].
  - split; [constructor | reflexivity].
  - rewrite andb_true_iff, negb_true_iff, IH, NoDup_cons_iff.
    rewrite <- existsb_eqb_In, not_true_iff_false. reflexivity.
Qed.

Lemma NoDup_map_inj {A B} (f : A -> B) l :
  (forall a b, f a = f b -> a = b) -> NoDup l -> NoDup (map f l).
Proof.
  intros Hinj. induction 1 as [|x l Hx _ IH]; cbn [map]; constructor.
  - intros Hin. apply in_map_iff in Hin as (y & Hy & Hin).
    apply Hinj in Hy. subst. contradiction.
  - exact IH.
Qed.

(** The keys of the groups are pairwise different. *)
Lemma group_keys_nodup rows :
  nodup_keys
    (map (fun g => AuditActionType_value (actionType g)) (group_rows rows))
  = true.
Proof.
  apply nodup_keys_NoDup. unfold group_rows. rewrite map_map. cbn [actionType].
  apply NoDup_map_inj.
  - intros a b. apply AuditActionType_value_inj.
  - apply NoDup_filter, AuditActionType_all_NoDup.
Qed.

Lemma fold_left_map {A B C} (f : A -> B -> A) (g : C -> B) l a :
  fold_left f (map g l) a = fold_left (fun x c => f x (g c)) l a.
Proof. revert a. induction l as [|c l IH]; intros a; cbn; auto. Qed.

(** With pairwise different keys, the assignments of [collect_stats] leave
    one property per group. *)
Lemma collect_stats_nodup groups :
  nodup_keys (map (fun g => AuditActionType_value (actionType g)) groups)
  = true ->
  collect_stats groups
  = map (fun g => (AuditActionType_value (actionType g),
                   JNum (Z.of_N (_count g)))) groups.
Proof.
  intros H. unfold collect_stats.
  rewrite <- (object_of_members_nodup
                (map (fun g => (AuditActionType_value (actionType g),
                                JNum (Z.of_N (_count g)))) groups)).
  - unfold object_of_members. rewrite fold_left_map. reflexivity.
  - rewrite map_map. exact H.
Qed.

Lemma get_prop_groups a (F : AuditActionType -> N) l :
  get_prop (AuditActionType_value a)
           (map (fun g => (AuditActionType_value (actionType g),
                           JNum (Z.of_N (_count g))))
                (map (fun b => mkActionTypeCount b (F b)) l))
  = if existsb (AuditActionType_beq a) l
    then Some (JNum (Z.of_N (F a))) else None.
Proof.
  induction l as [|b l IH]; [reflexivity|].
  cbn [map get_prop existsb actionType _count]. rewrite value_eqb.
  destruct (AuditActionType_beq a b) eqn:E; cbn [orb]; [|exact IH].
  apply AuditActionType_beq_eq in E. subst. reflexivity.
Qed.

Lemma existsb_filter_all (p : AuditActionType -> bool) a :
  existsb (AuditActionType_beq a) (filter p AuditActionType_all) = p a.
Proof.
  destruct (p a) eqn:E.
  - apply existsb_exists. exists a. split.
    + apply filter_In. split; [apply AuditActionType_all_complete | exact E].
    + apply AuditActionType_beq_eq. reflexivity.
  - apply not_true_iff_false. intros H. apply existsb_exists in H
      as (b & Hin & Hb). apply AuditActionType_beq_eq in Hb. subst b.
    apply filter_In in Hin as [_ Hp]. congruence.
Qed.

(** What [stats] holds for an action type, from the rows in scope. *)
Lemma stat_group_rows rows a :
  stat (collect_stats (group_rows rows)) a = Z.of_N (count_of a rows)
  /\ get_prop (AuditActionType_value a) (collect_stats (group_rows rows))
     = if (count_of a rows =? 0)%N then None
       else Some (JNum (Z.of_N (count_of a rows))).
Proof.
  assert (H : get_prop (AuditActionType_value a)
                       (collect_stats (group_rows rows))
              = if (count_of a rows =? 0)%N then None
                else Some (JNum (Z.of_N (count_of a rows)))).
  { rewrite (collect_stats_nodup _ (group_keys_nodup rows)).
    unfold group_rows. rewrite get_prop_groups, existsb_filter_all.
    destruct (count_of a rows =? 0)%N; reflexivity. }
  split; [|exact H]. unfold stat. rewrite H.
  destruct (N.eqb_spec (count_of a rows) 0) as [E|E]; [rewrite E|]; reflexivity.
Qed.

Lemma getAuditStats_memory tenantId dateRange w :
  getAuditStats memory_groupBy tenantId dateRange w
  = if dates_valid (stats_where tenantId dateRange)
    then (Returned (collect_stats (group_rows (in_scope tenantId dateRange w))),
          w)
    else (Thrown MemoryStore.invalid_date, w).
Proof.
  unfold getAuditStats, bind, memory_groupBy, in_scope.
  destruct (dates_valid _); reflexivity.
Qed.



Lemma deserialize_fields r log :
  deserialize r = Returned log ->
  Log.actionType log = Row.actionType r
  /\ Log.severity log = Row.severity r
  /\ Log.userId log = Row.userId r
  /\ Log.tenantId log = Row.tenantId r
  /\ Log.targetUserId log = Row.targetUserId r
  /\ Log.targetResourceId log = Row.targetResourceId r
  /\ Log.targetResourceType log = Row.targetResourceType r
  /\ Log.description log = Row.description r
  /\ Log.ipAddress log = Row.ipAddress r
  /\ Log.userAgent log = Row.userAgent r
  /\ Log.timestamp log = Row.timestamp r.
Proof.
  unfold deserialize. intros H.
  destruct (parse_or_null (Row.changes r)); try discriminate.
  destruct (parse_or_null (Row.metadata r)); try discriminate.
  cbn [obind] in H. injection H as <-. repeat split.
Qed.

Lemma logs_of_type_rows a rows logs :
  Forall2 (fun r log => deserialize r = Returned log) rows logs ->
  logs_of_type a logs = count_of a rows.
Proof.
  unfold logs_of_type, count_of. intros H. f_equal.
  induction H as [|r log rows logs Hd _ IH]; [reflexivity|].
  apply deserialize_fields in Hd as (E & _). cbn [filter]. rewrite E.
  destruct (AuditActionType_beq (Row.actionType r) a); cbn [List.length];
    rewrite IH; reflexivity.
Qed.

Lemma filter_length_perm {A} (p : A -> bool) l l' :
  Permutation l l' -> List.length (filter p l) = List.length (filter p l').
Proof.
  induction 1 as [|x l l' _ IH|x y l|l l' l'' _ IH1 _ IH2]; cbn [filter].
  - reflexivity.
  - destruct (p x); cbn [List.length]; rewrite IH; reflexivity.
  - destruct (p x), (p y); reflexivity.
  - congruence.
Qed.

Lemma count_of_perm a l l' : Permutation l l' -> count_of a l = count_of a l'.
Proof. intros H. unfold count_of. f_equal. apply filter_length_perm, H. Qed.

(** A page that holds every matching row is the ordered list of them. *)
Lemma selected_whole args table :
  skip args = 0%N ->
  (List.length (filter (matches (where_ args)) table)
   <= N.to_nat (take args))%nat ->
  selected args table
  = sort_by (orderBy_timestamp args) (filter (matches (where_ args)) table).
Proof.
  intros Hskip Htake. unfold selected, paginate. rewrite Hskip.
  cbn [N.to_nat skipn]. apply firstn_all2. rewrite sort_by_length. exact Htake.
Qed.

(** Each row counts for exactly one action type. *)
Lemma count_one_type t l :
  NoDup l ->
  fold_right (fun a acc => (if AuditActionType_beq t a then 1 else 0) + acc)
             0 l
  = if existsb (AuditActionType_beq t) l then 1 else 0.
Proof.
  induction 1 as [|a l Ha _ IH]; [reflexivity|].
  cbn [fold_right existsb]. rewrite IH.
  destruct (AuditActionType_beq t a) eqn:E; cbn [orb]; [|lia].
  apply AuditActionType_beq_eq in E. subst a.
  destruct (existsb (AuditActionType_beq t) l) eqn:Ex; [|reflexivity].
  exfalso. apply Ha. apply existsb_exists in Ex as (b & Hin & Hb).
  apply AuditActionType_beq_eq in Hb. subst. exact Hin.
Qed.

Lemma count_of_cons a r rows :
  Z.of_N (count_of a (r :: rows))
  = (if AuditActionType_beq (Row.actionType r) a then 1 else 0)
    + Z.of_N (count_of a rows).
Proof.
  unfold count_of. cbn [filter].
  destruct (AuditActionType_beq (Row.actionType r) a); cbn [List.length]; lia.
Qed.

Lemma count_total_on l rows :
  NoDup l ->
  fold_right (fun a acc => Z.of_N (count_of a rows) + acc) 0 l
  = Z.of_nat (List.length
                (filter (fun r => existsb (AuditActionType_beq
                                             (Row.actionType r)) l) rows)).
Proof.
  intros Hl. induction rows as [|r rows IH]; cbn [filter].
  - induction l as [|a l IHl]; [reflexivity|]. cbn [fold_right].
    apply NoDup_cons_iff in Hl as [_ Hl]. rewrite (IHl Hl). reflexivity.
  - pose proof (count_one_type (Row.actionType r) l Hl) as H1.
    assert (Hsplit :
              fold_right (fun a acc => Z.of_N (count_of a (r :: rows)) + acc)
                         0 l
              = fold_right
                  (fun a acc =>
                     (if AuditActionType_beq (Row.actionType r) a
                      then 1 else 0) + acc) 0 l
                + fold_right (fun a acc => Z.of_N (count_of a rows) + acc)
                             0 l).
    { clear. induction l as [|a l IHl]; [reflexivity|].
      cbn [fold_right]. rewrite IHl, count_of_cons. lia. }
    rewrite Hsplit, H1, IH.
    destruct (existsb (AuditActionType_beq (Row.actionType r)) l);
      cbn [List.length]; lia.
Qed.

(** The counts of all action types add up to the number of rows. *)
Lemma count_total rows :
  fold_right (fun a acc => Z.of_N (count_of a rows) + acc) 0
             AuditActionType_all
  = Z.of_nat (List.length rows).
Proof.
  rewrite (count_total_on _ rows AuditActionType_all_NoDup). f_equal. f_equal.
  induction rows as [|r rows IH]; [reflexivity|]. cbn [filter].
  replace (existsb _ AuditActionType_all) with true; [rewrite IH; reflexivity|].
  symmetry. apply existsb_exists. exists (Row.actionType r).
  split; [apply AuditActionType_all_complete
         | apply AuditActionType_beq_eq; reflexivity].
Qed.

Lemma stats_total_rows rows :
  stats_total (collect_stats (group_rows rows)) = Z.of_nat (List.length rows).
Proof.
  unfold stats_total. rewrite <- count_total.
  induction AuditActionType_all as [|a l IH]; [reflexivity|].
  cbn [fold_right]. rewrite IH, (proj1 (stat_group_rows rows a)).
  reflexivity.
Qed.

End StatsFacts.
Import StatsFacts.

Module RecorderFacts.
Local Open Scope string_scope.
Local Open Scope Z_scope.

Lemma logAuditEvent_no_throw prisma entry w error w' :
  logAuditEvent prisma entry w <> (Thrown error, w').
Proof.
  unfold logAuditEvent, try_catch, bind, new_Date, ret, console_error.
  destruct (create prisma (audit_data entry (clock w)) w) as [[r|e|] w1];
    discriminate.
Qed.

Lemma logAuditEvent_records_one entry w :
  records_one (Entry.userId entry) (Entry.tenantId entry) w
              (logAuditEvent MemoryStore.prisma entry w).
Proof.
  exists (audit_data entry (clock w)). rewrite logAuditEvent_memory.
  repeat split.
Qed.

Lemma get_prop_set_prop k k' v o :
  get_prop k (set_prop k' v o)
  = if String.eqb k k' then Some v else get_prop k o.
Proof.
  induction o as [|[k1 v1] o IH]; cbn [set_prop get_prop]; [reflexivity|].
  destruct (String.eqb_spec k' k1) as [->|Hk]; cbn [get_prop].
  - destruct (String.eqb k k1); reflexivity.
  - rewrite IH. destruct (String.eqb_spec k k1) as [->|Hk1]; [|reflexivity].
    destruct (String.eqb_spec k1 k'); [congruence | reflexivity].
Qed.




End RecorderFacts.
Import RecorderFacts.

Module QueryFacts.
Local Open Scope string_scope.
Local Open Scope Z_scope.

Lemma AuditSeverity_beq_eq a b : AuditSeverity_beq a b = true <-> a = b.
Proof.
  split; [apply internal_AuditSeverity_dec_bl
         | apply internal_AuditSeverity_dec_lb].
Qed.

Lemma holds_truthy (o : option string) (p : string -> bool) :
  holds (if truthy_string o then o else None) p = true
  <-> (forall u, o = Some u -> u <> "" -> p u = true).
Proof.
  destruct o as [u|]; cbn [truthy_string].
  - destruct (String.eqb_spec u "") as [->|Hu]; cbn [negb holds]; split;
      try reflexivity.
    + intros _ u [= <-] Hne. congruence.
    + intros H u' [= <-] _. exact H.
    + intros H. apply (H u eq_refl Hu).
  - split; [intros _ u H; discriminate | reflexivity].
Qed.

Lemma holds_enum {A} (eqb : A -> A -> bool) (x : A) (o : option (OneOrMany A)) :
  (forall a b, eqb a b = true <-> a = b) ->
  holds (option_map enum_condition o) (enum_matches eqb x) = true
  <-> ((forall a, o = Some (One a) -> x = a)
       /\ (forall l, o = Some (Many l) -> In x l)).
Proof.
  intros Heq. destruct o as [[a|l]|]; cbn [option_map holds enum_condition
                                             enum_matches].
  - rewrite Heq. split.
    + intros ->. split; [intros a' [= <-]; reflexivity | intros l H; discriminate].
    + intros [H _]. apply H. reflexivity.
  - rewrite existsb_exists. split.
    + intros (y & Hin & Hy). apply Heq in Hy. subst y.
      split; [intros a H; discriminate | intros l' [= <-]; exact Hin].
    + intros [_ H]. exists x. split; [apply H; reflexivity | apply Heq; reflexivity].
  - split; [|reflexivity]. intros _. split; intros ? H; discriminate.
Qed.

Lemma holds_range ts (o : option Filter.DateRange) :
  holds (match o with
         | Some range =>
             Some (mkDateTimeFilter (Some (Filter.startDate range))
                                    (Some (Filter.endDate range)) None)
         | None => None
         end) (date_matches ts) = true
  <-> (forall range, o = Some range ->
         exists startDate endDate,
           Filter.startDate range = Some startDate
           /\ Filter.endDate range = Some endDate
           /\ startDate <= ts <= endDate).
Proof.
  destruct o as [[s e]|]; cbn [holds].
  - unfold date_matches. cbn [gte lte lt holds Filter.startDate Filter.endDate].
    rewrite andb_true_r, andb_true_iff. split.
    + intros [Hs He] range [= <-]. cbn [Filter.startDate Filter.endDate].
      destruct s as [s|]; [|discriminate]. destruct e as [e|]; [|discriminate].
      cbn [bound] in *. exists s, e. repeat split; lia.
    + intros H. destruct (H _ eq_refl) as (s' & e' & Hs & He & Hle).
      cbn [Filter.startDate Filter.endDate] in *. subst. cbn [bound].
      split; lia.
  - split; [intros _ range H; discriminate | reflexivity].
Qed.

(** The [where] object of a query selects exactly the rows that meet the
    filter. *)
Lemma matches_query_where f r :
  matches (query_where f) r = true <-> row_meets f r.
Proof.
  unfold matches, query_where, row_meets, meets.
  cbn [Where.tenantId Where.userId Where.actionType Where.targetUserId
       Where.severity Where.timestamp].
  rewrite !andb_true_iff.
  rewrite (holds_truthy (Filter.userId f)), (holds_truthy (Filter.targetUserId f)).
  rewrite (holds_enum _ _ _ AuditActionType_beq_eq).
  rewrite (holds_enum _ _ _ AuditSeverity_beq_eq).
  rewrite holds_range. cbn [holds]. rewrite String.eqb_eq.
  split.
  - intros (((((Ht & Hu) & Ha1 & Ha2) & Htu) & Hs1 & Hs2) & Hd).
    repeat split; auto.
    + intros u Hu1 Hu2. apply String.eqb_eq. apply (Hu u Hu1 Hu2).
    + intros u Hu1 Hu2. specialize (Htu u Hu1 Hu2).
      unfold string_field_is in Htu.
      destruct (Row.targetUserId r) as [x|]; [|discriminate].
      apply String.eqb_eq in Htu. congruence.
  - intros (Ht & Hu & Ha1 & Ha2 & Htu & Hs1 & Hs2 & Hd).
    repeat split; auto.
    + intros u Hu1 Hu2. apply String.eqb_eq. apply (Hu u Hu1 Hu2).
    + intros u Hu1 Hu2. rewrite (Htu u Hu1 Hu2). cbn [string_field_is].
      apply String.eqb_refl.
Qed.

Lemma deserialize_meets f r log :
  deserialize r = Returned log -> row_meets f r -> log_meets f log.
Proof.
  intros Hd. unfold log_meets, row_meets.
  apply deserialize_fields in Hd
    as (Ea & Es & Eu & Et & Etu & _ & _ & _ & _ & _ & Ets).
  rewrite Ea, Es, Eu, Et, Etu, Ets. exact (fun H => H).
Qed.

(** ** Order *)

Lemma insert_by_desc_sorted x l :
  newest_first (map Row.timestamp l) ->
  newest_first (map Row.timestamp (insert_by desc x l)).
Proof.
  induction l as [|y l IH]; cbn [insert_by map newest_first].
  - intros _. split; [constructor | exact I].
  - intros [Hy Hl]. cbn [precedes].
    destruct (Z.leb_spec (Row.timestamp y) (Row.timestamp x)) as [Hle|Hlt];
      cbn [map newest_first].
    + split; [|split; assumption]. constructor; [exact Hle|].
      eapply Forall_impl; [|exact Hy]. cbn. intros; lia.
    + split; [|apply IH, Hl].
      apply Forall_forall. intros t Ht. apply in_map_iff in Ht as (z & <- & Hz).
      apply (Permutation_in _ (insert_by_perm desc x l)) in Hz.
      destruct Hz as [<- | Hz]; [lia|].
      rewrite Forall_forall in Hy. apply Hy, in_map, Hz.
Qed.

Lemma sort_by_desc_sorted l :
  newest_first (map Row.timestamp (sort_by desc l)).
Proof.
  induction l as [|x l IH]; [exact I|]. apply insert_by_desc_sorted, IH.
Qed.

Lemma newest_first_skipn n : forall l,
  newest_first l -> newest_first (skipn n l).
Proof.
  induction n as [|n IH]; intros [|t l] H; cbn [skipn]; try exact H.
  apply IH, H.
Qed.

Lemma newest_first_firstn n : forall l,
  newest_first l -> newest_first (firstn n l).
Proof.
  induction n as [|n IH]; intros [|t l] H; cbn [firstn]; try exact I.
  destruct H as [Ht Hl]. split; [|apply IH, Hl].
  apply Forall_forall. intros t' Hin. rewrite Forall_forall in Ht. apply Ht.
  rewrite <- (firstn_skipn n l). apply in_or_app. left. exact Hin.
Qed.

Lemma selected_newest_first args table :
  orderBy_timestamp args = desc ->
  newest_first (map Row.timestamp (selected args table)).
Proof.
  intros Ho. unfold selected, paginate. rewrite Ho, <- firstn_map, <- skipn_map.
  apply newest_first_firstn, newest_first_skipn, sort_by_desc_sorted.
Qed.

Lemma deserialized_timestamps rows logs :
  Forall2 (fun r log => deserialize r = Returned log) rows logs ->
  map Log.timestamp logs = map Row.timestamp rows.
Proof.
  induction 1 as [|r log rows logs Hd _ IH]; [reflexivity|].
  cbn [map]. rewrite IH. f_equal. apply deserialize_fields in Hd. tauto.
Qed.

(** ** Pages *)



End QueryFacts.
Import QueryFacts.

Module MoreFacts.
Local Open Scope string_scope.
Local Open Scope Z_scope.

Lemma AuditActionType_beq_sym a b :
  AuditActionType_beq a b = AuditActionType_beq b a.
Proof.
  destruct (AuditActionType_beq a b) eqn:E, (AuditActionType_beq b a) eqn:E';
    try reflexivity.
  - apply AuditActionType_beq_eq in E. subst.
    rewrite (proj2 (AuditActionType_beq_eq b b) eq_refl) in E'. discriminate.
  - apply AuditActionType_beq_eq in E'. subst.
    rewrite (proj2 (AuditActionType_beq_eq a a) eq_refl) in E. discriminate.
Qed.

(** The assignments of [collect_stats], from any starting object: the last
    group of an action type decides. *)
Lemma get_prop_collect a groups : forall base,
  get_prop (AuditActionType_value a)
           (fold_left
              (fun stats group =>
                 set_prop (AuditActionType_value (actionType group))
                          (JNum (Z.of_N (_count group))) stats)
              groups base)
  = match last_count a groups with
    | Some n => Some (JNum (Z.of_N n))
    | None => get_prop (AuditActionType_value a) base
    end.
Proof.
  induction groups as [|g groups IH]; intros base; [reflexivity|].
  cbn [fold_left last_count]. rewrite IH.
  destruct (last_count a groups); [reflexivity|].
  rewrite get_prop_set_prop, value_eqb.
  destruct (AuditActionType_beq a (actionType g)); reflexivity.
Qed.

Lemma get_prop_collect_from key value groups : forall base,
  get_prop key
           (fold_left
              (fun stats group =>
                 set_prop (AuditActionType_value (actionType group))
                          (JNum (Z.of_N (_count group))) stats)
              groups base) = Some value ->
  (exists g, In g groups
             /\ key = AuditActionType_value (actionType g)
             /\ value = JNum (Z.of_N (_count g)))
  \/ get_prop key base = Some value.
Proof.
  induction groups as [|g groups IH]; intros base H; [right; exact H|].
  cbn [fold_left] in H. apply IH in H as [(g' & Hin & Hg') | H].
  - left. exists g'. split; [right; exact Hin | exact Hg'].
  - rewrite get_prop_set_prop in H.
    destruct (String.eqb_spec key (AuditActionType_value (actionType g)))
      as [E|E].
    + injection H as <-. left. exists g. repeat split; [left; reflexivity|].
      exact E.
    + right. exact H.
Qed.

Lemma join_cons sep x l :
  join sep (x :: l) = x ++ fold_right (fun y s => sep ++ y ++ s) "" l.
Proof.
  revert x. induction l as [|y l IH]; intros x.
  - cbn [join fold_right]. symmetry. apply append_nil_r'.
  - change (join sep (x :: y :: l)) with (x ++ sep ++ join sep (y :: l)).
    rewrite IH. reflexivity.
Qed.

Lemma csv_of_rows_lines rows :
  csv_of_rows rows = header_line ++ lines_after rows.
Proof.
  unfold csv_of_rows. rewrite join_cons.
  change (join "," headers) with header_line. f_equal.
  induction rows as [|row rows IH]; [reflexivity|].
  cbn [map fold_right lines_after]. rewrite IH. reflexivity.
Qed.

Lemma filter_implied {A} (p q : A -> bool) l :
  (forall x, p x = true -> q x = true) ->
  filter p (filter q l) = filter p l.
Proof.
  intros H. induction l as [|x l IH]; [reflexivity|]. cbn [filter].
  destruct (q x) eqn:Eq; cbn [filter].
  - rewrite IH. reflexivity.
  - destruct (p x) eqn:Ep; [|exact IH].
    apply H in Ep. congruence.
Qed.


Lemma TimeClip_some t c : JSDate.TimeClip t = Some c -> c = t.
Proof.
  unfold JSDate.TimeClip. destruct (Z.abs t >? JSDate.maxTime); congruence.
Qed.

(** What a returned sweep did, with its cutoff. *)
Lemma deleteOldLogs_returned LocalTZA tenantId retentionDays w n w' :
  deleteOldLogs MemoryStore.prisma LocalTZA tenantId retentionDays w
  = (Returned n, w') ->
  let cutoff :=
    cutoff_of LocalTZA (clock w)
              (match retentionDays with Some d => d | None => 90 end) in
  n = N.of_nat (List.length (filter (expired tenantId cutoff) (db w)))
  /\ w' = mkWorld (filter (fun r => negb (expired tenantId cutoff r)) (db w))
                  (console w) (clock w).
Proof.
  intros H cutoff. rewrite deleteOldLogs_memory in H.
  fold (cutoff_of LocalTZA (clock w)
                  (match retentionDays with Some d => d | None => 90 end))
    in H.
  fold cutoff in H.
  destruct (JSDate.TimeClip cutoff) as [c|] eqn:Hclip; [|discriminate].
  apply TimeClip_some in Hclip. subst c. cbv zeta in H.
  injection H as <- <-. split.
  - f_equal. f_equal. apply filter_ext_eq. intros r. apply matches_retention.
  - f_equal. apply filter_ext_eq. intros r. rewrite matches_retention.
    reflexivity.
Qed.




(** Every entry of a query on the reference store comes from a row that
    the conditions select. *)
Lemma queryAuditLogs_from f w logs w' :
  queryAuditLogs MemoryStore.prisma f w = (Returned logs, w') ->
  forall log, In log logs ->
    exists r, In r (db w) /\ matches (query_where f) r = true
              /\ deserialize r = Returned log.
Proof.
  intros H log Hlog. rewrite queryAuditLogs_memory in H.
  destruct (dates_valid (query_where f)); [|discriminate].
  injection H as H _.
  destruct (map_outcome_from _ _ _ H log Hlog) as (r & Hsel & Hr).
  apply selected_matches in Hsel as [Hin Hm]. exists r. auto.
Qed.

Lemma stats_where_valid tenantId :
  dates_valid (stats_where tenantId None) = true.
Proof. reflexivity. Qed.

Lemma count_of_app a l l' :
  count_of a (l ++ l') = (count_of a l + count_of a l')%N.
Proof. unfold count_of. rewrite filter_app, length_app. lia. Qed.

Lemma matches_stats_where tenantId r :
  matches (stats_where tenantId None) r = String.eqb (Row.tenantId r) tenantId.
Proof.
  unfold matches. cbn. rewrite !andb_true_r. reflexivity.
Qed.

Lemma exportRows_columns prisma tenantId f w rows w' :
  exportRows prisma tenantId f w = (Returned rows, w') ->
  Forall (fun row => List.length row = 8%nat) rows.
Proof.
  unfold exportRows, bind, ret.
  destruct (queryAuditLogs prisma _ w) as [[logs|e|] w1]; try discriminate.
  intros H. injection H as <- _. apply Forall_forall. intros row Hrow.
  apply in_map_iff in Hrow as (log & <- & _). reflexivity.
Qed.

(** ** Ordering newest first *)




(** ** Sweeps by the validity of the cutoff *)






(** ** Tables of one repeated row *)



(** ** Reading an export back *)

Lemma read_quoted_closed cell rest :
  match rest with String c _ => c <> dquote | EmptyString => True end ->
  read_quoted (double_quotes cell ++ String dquote rest) = Some (cell, rest).
Proof.
  intros Hrest. induction cell as [|c cell IH].
  - cbn [double_quotes String.append read_quoted].
    replace (Ascii.eqb dquote dquote) with true by reflexivity.
    destruct rest as [|c rest]; [reflexivity|].
    destruct (Ascii.eqb_spec c dquote); [contradiction | reflexivity].
  - cbn [double_quotes]. destruct (Ascii.eqb_spec c dquote) as [-> | Hc].
    + cbn [String.append read_quoted].
      replace (Ascii.eqb dquote dquote) with true by reflexivity.
      rewrite IH. reflexivity.
    + cbn [String.append read_quoted].
      destruct (Ascii.eqb_spec c dquote); [contradiction|].
      rewrite IH. reflexivity.
Qed.

Lemma read_cell_closed cell rest :
  match rest with String c _ => c <> dquote | EmptyString => True end ->
  read_cell (csv_cell cell ++ rest) = Some (cell, rest).
Proof.
  intros H. unfold csv_cell. cbn [String.append read_cell].
  replace (Ascii.eqb dquote dquote) with true by reflexivity.
  rewrite append_assoc'. cbn [String.append].
  apply read_quoted_closed, H.
Qed.

Lemma read_record_csv_line row rest :
  row <> [] -> after_record rest ->
  forall fuel, (List.length row <= fuel)%nat ->
    read_record fuel (csv_line row ++ rest) = Some (row, rest).
Proof.
  unfold csv_line. induction row as [|cell row IH]; [congruence|].
  intros _ Hrest fuel Hfuel. destruct fuel as [|fuel]; [cbn in Hfuel; lia|].
  destruct row as [|cell2 row].
  - cbn [map join read_record].
    rewrite read_cell_closed.
    + destruct Hrest as [-> | [rest' ->]]; reflexivity.
    + destruct Hrest as [-> | [rest' ->]]; [exact I | discriminate].
  - remember (cell2 :: row) as tail eqn:Etail.
    assert (Hjoin : (join "," (map csv_cell (cell :: tail)) ++ rest)%string
                    = (csv_cell cell
                       ++ String ","%char
                            (join "," (map csv_cell tail) ++ rest))%string).
    { subst tail. cbn [map join]. rewrite append_assoc'. reflexivity. }
    rewrite Hjoin. cbn [read_record].
    rewrite read_cell_closed by discriminate.
    replace (Ascii.eqb ","%char ","%char) with true by reflexivity.
    rewrite IH; [reflexivity | subst tail; discriminate | exact Hrest |].
    cbn [List.length] in Hfuel. lia.
Qed.

Lemma length_append' a b :
  String.length (a ++ b) = (String.length a + String.length b)%nat.
Proof.
  induction a as [|c a IH]; [reflexivity|].
  cbn [String.append String.length]. rewrite IH. reflexivity.
Qed.

Lemma csv_line_length row :
  (List.length row <= String.length (csv_line row))%nat.
Proof.
  unfold csv_line. induction row as [|cell row IH]; [cbn; lia|].
  destruct row as [|cell2 row].
  - cbn [map join List.length csv_cell String.length]. lia.
  - remember (cell2 :: row) as tail eqn:Etail.
    assert (Hjoin : join "," (map csv_cell (cell :: tail))
                    = (csv_cell cell
                       ++ String ","%char
                            (join "," (map csv_cell tail)))%string).
    { subst tail. reflexivity. }
    rewrite Hjoin, length_append'. cbn [String.length List.length].
    lia.
Qed.

Lemma lines_after_app rows rows' :
  lines_after (rows ++ rows')
  = (lines_after rows ++ lines_after rows')%string.
Proof.
  induction rows as [|row rows IH]; [reflexivity|].
  cbn [app lines_after]. rewrite IH, !append_assoc'. reflexivity.
Qed.

Lemma lines_after_start rows :
  after_record (lines_after rows).
Proof. destruct rows; [left | right; eexists]; reflexivity. Qed.

Lemma read_records_lines rows :
  Forall (fun row => row <> []) rows ->
  forall fuel, (List.length rows <= fuel)%nat ->
    read_records fuel (lines_after rows) = Some rows.
Proof.
  induction 1 as [|row rows Hrow _ IH]; intros fuel Hfuel.
  - destruct fuel; reflexivity.
  - destruct fuel as [|fuel]; [cbn in Hfuel; lia|].
    cbn [lines_after]. unfold newline at 1. cbn [String.append read_records].
    replace (Ascii.eqb "010"%char "010"%char) with true by reflexivity.
    rewrite read_record_csv_line.
    + rewrite IH; [reflexivity | cbn [List.length] in Hfuel; lia].
    + exact Hrow.
    + apply lines_after_start.
    + rewrite length_append'. pose proof (csv_line_length row). lia.
Qed.

Lemma lines_after_length rows :
  (List.length rows <= String.length (lines_after rows))%nat.
Proof.
  induction rows as [|row rows IH]; [cbn; lia|].
  cbn [lines_after List.length]. unfold newline at 1.
  cbn [String.append String.length]. rewrite length_append'. lia.
Qed.

Lemma read_body_lines rows :
  Forall (fun row => row <> []) rows ->
  read_body (lines_after rows) = Some rows.
Proof.
  intros H. apply read_records_lines; [exact H | apply lines_after_length].
Qed.

End MoreFacts.
Import MoreFacts.

(* ------------------------------------------------------------------ *)
(** * The properties of the service *)

Local Open Scope string_scope.
Local Open Scope Z_scope.

(** C1. Tenant isolation.  For every filter, the [where] object that
    [queryAuditLogs] builds constrains [tenantId] to the filter's tenant, and
    for every tenant and cutoff so does the one [deleteOldLogs] builds.  On
    the reference store, every entry a query returns is a row of the
    requested tenant, whatever the other filter fields are, and a retention
    sweep keeps every row of every other tenant, in order. *)
Theorem tenant_isolation
        (f : AuditLogFilter) (LocalTZA : Z -> bool -> Z)
        (tenantId : string) (retentionDays : option Z) (w : World) :
  Where.tenantId (query_where f) = Some (Filter.tenantId f)
  /\ (forall cutoffDate,
        Where.tenantId (retention_where tenantId cutoffDate) = Some tenantId)
  /\ (forall logs w',
        queryAuditLogs MemoryStore.prisma f w = (Returned logs, w') ->
        Forall (fun log =>
                  Log.tenantId log = Filter.tenantId f
                  /\ exists r, In r (db w)
                               /\ Row.tenantId r = Filter.tenantId f
                               /\ deserialize r = Returned log) logs)
  /\ (forall n w',
        deleteOldLogs MemoryStore.prisma LocalTZA tenantId retentionDays w
        = (Returned n, w') ->
        (forall r, In r (db w) -> Row.tenantId r <> tenantId -> In r (db w'))
        /\ filter (fun r => negb (String.eqb (Row.tenantId r) tenantId))
                       (db w')
           = filter (fun r => negb (String.eqb (Row.tenantId r) tenantId))
                         (db w)).
Proof.
  split; [reflexivity|]. split; [reflexivity|]. split.
  - intros logs w' H. rewrite queryAuditLogs_memory in H.
    destruct (dates_valid (query_where f)); [|discriminate].
    injection H as H _. apply Forall_forall. intros log Hlog.
    destruct (map_outcome_from _ _ _ H log Hlog) as (r & Hsel & Hr).
    apply selected_matches in Hsel as [Hin Hm].
    apply (matches_tenant _ _ (Filter.tenantId f)) in Hm;
      [|reflexivity].
    split; [rewrite (deserialize_tenant _ _ Hr); exact Hm|].
    exists r. auto.
  - intros n w' H. rewrite deleteOldLogs_memory in H.
    destruct (JSDate.TimeClip _) as [cutoff|]; [|discriminate].
    cbv zeta in H. injection H as _ <-. cbn [db]. split.
    + intros r Hin Hne. apply filter_In. split; [exact Hin|].
      rewrite matches_retention.
      destruct (String.eqb_spec (Row.tenantId r) tenantId); [contradiction|].
      reflexivity.
    + induction (db w) as [|r l IH]; [reflexivity|].
      cbn [filter]. rewrite matches_retention.
      destruct (String.eqb_spec (Row.tenantId r) tenantId) as [E|E];
        cbn [andb negb].
      * destruct (Row.timestamp r <? cutoff); cbn [negb filter]; [exact IH|].
        destruct (String.eqb_spec (Row.tenantId r) tenantId);
          [cbn [negb]; exact IH | contradiction].
      * cbn [filter].
        destruct (String.eqb_spec (Row.tenantId r) tenantId);
          [contradiction|]. cbn [negb]. rewrite IH. reflexivity.
Qed.

Lemma tenant_isolation_witness :
  (exists logs,
      queryAuditLogs MemoryStore.prisma (by_tenant "acme") two_tenants
      = (Returned logs, two_tenants)
      /\ Forall (fun log => Log.tenantId log = "acme") logs)
  /\ In (sample_row "globex" 2000)
        (db (snd (deleteOldLogs MemoryStore.prisma utc_zone "acme" (Some 0)
                                two_tenants))).
Proof.
  pose proof (tenant_isolation (by_tenant "acme") utc_zone "acme" (Some 0)
                               two_tenants) as (_ & _ & Hq & Hd).
  split.
  - eexists. split; [reflexivity|].
    eapply Forall_impl; [|apply (Hq _ two_tenants); reflexivity].
    intros log [H _]. exact H.
  - specialize (Hd 2%N (snd (deleteOldLogs MemoryStore.prisma utc_zone "acme"
                                           (Some 0) two_tenants))
                   eq_refl) as [Hd _].
    apply Hd; [right; left; reflexivity | discriminate].
Defined.




(** C3.  Whatever the store's [create] does, [logAuditEvent] never throws
    to its caller.  When [create] throws, the recorder returns normally and
    the only trace is one message on the console; when [create] returns, so
    does the recorder, with the world [create] left. *)
Theorem logAuditEvent_never_throws
        (prisma : AuditLogDelegate) (entry : AuditLogEntry) (w : World) :
  (forall error w', logAuditEvent prisma entry w <> (Thrown error, w'))
  /\ (forall error w1,
        create prisma (audit_data entry (clock w)) w = (Thrown error, w1) ->
        logAuditEvent prisma entry w
        = (Returned tt,
           mkWorld (db w1)
                   (console w1 ++ [("Failed to log audit event:", error)])
                   (clock w1)))
  /\ (forall created w1,
        create prisma (audit_data entry (clock w)) w = (Returned created, w1) ->
        logAuditEvent prisma entry w = (Returned tt, w1)).
Proof.
  unfold logAuditEvent, try_catch, bind, new_Date, ret, console_error.
  repeat split.
  - intros error w'.
    destruct (create prisma (audit_data entry (clock w)) w) as [[r|e|] w1];
      discriminate.
  - intros error w1 ->. reflexivity.
  - intros created w1 ->. reflexivity.
Qed.

Lemma logAuditEvent_never_throws_witness :
  logAuditEvent failing_store sample_entry two_tenants
  = (Returned tt,
     mkWorld (db two_tenants)
             [("Failed to log audit event:", StoreError "connection refused")]
             (clock two_tenants)).
Proof.
  destruct (logAuditEvent_never_throws failing_store sample_entry two_tenants)
    as (_ & Hfail & _).
  apply (Hfail (StoreError "connection refused") two_tenants).
  reflexivity.
Defined.






(** C6.  [logPermissionChange] records nothing when both permission lists
    are empty (the store is not called at all); when [permissionsAdded] is
    non-empty, whatever [permissionsRemoved] is, it makes exactly one call
    of [logAuditEvent], with an entry of type [PERMISSION_GRANTED], which on
    the reference store adds exactly one row; when only
    [permissionsRemoved] is non-empty, the same with an entry of type
    [PERMISSION_REVOKED]. *)
Theorem logPermissionChange_classification
        (prisma : AuditLogDelegate)
        (userId tenantId targetUserId : string)
        (permissionsAdded permissionsRemoved : list string)
        (metadata : option JSRecord) (w : World) :
  let call store :=
    logPermissionChange store userId tenantId targetUserId
                        permissionsAdded permissionsRemoved metadata in
  let recorded entry :=
    call prisma = logAuditEvent prisma entry
    /\ call MemoryStore.prisma w
       = (Returned tt,
          mkWorld (db w ++ [audit_data entry (clock w)])%list
                  (console w) (clock w)) in
  (permissionsAdded = [] -> permissionsRemoved = [] ->
   call prisma w = (Returned tt, w))
  /\ (permissionsAdded <> [] ->
      exists entry,
        Entry.actionType entry = PERMISSION_GRANTED /\ recorded entry)
  /\ (permissionsAdded = [] -> permissionsRemoved <> [] ->
      exists entry,
        Entry.actionType entry = PERMISSION_REVOKED /\ recorded entry).
Proof.
  intros call recorded. subst call recorded. cbv beta. repeat split.
  - intros -> ->. reflexivity.
  - intros Ha. destruct permissionsAdded as [|a l]; [contradiction|].
    eexists. split; [|split; reflexivity]. reflexivity.
  - intros -> Hr. destruct permissionsRemoved as [|a l]; [contradiction|].
    eexists. split; [|split; reflexivity]. reflexivity.
Qed.

Lemma logPermissionChange_classification_witness :
  (logPermissionChange MemoryStore.prisma "root" "acme" "bob" [] [] None
                       two_tenants = (Returned tt, two_tenants))
  /\ (exists row,
        db (snd (logPermissionChange MemoryStore.prisma "root" "acme" "bob"
                                     ["users.edit"] ["users.delete"] None
                                     two_tenants))
        = (db two_tenants ++ [row])%list
        /\ Row.actionType row = PERMISSION_GRANTED)
  /\ (exists row,
        db (snd (logPermissionChange MemoryStore.prisma "root" "acme" "bob"
                                     [] ["X"] None two_tenants))
        = (db two_tenants ++ [row])%list
        /\ Row.actionType row = PERMISSION_REVOKED).
Proof.
  split; [|split].
  - apply (logPermissionChange_classification
             MemoryStore.prisma "root" "acme" "bob" [] [] None two_tenants);
      reflexivity.
  - destruct (logPermissionChange_classification
                MemoryStore.prisma "root" "acme" "bob"
                ["users.edit"] ["users.delete"] None two_tenants)
      as (_ & H & _).
    destruct (H ltac:(discriminate)) as (entry & Htype & _ & E).
    eexists. rewrite E. split; [reflexivity | exact Htype].
  - destruct (logPermissionChange_classification
                MemoryStore.prisma "root" "acme" "bob"
                [] ["X"] None two_tenants)
      as (_ & _ & H).
    destruct (H eq_refl ltac:(discriminate)) as (entry & Htype & _ & E).
    eexists. rewrite E. split; [reflexivity | exact Htype].
Defined.

(** C7.  [logRoleChange] always makes exactly one call of [logAuditEvent],
    with a [ROLE_CHANGED] entry, also when [fromRole] equals [toRole]; on
    the reference store that adds exactly one row, the row of that entry.
    The severity of the entry, of the stored row and of the entry a query
    reads back from the row is [CRITICAL] exactly when the destination role
    is [SUPER_ADMIN] or [ADMIN], and [INFO] exactly otherwise; the row has
    the action type [ROLE_CHANGED] and the caller's user, tenant and
    target. *)
Theorem logRoleChange_severity
        (prisma : AuditLogDelegate)
        (userId tenantId targetUserId fromRole toRole : string)
        (reason : option string) (w : World) :
  exists entry row log,
    logRoleChange prisma userId tenantId targetUserId fromRole toRole reason
    = logAuditEvent prisma entry
    /\ logRoleChange MemoryStore.prisma userId tenantId targetUserId
                     fromRole toRole reason w
       = (Returned tt,
          mkWorld (db w ++ [row])%list (console w) (clock w))
    /\ row = audit_data entry (clock w)
    /\ Entry.actionType entry = ROLE_CHANGED
    /\ (Entry.severity entry = CRITICAL
        <-> (toRole = "SUPER_ADMIN" \/ toRole = "ADMIN"))
    /\ (Entry.severity entry = INFO
        <-> ~ (toRole = "SUPER_ADMIN" \/ toRole = "ADMIN"))
    /\ Row.actionType row = ROLE_CHANGED
    /\ (Row.severity row = CRITICAL
        <-> (toRole = "SUPER_ADMIN" \/ toRole = "ADMIN"))
    /\ (Row.severity row = INFO
        <-> ~ (toRole = "SUPER_ADMIN" \/ toRole = "ADMIN"))
    /\ Row.userId row = userId
    /\ Row.tenantId row = tenantId
    /\ Row.targetUserId row = Some targetUserId
    /\ deserialize row = Returned log
    /\ Log.actionType log = ROLE_CHANGED
    /\ (Log.severity log = CRITICAL
        <-> (toRole = "SUPER_ADMIN" \/ toRole = "ADMIN"))
    /\ (Log.severity log = INFO
        <-> ~ (toRole = "SUPER_ADMIN" \/ toRole = "ADMIN")).
Proof.
  assert (Hseverity :
            forall s : AuditSeverity,
              s = (if existsb (String.eqb toRole) ["SUPER_ADMIN"; "ADMIN"]
                   then CRITICAL else INFO) ->
              (s = CRITICAL <-> (toRole = "SUPER_ADMIN" \/ toRole = "ADMIN"))
              /\ (s = INFO
                  <-> ~ (toRole = "SUPER_ADMIN" \/ toRole = "ADMIN"))).
  { intros s ->. cbn [existsb].
    destruct (String.eqb_spec toRole "SUPER_ADMIN") as [E1|E1];
      destruct (String.eqb_spec toRole "ADMIN") as [E2|E2]; cbn [orb];
      (split; split; intros H; try discriminate H; try reflexivity; tauto). }
  eexists. eexists. eexists.
  split; [reflexivity|]. split; [apply logAuditEvent_memory|].
  split; [reflexivity|]. split; [reflexivity|].
  split; [apply (Hseverity _ eq_refl)|]. split; [apply (Hseverity _ eq_refl)|].
  split; [reflexivity|].
  split; [apply (Hseverity _ eq_refl)|]. split; [apply (Hseverity _ eq_refl)|].
  split; [reflexivity|]. split; [reflexivity|]. split; [reflexivity|].
  split.
  - apply deserialize_audit_data; cbn [Entry.changes Entry.metadata].
    + reflexivity.
    + destruct reason as [text|]; [|reflexivity].
      cbn [truthy_string]. destruct (String.eqb text ""); reflexivity.
  - split; [reflexivity|].
    split; apply (Hseverity _ eq_refl).
Qed.

Lemma logRoleChange_severity_witness :
  (exists row,
      db (snd (logRoleChange MemoryStore.prisma "root" "acme" "bob"
                             "VIEWER" "ADMIN" None two_tenants))
      = (db two_tenants ++ [row])%list
      /\ Row.actionType row = ROLE_CHANGED
      /\ Row.severity row = CRITICAL)
  /\ (exists row,
        db (snd (logRoleChange MemoryStore.prisma "root" "acme" "bob"
                               "ADMIN" "VIEWER" (Some "left the team")
                               two_tenants))
        = (db two_tenants ++ [row])%list
        /\ Row.actionType row = ROLE_CHANGED
        /\ Row.severity row = INFO)
  /\ (exists row,
        db (snd (logRoleChange MemoryStore.prisma "root" "acme" "bob"
                               "VIEWER" "VIEWER" None two_tenants))
        = (db two_tenants ++ [row])%list
        /\ Row.actionType row = ROLE_CHANGED
        /\ Row.severity row = INFO).
Proof.
  split; [|split].
  - destruct (logRoleChange_severity
                MemoryStore.prisma "root" "acme" "bob" "VIEWER" "ADMIN" None
                two_tenants)
      as (entry & row & log & _ & Hcall & _ & _ & _ & _ & Htype & Hcrit & _).
    exists row. rewrite Hcall. split; [reflexivity|]. split; [exact Htype|].
    apply Hcrit. right. reflexivity.
  - destruct (logRoleChange_severity
                MemoryStore.prisma "root" "acme" "bob" "ADMIN" "VIEWER"
                (Some "left the team") two_tenants)
      as (entry & row & log & _ & Hcall & _ & _ & _ & _ & Htype & _ & Hinfo
          & _).
    exists row. rewrite Hcall. split; [reflexivity|]. split; [exact Htype|].
    apply Hinfo. intros [H | H]; discriminate H.
  - destruct (logRoleChange_severity
                MemoryStore.prisma "root" "acme" "bob" "VIEWER" "VIEWER" None
                two_tenants)
      as (entry & row & log & _ & Hcall & _ & _ & _ & _ & Htype & _ & Hinfo
          & _).
    exists row. rewrite Hcall. split; [reflexivity|]. split; [exact Htype|].
    apply Hinfo. intros [H | H]; discriminate H.
Defined.

Example logRoleChange_same_role :
  exists row,
    db (snd (logRoleChange MemoryStore.prisma "root" "acme" "bob"
                           "ADMIN" "ADMIN" None two_tenants))
    = (db two_tenants ++ [row])%list
    /\ Row.severity row = CRITICAL.
Proof. eexists. split; reflexivity. Qed.




(** C9.  When the query of [exportAuditLogs] returns, the export returns
    the header line followed, for every returned entry in order, by a line
    break and the line of the entry: its eight fields (timestamp, action
    type, severity, user id, target user id, resource type, description,
    IP address), each between two double quotes with every double quote of
    the field doubled and nothing else changed (commas and line breaks
    included), separated by commas; a missing optional field is the empty
    text between quotes.  For the description that reads Say, a space, then
    hi between double quotes, the cell doubles both quotes and wraps the
    whole in one more pair.  A reader of quoted records gets the fields of
    every exported entry back from the text after the header, whatever
    characters they hold. *)
Theorem export_csv_quoting
        (prisma : AuditLogDelegate) (tenantId : string)
        (f : option AuditLogFilter) (w w' : World) (logs : list Log.t)
        (log : Log.t) (cell a b : string) (c : ascii)
        (Hquery : queryAuditLogs prisma (export_filter tenantId f) w
                  = (Returned logs, w')) :
  csv_cell cell
  = String dquote (double_quotes cell ++ String dquote EmptyString)
  /\ double_quotes (String dquote EmptyString)
     = String dquote (String dquote EmptyString)
  /\ (c <> dquote -> double_quotes (String c a) = String c (double_quotes a))
  /\ double_quotes (a ++ b) = (double_quotes a ++ double_quotes b)%string
  /\ csv_cell ("Say " ++ String dquote ("hi" ++ String dquote ""))
     = String dquote
         ("Say " ++ String dquote (String dquote
            ("hi" ++ String dquote (String dquote (String dquote "")))))
  /\ csv_cell (or_empty None) = String dquote (String dquote EmptyString)
  /\ csv_line (export_row log)
     = join ","
         [csv_cell (JSDate.toISOString (Log.timestamp log));
          csv_cell (AuditActionType_value (Log.actionType log));
          csv_cell (AuditSeverity_value (Log.severity log));
          csv_cell (Log.userId log);
          csv_cell (or_empty (Log.targetUserId log));
          csv_cell (or_empty (Log.targetResourceType log));
          csv_cell (Log.description log);
          csv_cell (or_empty (Log.ipAddress log))]
  /\ read_cells 8 (csv_line (export_row log)) = Some (export_row log)
  /\ (forall rows,
        csv_of_rows rows
        = join newline (join "," headers :: map csv_line rows))
  /\ exportAuditLogs prisma tenantId f w
     = (Returned (header_line ++ lines_after (map export_row logs)), w')
  /\ (forall before entry after,
        logs = (before ++ entry :: after)%list ->
        header_line ++ lines_after (map export_row logs)
        = (header_line ++ lines_after (map export_row before))
          ++ newline
          ++ join ","
               [csv_cell (JSDate.toISOString (Log.timestamp entry));
                csv_cell (AuditActionType_value (Log.actionType entry));
                csv_cell (AuditSeverity_value (Log.severity entry));
                csv_cell (Log.userId entry);
                csv_cell (or_empty (Log.targetUserId entry));
                csv_cell (or_empty (Log.targetResourceType entry));
                csv_cell (Log.description entry);
                csv_cell (or_empty (Log.ipAddress entry))]
          ++ lines_after (map export_row after))
  /\ read_body (lines_after (map export_row logs))
     = Some (map export_row logs).
Proof.
  split; [reflexivity|]. split; [reflexivity|].
  split; [apply double_quotes_plain|]. split; [apply double_quotes_app|].
  split; [reflexivity|]. split; [reflexivity|]. split; [reflexivity|].
  split; [apply read_cells_csv_line; [discriminate | cbn; lia]|].
  split; [reflexivity|]. split; [|split].
  - unfold exportAuditLogs, exportRows, bind, ret. rewrite Hquery.
    rewrite csv_of_rows_lines. reflexivity.
  - intros before entry after ->. rewrite map_app. cbn [map].
    rewrite lines_after_app. cbn [lines_after].
    rewrite !append_assoc'. reflexivity.
  - apply read_body_lines. apply Forall_forall. intros row Hrow.
    apply in_map_iff in Hrow as (entry & <- & _). discriminate.
Qed.

Lemma export_csv_quoting_witness :
  exportAuditLogs MemoryStore.prisma "acme" None quoting_world
  = (Returned
       (header_line
        ++ newline
        ++ q ++ "1970-01-01T00:00:02.000Z" ++ q ++ ","
        ++ q ++ "LOGIN" ++ q ++ "," ++ q ++ "WARNING" ++ q ++ ","
        ++ q ++ "a,b" ++ q ++ "," ++ q ++ q ++ "," ++ q ++ q ++ ","
        ++ q ++ "line one" ++ newline ++ "line two" ++ q ++ ","
        ++ q ++ q
        ++ newline
        ++ q ++ "1970-01-01T00:00:01.000Z" ++ q ++ ","
        ++ q ++ "USER_UPDATED" ++ q ++ "," ++ q ++ "INFO" ++ q ++ ","
        ++ q ++ "alice" ++ q ++ "," ++ q ++ "bob" ++ q ++ ","
        ++ q ++ "USER" ++ q ++ ","
        ++ q ++ "Say " ++ q ++ q ++ "hi" ++ q ++ q ++ q ++ ","
        ++ q ++ "10.0.0.1" ++ q),
     quoting_world)
  /\ read_body
       (newline
        ++ q ++ "1970-01-01T00:00:02.000Z" ++ q ++ ","
        ++ q ++ "LOGIN" ++ q ++ "," ++ q ++ "WARNING" ++ q ++ ","
        ++ q ++ "a,b" ++ q ++ "," ++ q ++ q ++ "," ++ q ++ q ++ ","
        ++ q ++ "line one" ++ newline ++ "line two" ++ q ++ ","
        ++ q ++ q
        ++ newline
        ++ q ++ "1970-01-01T00:00:01.000Z" ++ q ++ ","
        ++ q ++ "USER_UPDATED" ++ q ++ "," ++ q ++ "INFO" ++ q ++ ","
        ++ q ++ "alice" ++ q ++ "," ++ q ++ "bob" ++ q ++ ","
        ++ q ++ "USER" ++ q ++ ","
        ++ q ++ "Say " ++ q ++ q ++ "hi" ++ q ++ q ++ q ++ ","
        ++ q ++ "10.0.0.1" ++ q)
     = Some [["1970-01-01T00:00:02.000Z"; "LOGIN"; "WARNING"; "a,b"; ""; "";
              "line one" ++ newline ++ "line two"; ""];
             ["1970-01-01T00:00:01.000Z"; "USER_UPDATED"; "INFO"; "alice";
              "bob"; "USER"; "Say " ++ q ++ "hi" ++ q; "10.0.0.1"]].
Proof.
  destruct (export_csv_quoting
              MemoryStore.prisma "acme" None quoting_world quoting_world
              [Log.mk LOGIN WARNING "a,b" "acme" None None None
                      ("line one" ++ newline ++ "line two") JNull JNull
                      None None 2000;
               Log.mk USER_UPDATED INFO "alice" "acme" (Some "bob") None
                      (Some "USER") ("Say " ++ q ++ "hi" ++ q) JNull JNull
                      (Some "10.0.0.1") None 1000]
              (Log.mk LOGIN INFO "alice" "acme" None None None "signed in"
                      JNull JNull None None 0)
              "" "" "" "a"%char eq_refl)
    as (_ & _ & _ & _ & _ & _ & _ & _ & _ & Hexport & _ & Hread).
  split; [exact Hexport | exact Hread].
Defined.

(** C10.  A [limit] of 0 and an [offset] of 0 are falsy and fall through
    to the defaults: with [limit] 0 the store is asked for 100 rows, the
    query is the one made with no [limit] at all, and on the reference store
    it returns up to 100 entries; with [offset] 0 the query is the one made
    with no [offset]. *)
Theorem zero_limit_is_default
        (prisma : AuditLogDelegate) (f : AuditLogFilter) (w : World) :
  take (query_args (with_limit f (Some 0%N))) = 100%N
  /\ skip (query_args (with_offset f (Some 0%N))) = 0%N
  /\ queryAuditLogs prisma (with_limit f (Some 0%N)) w
     = queryAuditLogs prisma (with_limit f None) w
  /\ queryAuditLogs prisma (with_offset f (Some 0%N)) w
     = queryAuditLogs prisma (with_offset f None) w
  /\ (forall logs w',
        queryAuditLogs MemoryStore.prisma (with_limit f (Some 0%N)) w
        = (Returned logs, w') ->
        List.length logs
        = Nat.min 100 (matching f w
                       - N.to_nat (or_default (Filter.offset f) 0))).
Proof.
  repeat split.
  intros logs w' H. apply queryAuditLogs_length in H. exact H.
Qed.

Lemma zero_limit_is_default_witness :
  exists logs,
    queryAuditLogs MemoryStore.prisma
                   (with_limit (by_tenant "acme") (Some 0%N)) two_tenants
    = (Returned logs, two_tenants)
    /\ List.length logs = 2%nat.
Proof.
  eexists. split; [reflexivity|].
  destruct (zero_limit_is_default MemoryStore.prisma (by_tenant "acme")
                                  two_tenants) as (_ & _ & _ & _ & H).
  rewrite (H _ two_tenants eq_refl). reflexivity.
Defined.

(* ------------------------------------------------------------------ *)
(** * Further properties of the service *)



(** X2.  The statistics agree with the query.  When a query with the same
    tenant and date range, no other condition, and a limit that covers
    every row in scope returns, [getAuditStats] returns as well, the count
    of every action type is the number of returned entries of that type,
    and the counts add up to the number of returned entries. *)
Theorem getAuditStats_agrees_with_query
        (tenantId : string) (dateRange : option Filter.DateRange)
        (limit : N) (w w' : World) (logs : list Log.t)
        (Hlimit : (0 < limit)%N)
        (Hpage : (N.of_nat (List.length (in_scope tenantId dateRange w))
                  <= limit)%N)
        (Hquery : queryAuditLogs MemoryStore.prisma
                                 (scope_filter tenantId dateRange limit) w
                  = (Returned logs, w')) :
  exists stats,
    getAuditStats memory_groupBy tenantId dateRange w = (Returned stats, w)
    /\ (forall a, stat stats a = Z.of_N (logs_of_type a logs))
    /\ stats_total stats = Z.of_nat (List.length logs).
Proof.
  rewrite queryAuditLogs_memory in Hquery.
  change (query_where (scope_filter tenantId dateRange limit))
    with (stats_where tenantId dateRange) in Hquery.
  rewrite getAuditStats_memory.
  destruct (dates_valid (stats_where tenantId dateRange)); [|discriminate].
  injection Hquery as Hlogs _.
  rewrite selected_whole in Hlogs.
  - apply map_outcome_returned in Hlogs.
    eexists. split; [reflexivity|]. split.
    + intros a. rewrite (proj1 (stat_group_rows _ a)).
      rewrite (logs_of_type_rows a _ _ Hlogs). f_equal.
      apply count_of_perm. symmetry. apply sort_by_perm.
    + rewrite stats_total_rows. f_equal.
      rewrite <- (Forall2_length Hlogs), sort_by_length. reflexivity.
  - cbn [query_args skip or_default Filter.offset scope_filter]. reflexivity.
  - cbn [query_args take or_default Filter.limit scope_filter where_].
    change (query_where (scope_filter tenantId dateRange limit))
      with (stats_where tenantId dateRange).
    fold (in_scope tenantId dateRange w).
    destruct (N.eqb_spec limit 0); lia.
Qed.

Lemma getAuditStats_agrees_with_query_witness :
  exists stats,
    getAuditStats memory_groupBy "acme" None two_tenants
    = (Returned stats, two_tenants)
    /\ stat stats LOGIN = 2
    /\ stats_total stats = 2.
Proof.
  destruct (getAuditStats_agrees_with_query
              "acme" None 100 two_tenants two_tenants
              [returned_entry
                 (Entry.mk LOGIN INFO "alice" "acme" None None None
                           "signed in" None None None None) 3000;
               returned_entry
                 (Entry.mk LOGIN INFO "alice" "acme" None None None
                           "signed in" None None None None) 1000])
    as (stats & Hstats & Hstat & Htotal).
  - reflexivity.
  - cbn. lia.
  - reflexivity.
  - exists stats. split; [exact Hstats|]. split.
    + rewrite Hstat. reflexivity.
    + rewrite Htotal. reflexivity.
Defined.

(** X3.  None of the four recorders built on [logAuditEvent] ends in a
    throw, whatever the store does: [logPermissionChange], [logRoleChange],
    [logSettingsChange] and [logBulkOperation]. *)
Theorem recorders_never_throw
        (prisma : AuditLogDelegate) (w w' : World) (error : JsError) :
  (forall userId tenantId targetUserId added removed metadata,
      logPermissionChange prisma userId tenantId targetUserId
                          added removed metadata w <> (Thrown error, w'))
  /\ (forall userId tenantId targetUserId fromRole toRole reason,
        logRoleChange prisma userId tenantId targetUserId
                      fromRole toRole reason w <> (Thrown error, w'))
  /\ (forall userId tenantId section changes,
        logSettingsChange prisma userId tenantId section changes w
        <> (Thrown error, w'))
  /\ (forall userId tenantId operationType affectedUserCount status metadata,
        logBulkOperation prisma userId tenantId operationType
                         affectedUserCount status metadata w
        <> (Thrown error, w')).
Proof.
  repeat split; intros.
  - unfold logPermissionChange.
    destruct (negb _); [discriminate | apply logAuditEvent_no_throw].
  - apply logAuditEvent_no_throw.
  - apply logAuditEvent_no_throw.
  - apply logAuditEvent_no_throw.
Qed.

(** X4.  On the reference store every recorder only appends:
    [logRoleChange], [logSettingsChange] and [logBulkOperation] add exactly
    one row at the end of the table, with the caller's user and tenant and
    the clock as timestamp, and change no existing row, no console line and
    not the clock; [logPermissionChange] does the same or, with nothing to
    report, leaves the world as it is. *)
Theorem recorders_append_only (userId tenantId : string) (w : World) :
  (forall targetUserId added removed metadata,
      let result :=
        logPermissionChange MemoryStore.prisma userId tenantId targetUserId
                            added removed metadata w in
      result = (Returned tt, w) \/ records_one userId tenantId w result)
  /\ (forall targetUserId fromRole toRole reason,
        records_one userId tenantId w
          (logRoleChange MemoryStore.prisma userId tenantId targetUserId
                         fromRole toRole reason w))
  /\ (forall section changes,
        records_one userId tenantId w
          (logSettingsChange MemoryStore.prisma userId tenantId section
                             changes w))
  /\ (forall operationType affectedUserCount status metadata,
        records_one userId tenantId w
          (logBulkOperation MemoryStore.prisma userId tenantId operationType
                            affectedUserCount status metadata w)).
Proof.
  repeat split; intros.
  - unfold logPermissionChange in *. subst result.
    destruct (negb _); [left; reflexivity | right].
    apply (logAuditEvent_records_one (Entry.mk _ _ _ _ _ _ _ _ _ _ _ _)).
  - apply (logAuditEvent_records_one (Entry.mk _ _ _ _ _ _ _ _ _ _ _ _)).
  - apply (logAuditEvent_records_one (Entry.mk _ _ _ _ _ _ _ _ _ _ _ _)).
  - apply (logAuditEvent_records_one (Entry.mk _ _ _ _ _ _ _ _ _ _ _ _)).
Qed.

(** X5.  [logBulkOperation] is exactly one call of [logAuditEvent], with
    the action type of the status (started, completed or failed), severity
    [WARNING] exactly when the status is [FAILED] and [INFO] otherwise, the
    resource type BULK_OPERATION and no [changes]. *)
Theorem logBulkOperation_classification
        (prisma : AuditLogDelegate)
        (userId tenantId operationType : string) (affectedUserCount : Z)
        (status : BulkStatus) (metadata : option JSRecord) :
  exists entry,
    logBulkOperation prisma userId tenantId operationType affectedUserCount
                     status metadata
    = logAuditEvent prisma entry
    /\ Entry.actionType entry
       = match status with
         | STARTED => BULK_OPERATION_STARTED
         | COMPLETED => BULK_OPERATION_COMPLETED
         | FAILED => BULK_OPERATION_FAILED
         end
    /\ (Entry.severity entry = WARNING <-> status = FAILED)
    /\ (Entry.severity entry = INFO <-> status <> FAILED)
    /\ Entry.targetResourceType entry = Some "BULK_OPERATION"
    /\ Entry.changes entry = None.
Proof.
  eexists. split; [reflexivity|]. cbn [Entry.actionType Entry.severity
    Entry.targetResourceType Entry.changes].
  repeat split; destruct status; intros; congruence.
Qed.



(** X7.  What [logRoleChange] records on the reference store reads back:
    the new row deserialises, its [changes] are the two roles, its
    [metadata] is the reason when one is given and is not the empty text,
    and [null] otherwise; an empty reason is recorded exactly as no
    reason. *)
Theorem logRoleChange_readable
        (userId tenantId targetUserId fromRole toRole : string)
        (reason : option string) (w : World) :
  exists row log,
    logRoleChange MemoryStore.prisma userId tenantId targetUserId
                  fromRole toRole reason w
    = (Returned tt, mkWorld (db w ++ [row])%list (console w) (clock w))
    /\ deserialize row = Returned log
    /\ Log.changes log
       = JObj [("fromRole", JStr fromRole); ("toRole", JStr toRole)]
    /\ Log.metadata log
       = match reason with
         | Some text =>
             if String.eqb text "" then JNull
             else JObj [("reason", JStr text)]
         | None => JNull
         end
    /\ logRoleChange MemoryStore.prisma userId tenantId targetUserId
                     fromRole toRole (Some "")
       = logRoleChange MemoryStore.prisma userId tenantId targetUserId
                       fromRole toRole None.
Proof.
  eexists. eexists. split; [reflexivity|]. split.
  - apply deserialize_audit_data; cbn [Entry.changes Entry.metadata].
    + reflexivity.
    + destruct reason as [text|]; [|reflexivity].
      cbn [truthy_string]. destruct (String.eqb text ""); reflexivity.
  - cbn [returned_entry Log.changes Log.metadata Entry.changes Entry.metadata
         json_or_null].
    split; [reflexivity|]. split; [|reflexivity].
    destruct reason as [text|]; [|reflexivity].
    cbn [truthy_string or_empty]. destruct (String.eqb text ""); reflexivity.
Qed.



(** X9.  A query on the reference store returns its entries newest first:
    no entry is older than one that comes after it. *)
Theorem queryAuditLogs_newest_first
        (f : AuditLogFilter) (w w' : World) (logs : list Log.t)
        (Hquery : queryAuditLogs MemoryStore.prisma f w = (Returned logs, w')) :
  newest_first (map Log.timestamp logs).
Proof.
  rewrite queryAuditLogs_memory in Hquery.
  destruct (dates_valid (query_where f)); [|discriminate].
  injection Hquery as Hlogs _. apply map_outcome_returned in Hlogs.
  rewrite (deserialized_timestamps _ _ Hlogs).
  apply selected_newest_first. reflexivity.
Qed.

(** X10.  Every entry a query returns on the reference store meets every
    condition of the filter: the tenant; the user and the target user, when
    given and not empty; the action type and the severity, a single one or
    one of a list; and the date range, both bounds included. *)
Theorem queryAuditLogs_meets_filter
        (f : AuditLogFilter) (w w' : World) (logs : list Log.t)
        (Hquery : queryAuditLogs MemoryStore.prisma f w = (Returned logs, w')) :
  Forall (log_meets f) logs.
Proof.
  rewrite queryAuditLogs_memory in Hquery.
  destruct (dates_valid (query_where f)); [|discriminate].
  injection Hquery as Hlogs _. apply Forall_forall. intros log Hlog.
  destruct (map_outcome_from _ _ _ Hlogs log Hlog) as (r & Hsel & Hr).
  apply selected_matches in Hsel as [_ Hm].
  apply matches_query_where in Hm. exact (deserialize_meets f r log Hr Hm).
Qed.

(** X11.  A query without offset whose limit covers every matching row
    misses nothing: it returns as many entries as rows match, and every row
    of the table that meets the conditions of the filter is among them. *)
Theorem queryAuditLogs_complete
        (f : AuditLogFilter) (w w' : World) (logs : list Log.t)
        (Hoffset : or_default (Filter.offset f) 0 = 0%N)
        (Hlimit : (N.of_nat (matching f w)
                   <= or_default (Filter.limit f) 100)%N)
        (Hquery : queryAuditLogs MemoryStore.prisma f w = (Returned logs, w')) :
  List.length logs = matching f w
  /\ (forall r, In r (db w) -> row_meets f r ->
                exists log, In log logs /\ deserialize r = Returned log).
Proof.
  rewrite queryAuditLogs_memory in Hquery.
  destruct (dates_valid (query_where f)); [|discriminate].
  injection Hquery as Hlogs _.
  rewrite selected_whole in Hlogs;
    [| exact Hoffset | unfold matching in Hlimit; cbn [query_args take where_];
                       lia].
  split.
  - rewrite (map_outcome_length _ _ _ Hlogs), sort_by_length. reflexivity.
  - intros r Hin Hmeets. apply (map_outcome_to _ _ _ Hlogs).
    apply (Permutation_in _ (Permutation_sym (sort_by_perm _ _))).
    apply filter_In. split; [exact Hin | apply matches_query_where, Hmeets].
Qed.

Lemma queryAuditLogs_newest_first_witness :
  exists logs,
    queryAuditLogs MemoryStore.prisma (by_tenant "acme") two_tenants
    = (Returned logs, two_tenants)
    /\ newest_first (map Log.timestamp logs).
Proof.
  eexists. split; [reflexivity|].
  apply (queryAuditLogs_newest_first (by_tenant "acme") two_tenants
                                     two_tenants). reflexivity.
Defined.

Lemma queryAuditLogs_meets_filter_witness :
  exists logs,
    queryAuditLogs MemoryStore.prisma around_now
                   (snd (logAuditEvent MemoryStore.prisma sample_entry
                                       two_tenants))
    = (Returned logs,
       snd (logAuditEvent MemoryStore.prisma sample_entry two_tenants))
    /\ Forall (log_meets around_now) logs.
Proof.
  eexists. split; [vm_compute; reflexivity|].
  apply (queryAuditLogs_meets_filter
           around_now
           (snd (logAuditEvent MemoryStore.prisma sample_entry two_tenants))
           (snd (logAuditEvent MemoryStore.prisma sample_entry two_tenants))).
  vm_compute. reflexivity.
Defined.

Lemma queryAuditLogs_complete_witness :
  exists logs,
    queryAuditLogs MemoryStore.prisma (by_tenant "acme") two_tenants
    = (Returned logs, two_tenants)
    /\ List.length logs = 2%nat.
Proof.
  eexists. split; [reflexivity|].
  apply (queryAuditLogs_complete (by_tenant "acme") two_tenants two_tenants);
    reflexivity || (cbn; lia).
Defined.

(** X12.  An empty [userId] or [targetUserId] is falsy and adds no
    condition: the query is the one made without it, for any store, and it
    selects the same rows. *)
Theorem queryAuditLogs_blank_ids_ignored
        (prisma : AuditLogDelegate) (f : AuditLogFilter) :
  queryAuditLogs prisma (with_userId f (Some ""))
  = queryAuditLogs prisma (with_userId f None)
  /\ queryAuditLogs prisma (with_targetUserId f (Some ""))
     = queryAuditLogs prisma (with_targetUserId f None)
  /\ (forall w, matching (with_userId f (Some "")) w
                = matching (with_userId f None) w).
Proof. repeat split. Qed.

(** X13.  An empty list of action types or of severities is truthy and
    becomes a membership condition that no row passes: on the reference
    store the query returns no entry. *)
Theorem queryAuditLogs_empty_set
        (f : AuditLogFilter) (w w' : World) (logs : list Log.t)
        (Hempty : Filter.actionType f = Some (Many [])
                  \/ Filter.severity f = Some (Many []))
        (Hquery : queryAuditLogs MemoryStore.prisma f w = (Returned logs, w')) :
  logs = [].
Proof.
  rewrite queryAuditLogs_memory in Hquery.
  destruct (dates_valid (query_where f)); [|discriminate].
  injection Hquery as Hlogs _.
  destruct logs as [|log logs]; [reflexivity|]. exfalso.
  destruct (map_outcome_from _ _ _ Hlogs log (or_introl eq_refl))
    as (r & Hsel & _).
  apply selected_matches in Hsel as [_ Hm].
  apply matches_query_where in Hm.
  destruct Hm as (_ & _ & _ & Ha & _ & _ & Hs & _).
  destruct Hempty as [H | H]; [apply (Ha [] H) | apply (Hs [] H)].
Qed.

Lemma queryAuditLogs_empty_set_witness :
  exists logs,
    queryAuditLogs MemoryStore.prisma
      (Filter.mk None "acme" (Some (Many [])) None None None None None)
      two_tenants
    = (Returned logs, two_tenants)
    /\ logs = [].
Proof.
  eexists. split; [vm_compute; reflexivity|].
  apply (queryAuditLogs_empty_set
           (Filter.mk None "acme" (Some (Many [])) None None None None None)
           two_tenants two_tenants);
    [left; reflexivity | vm_compute; reflexivity].
Defined.



(** X15.  [getAuditStats] over any [groupBy]: the [where] object
    constrains the tenant; when [groupBy] returns, [stats] has for every
    action type the count of the last group of that type, and no property
    when there is no such group, and every key of [stats] is the action
    type of a group; when [groupBy] throws, the error propagates
    unchanged. *)
Theorem getAuditStats_collects
        (groupBy : GroupBy) (tenantId : string)
        (dateRange : option Filter.DateRange) (w : World) :
  Where.tenantId (stats_where tenantId dateRange) = Some tenantId
  /\ (forall groups w',
        groupBy (stats_where tenantId dateRange) w = (Returned groups, w') ->
        exists stats,
          getAuditStats groupBy tenantId dateRange w = (Returned stats, w')
          /\ (forall a,
                get_prop (AuditActionType_value a) stats
                = option_map (fun n => JNum (Z.of_N n)) (last_count a groups))
          /\ (forall key value,
                get_prop key stats = Some value ->
                exists group,
                  In group groups
                  /\ key = AuditActionType_value (actionType group)))
  /\ (forall error w',
        groupBy (stats_where tenantId dateRange) w = (Thrown error, w') ->
        getAuditStats groupBy tenantId dateRange w = (Thrown error, w')).
Proof.
  split; [reflexivity|]. split.
  - intros groups w' H. exists (collect_stats groups).
    unfold getAuditStats, bind, ret. rewrite H. split; [reflexivity|]. split.
    + intros a. unfold collect_stats. rewrite get_prop_collect.
      destruct (last_count a groups); reflexivity.
    + intros key value Hget. unfold collect_stats in Hget.
      apply get_prop_collect_from in Hget as [(g & Hin & Hk & _) | Hget];
        [|discriminate Hget].
      exists g. split; assumption.
  - intros error w' H. unfold getAuditStats, bind. rewrite H. reflexivity.
Qed.

Lemma getAuditStats_collects_witness :
  (exists stats,
      getAuditStats repeating_groupBy "acme" None two_tenants
      = (Returned stats, two_tenants)
      /\ get_prop "LOGIN" stats = Some (JNum 4)
      /\ get_prop "LOGOUT" stats = Some (JNum 5)
      /\ get_prop "ROLE_CHANGED" stats = None)
  /\ getAuditStats (fun _ => throw (StoreError "connection refused"))
                   "acme" None two_tenants
     = (Thrown (StoreError "connection refused"), two_tenants).
Proof.
  destruct (getAuditStats_collects repeating_groupBy "acme" None two_tenants)
    as (_ & Hret & _).
  destruct (Hret _ two_tenants eq_refl) as (stats & Hstats & Hget & _).
  split.
  - exists stats. split; [exact Hstats|].
    pose proof (Hget LOGIN) as H1. pose proof (Hget LOGOUT) as H2.
    pose proof (Hget ROLE_CHANGED) as H3. repeat split; assumption.
  - destruct (getAuditStats_collects
                (fun _ => throw (StoreError "connection refused"))
                "acme" None two_tenants) as (_ & _ & Hthrow).
    apply Hthrow. reflexivity.
Defined.

(** X16.  [exportAuditLogs] exports for its [tenantId] argument: the
    [tenantId] of the caller's filter plays no part, no filter at all is
    the filter with no condition, and on the reference store every exported
    row is built from an entry of the requested tenant. *)
Theorem exportAuditLogs_tenant_override
        (prisma : AuditLogDelegate) (tenantId other : string)
        (f : AuditLogFilter) (w : World) :
  exportAuditLogs prisma tenantId (Some (with_tenantId f other))
  = exportAuditLogs prisma tenantId (Some f)
  /\ exportAuditLogs prisma tenantId None
     = exportAuditLogs prisma tenantId (Some (by_tenant other))
  /\ (forall rows w',
        exportRows MemoryStore.prisma tenantId
                   (Some (with_tenantId f other)) w = (Returned rows, w') ->
        exists logs,
          rows = map export_row logs
          /\ Forall (fun log =>
                       Log.tenantId log = tenantId
                       /\ exists r, In r (db w)
                                    /\ Row.tenantId r = tenantId
                                    /\ deserialize r = Returned log) logs).
Proof.
  split; [reflexivity|]. split; [reflexivity|].
  intros rows w' H. unfold exportRows, bind, ret in H.
  destruct (queryAuditLogs MemoryStore.prisma _ w) as [[logs|e|] w1] eqn:Hq;
    try discriminate.
  injection H as <- _. exists logs. split; [reflexivity|].
  apply Forall_forall. intros log Hlog.
  destruct (queryAuditLogs_from _ _ _ _ Hq log Hlog) as (r & Hin & Hm & Hr).
  apply (matches_tenant _ _ tenantId) in Hm; [|reflexivity].
  split; [rewrite (deserialize_tenant _ _ Hr); exact Hm|].
  exists r. auto.
Qed.

Lemma exportAuditLogs_tenant_override_witness :
  exists logs,
    exportRows MemoryStore.prisma "acme"
               (Some (with_tenantId (by_tenant "acme") "globex")) two_tenants
    = (Returned (map export_row logs), two_tenants)
    /\ Forall (fun log => Log.tenantId log = "acme") logs.
Proof.
  destruct (exportAuditLogs_tenant_override
              MemoryStore.prisma "acme" "globex" (by_tenant "acme")
              two_tenants) as (_ & _ & H).
  destruct (H _ two_tenants eq_refl) as (logs & Hrows & Hlogs).
  exists logs. split; [rewrite <- Hrows; reflexivity|].
  eapply Forall_impl; [|exact Hlogs]. intros log [Ht _]. exact Ht.
Defined.

(** X17.  The layout of an export that returns: the text is the header
    line (the eight column names separated by commas, not quoted) followed,
    for each exported row in order, by a line break and the line of the
    row; with no row the text is the header line alone, with no line break
    after it; every row has eight cells. *)
Theorem exportAuditLogs_layout
        (prisma : AuditLogDelegate) (tenantId : string)
        (f : option AuditLogFilter) (w w' : World) (csv : string)
        (Hexport : exportAuditLogs prisma tenantId f w = (Returned csv, w')) :
  exists rows,
    exportRows prisma tenantId f w = (Returned rows, w')
    /\ csv = header_line ++ lines_after rows
    /\ (rows = [] -> csv = header_line)
    /\ Forall (fun row => List.length row = 8%nat) rows.
Proof.
  unfold exportAuditLogs, bind, ret in Hexport.
  destruct (exportRows prisma tenantId f w) as [[rows|e|] w1] eqn:Hrows;
    try discriminate.
  injection Hexport as <- <-. exists rows. split; [reflexivity|].
  split; [apply csv_of_rows_lines|]. split.
  - intros ->. reflexivity.
  - apply (exportRows_columns _ _ _ _ _ _ Hrows).
Qed.

Lemma exportAuditLogs_layout_witness :
  exists rows,
    exportRows MemoryStore.prisma "globex" None two_tenants
    = (Returned rows, two_tenants)
    /\ exportAuditLogs MemoryStore.prisma "globex" None two_tenants
       = (Returned (header_line ++ lines_after rows), two_tenants)
    /\ rows = [["1970-01-01T00:00:02.000Z"; "LOGIN"; "INFO"; "alice"; "";
                ""; "signed in"; ""]].
Proof.
  destruct (exportAuditLogs_layout
              MemoryStore.prisma "globex" None two_tenants two_tenants
              (csv_of_rows
                 [["1970-01-01T00:00:02.000Z"; "LOGIN"; "INFO"; "alice"; "";
                   ""; "signed in"; ""]]))
    as (rows & Hrows & Hcsv & _).
  - vm_compute. reflexivity.
  - exists rows. split; [exact Hrows|]. split.
    + rewrite <- Hcsv. vm_compute. reflexivity.
    + vm_compute in Hrows. injection Hrows as <-. reflexivity.
Defined.

(** X18.  On the reference store, when one of the rows selected for the
    export holds a [changes] or [metadata] text that [JSON.parse] rejects
    (and no row is outside the model), [exportAuditLogs] throws the
    [SyntaxError] and produces no text, although neither column is
    exported. *)
Theorem exportAuditLogs_malformed_row
        (tenantId : string) (f : option AuditLogFilter) (w : World)
        (Hdates : dates_valid (query_where (export_filter tenantId f)) = true)
        (Hmalformed :
           Exists malformed
                  (selected (query_args (export_filter tenantId f)) (db w)))
        (Hmodel :
           Forall (fun r => deserialize r <> Unmodelled)
                  (selected (query_args (export_filter tenantId f)) (db w))) :
  exportAuditLogs MemoryStore.prisma tenantId f w = (Thrown SyntaxError, w).
Proof.
  unfold exportAuditLogs, exportRows, bind.
  rewrite queryAuditLogs_memory, Hdates.
  rewrite (map_outcome_thrown deserialize _ SyntaxError); [reflexivity| |].
  - apply Exists_exists in Hmalformed as (r & Hin & Hr).
    apply Exists_exists. exists r. split; [exact Hin|].
    apply deserialize_malformed; [exact Hr|].
    rewrite Forall_forall in Hmodel. apply Hmodel, Hin.
  - eapply Forall_impl; [|exact Hmodel]. intros r Hr.
    split; [exact Hr | apply deserialize_throws].
Qed.

Lemma exportAuditLogs_malformed_row_witness :
  exportAuditLogs MemoryStore.prisma "acme" None malformed_world
  = (Thrown SyntaxError, malformed_world).
Proof.
  apply (exportAuditLogs_malformed_row "acme" None malformed_world).
  - reflexivity.
  - left. exists "{". repeat split; [discriminate | left; reflexivity].
  - repeat constructor; discriminate.
Defined.

(** X19.  After a retention sweep that returned, on the reference store:
    every entry a query for the swept tenant returns has a timestamp at or
    after the cutoff; a query for any other tenant gives what it gave
    before the sweep; and the number the sweep returned is the number of
    rows the table lost. *)
Theorem deleteOldLogs_then_query
        (LocalTZA : Z -> bool -> Z) (tenantId : string)
        (retentionDays : option Z) (f : AuditLogFilter)
        (w w' : World) (n : N)
        (Hsweep : deleteOldLogs MemoryStore.prisma LocalTZA tenantId
                                retentionDays w = (Returned n, w')) :
  let cutoff :=
    cutoff_of LocalTZA (clock w)
              (match retentionDays with Some d => d | None => 90 end) in
  (Filter.tenantId f = tenantId ->
   forall logs w'',
     queryAuditLogs MemoryStore.prisma f w' = (Returned logs, w'') ->
     Forall (fun log => cutoff <= Log.timestamp log) logs)
  /\ (Filter.tenantId f <> tenantId ->
      fst (queryAuditLogs MemoryStore.prisma f w')
      = fst (queryAuditLogs MemoryStore.prisma f w))
  /\ (N.of_nat (List.length (db w)) = n + N.of_nat (List.length (db w')))%N.
Proof.
  intros cutoff.
  apply deleteOldLogs_returned in Hsweep as [Hn Hw']. fold cutoff in Hn, Hw'.
  split; [|split].
  - intros Ht logs w'' Hq. apply Forall_forall. intros log Hlog.
    destruct (queryAuditLogs_from _ _ _ _ Hq log Hlog) as (r & Hin & Hm & Hr).
    apply (matches_tenant _ _ (Filter.tenantId f)) in Hm; [|reflexivity].
    subst w'. cbn [db] in Hin. apply filter_In in Hin as [_ Hkeep].
    apply deserialize_fields in Hr.
    destruct Hr as (_ & _ & _ & _ & _ & _ & _ & _ & _ & _ & Hts).
    rewrite Hts. unfold expired in Hkeep. rewrite Hm, Ht in Hkeep.
    rewrite String.eqb_refl in Hkeep. cbn [andb] in Hkeep.
    apply negb_true_iff, Z.ltb_ge in Hkeep. exact Hkeep.
  - intros Hne. rewrite !queryAuditLogs_memory.
    destruct (dates_valid (query_where f)); [|reflexivity]. cbn [fst].
    f_equal. unfold selected. subst w'. cbn [db]. f_equal. f_equal.
    apply filter_implied. intros r Hm.
    apply (matches_tenant _ _ (Filter.tenantId f)) in Hm; [|reflexivity].
    unfold expired.
    destruct (String.eqb_spec (Row.tenantId r) tenantId);
      [congruence | reflexivity].
  - subst n w'. cbn [db].
    rewrite <- (filter_length (expired tenantId cutoff) (db w)). lia.
Qed.

Lemma deleteOldLogs_then_query_witness :
  exists logs,
    queryAuditLogs MemoryStore.prisma (by_tenant "acme")
      (snd (deleteOldLogs MemoryStore.prisma utc_zone "acme" None
                          retention_world))
    = (Returned logs,
       snd (deleteOldLogs MemoryStore.prisma utc_zone "acme" None
                          retention_world))
    /\ Forall (fun log => 1700000000000 - 90 * 86400000 <= Log.timestamp log)
              logs
    /\ List.length logs = 2%nat.
Proof.
  eexists. split; [vm_compute; reflexivity|]. split; [|reflexivity].
  destruct (deleteOldLogs_then_query
              utc_zone "acme" None (by_tenant "acme") retention_world
              (snd (deleteOldLogs MemoryStore.prisma utc_zone "acme" None
                                  retention_world))
              2%N) as (H & _).
  - vm_compute. reflexivity.
  - apply (H eq_refl _
             (snd (deleteOldLogs MemoryStore.prisma utc_zone "acme" None
                                 retention_world))).
    vm_compute. reflexivity.
Defined.



(** X21.  Recording shows in the statistics.  On the reference store,
    with no date range, [logAuditEvent] raises the count of the entry's
    action type by one in the statistics of the entry's tenant and changes
    no other count, of that tenant or of any other; the total grows by one
    for the entry's tenant and not at all for another. *)
Theorem getAuditStats_after_record
        (entry : AuditLogEntry) (tenantId : string) (w : World) :
  exists stats stats' w',
    getAuditStats memory_groupBy tenantId None w = (Returned stats, w)
    /\ logAuditEvent MemoryStore.prisma entry w = (Returned tt, w')
    /\ getAuditStats memory_groupBy tenantId None w' = (Returned stats', w')
    /\ (forall a, stat stats' a = stat stats a + counted entry tenantId a)
    /\ stats_total stats'
       = stats_total stats
         + (if String.eqb (Entry.tenantId entry) tenantId then 1 else 0).
Proof.
  eexists. eexists. eexists.
  rewrite !getAuditStats_memory, stats_where_valid, logAuditEvent_memory.
  split; [reflexivity|]. split; [reflexivity|]. split; [reflexivity|].
  unfold in_scope. cbn [db]. rewrite filter_app. cbn [filter].
  rewrite matches_stats_where. cbn [audit_data Row.tenantId].
  split.
  - intros a. rewrite !(proj1 (stat_group_rows _ a)), count_of_app.
    unfold counted.
    destruct (String.eqb (Entry.tenantId entry) tenantId); cbn [andb].
    + unfold count_of at 2. cbn [filter].
      change (Row.actionType (audit_data entry (clock w)))
        with (Entry.actionType entry).
      destruct (AuditActionType_beq (Entry.actionType entry) a);
        cbn [List.length]; lia.
    + unfold count_of at 2. cbn [filter List.length]. lia.
  - rewrite !stats_total_rows, length_app.
    destruct (String.eqb (Entry.tenantId entry) tenantId); cbn [List.length];
      lia.
Qed.



(** X23.  Store errors propagate from the reading and the sweeping
    operations and not from the recorder: when [findMany] throws,
    [queryAuditLogs] and [exportAuditLogs] throw the same error; when
    [deleteMany] throws, so does [deleteOldLogs]; each in the world the
    store left.  When [create] throws, [logAuditEvent] returns and has
    written one line with the error to the console. *)
Theorem store_errors_propagate
        (prisma : AuditLogDelegate) (LocalTZA : Z -> bool -> Z)
        (error : JsError) (w w' : World) :
  (forall f,
      findMany prisma (query_args f) w = (Thrown error, w') ->
      queryAuditLogs prisma f w = (Thrown error, w'))
  /\ (forall tenantId f,
        findMany prisma (query_args (export_filter tenantId f)) w
        = (Thrown error, w') ->
        exportAuditLogs prisma tenantId f w = (Thrown error, w'))
  /\ (forall tenantId retentionDays,
        (forall w_, deleteMany prisma w_ w = (Thrown error, w')) ->
        deleteOldLogs prisma LocalTZA tenantId retentionDays w
        = (Thrown error, w'))
  /\ (forall entry,
        (forall data, create prisma data w = (Thrown error, w')) ->
        logAuditEvent prisma entry w
        = (Returned tt,
           mkWorld (db w')
                   (console w' ++ [("Failed to log audit event:", error)])
                   (clock w'))).
Proof.
  repeat split.
  - intros f H. unfold queryAuditLogs, bind. rewrite H. reflexivity.
  - intros tenantId f H.
    unfold exportAuditLogs, exportRows, queryAuditLogs, bind.
    rewrite H. reflexivity.
  - intros tenantId retentionDays H.
    unfold deleteOldLogs, bind, new_Date. rewrite H. reflexivity.
  - intros entry H.
    unfold logAuditEvent, try_catch, bind, new_Date. rewrite H. reflexivity.
Qed.

Lemma store_errors_propagate_witness :
  queryAuditLogs unreachable_store (by_tenant "acme") two_tenants
  = (Thrown (StoreError "connection refused"), two_tenants)
  /\ exportAuditLogs unreachable_store "acme" None two_tenants
     = (Thrown (StoreError "connection refused"), two_tenants)
  /\ deleteOldLogs unreachable_store utc_zone "acme" None two_tenants
     = (Thrown (StoreError "connection refused"), two_tenants)
  /\ fst (logAuditEvent unreachable_store sample_entry two_tenants)
     = Returned tt.
Proof.
  destruct (store_errors_propagate
              unreachable_store utc_zone (StoreError "connection refused")
              two_tenants two_tenants) as (Hq & He & Hd & Hl).
  split; [apply Hq; reflexivity|]. split; [apply He; reflexivity|].
  split; [apply Hd; reflexivity|].
  rewrite Hl; reflexivity.
Defined.
